(** * GitHub Projects MCP server: tool handlers over an explicit network log

    Shallow embedding of [src/index.ts].  Every tool handler is a program in
    a small promise monad that threads the log of network calls; the GitHub
    GraphQL and REST endpoints are an arbitrary, history-dependent
    environment.  Strings are sequences of code units, each [ascii] standing
    for one unit; the two glyphs of the fixed output (the bullet and the
    palette) stand as their bytes.  Letter case is folded on ASCII only: a
    statement that compares two names up to case assumes them [ascii_only].
    JSON numbers are integers, printed in decimal as JavaScript prints the
    integers it represents exactly (up to 2^53 in magnitude). *)

From Stdlib Require Import String Ascii ZArith List Bool Lia.
From stdpp Require Import base option list gmap strings pretty.
Import ListNotations.
Local Open Scope string_scope.
Local Open Scope list_scope.

(** ** JavaScript values and string primitives *)

Module JS.

#[local] Set Warnings "-register-all".

Inductive jsval : Type :=
| VUndefined
| VNull
| VBool (b : bool)
| VNum (n : Z)
| VStr (s : string)
| VArr (l : list jsval)
| VObj (l : list (string * jsval)).

(** The double quote, written by its code so that literals stay plain. *)
Definition dq : string := String (ascii_of_nat 34) EmptyString.

(** [String.prototype.toLowerCase] on ASCII text: there it folds [A-Z] and
    nothing else.  Beyond ASCII the method folds every cased letter, which
    this function does not; [ascii_only] marks the text it is exact on. *)
Definition lower_ascii (c : ascii) : ascii :=
  let n := nat_of_ascii c in
  if (65 <=? n)%nat && (n <=? 90)%nat then ascii_of_nat (n + 32) else c.

Fixpoint toLowerCase (s : string) : string :=
  match s with
  | EmptyString => EmptyString
  | String c s' => String (lower_ascii c) (toLowerCase s')
  end.

(** Every code unit of the text is ASCII (below 128). *)
Fixpoint ascii_only (s : string) : bool :=
  match s with
  | EmptyString => true
  | String c s' => (nat_of_ascii c <? 128)%nat && ascii_only s'
  end.

(** [s.includes(sub)]: [sub] occurs in [s] at some offset. *)
Fixpoint includes (s sub : string) : bool :=
  String.prefix sub s ||
  match s with
  | EmptyString => false
  | String _ s' => includes s' sub
  end.

(** [arr.join(sep)]. *)
Definition join (sep : string) (l : list string) : string := String.concat sep l.

(** Truthiness of a string and of an optional string ([undefined] is falsy,
    and so is the empty string). *)
Definition truthy_str (s : string) : bool :=
  match s with EmptyString => false | _ => true end.

Definition truthy_opt (o : option string) : bool :=
  match o with Some s => truthy_str s | None => false end.

(** [x || dflt] for an optional string. *)
Definition or_else (o : option string) (dflt : string) : string :=
  match o with
  | Some s => if truthy_str s then s else dflt
  | None => dflt
  end.

(** Template interpolation of optional values: [`${x}`]. *)
Definition show_opt (o : option string) : string :=
  match o with Some s => s | None => "undefined" end.

(** [o === s] for an optional string [o] and a string [s]. *)
Definition equals (o : option string) (s : string) : bool :=
  match o with Some s' => String.eqb s' s | None => false end.

(** An element of [arr.join(sep)]: [undefined] is joined as the empty string. *)
Definition joined (o : option string) : string :=
  match o with Some s => s | None => EmptyString end.

Definition show_num (n : Z) : string := pretty n.

Definition show_opt_num (o : option Z) : string :=
  match o with Some n => show_num n | None => "undefined" end.

(** [s.substring(0, n)]. *)
Definition substring0 (n : nat) (s : string) : string := String.substring 0 n s.

End JS.
Import JS.

(** ** Zod: the schema combinators used by the tool schemas

    [z.object] checks every key of its shape in declaration order and
    collects one list of issues; unknown keys are stripped.  Messages are
    those of Zod's default error map. *)

Module Zod.

Inductive ZodType : Type :=
| ZString
| ZNumber
| ZEnum (values : list string)
| ZArray (element : ZodType)
| ZOptional (inner : ZodType)
| ZDefault (inner : ZodType) (defaultValue : jsval).

Record ZodIssue : Type := { path : list string; message : string }.

(** Zod's name for the runtime type of a value. *)
Definition parsedType (v : jsval) : string :=
  match v with
  | VUndefined => "undefined"
  | VNull => "null"
  | VBool _ => "boolean"
  | VNum _ => "number"
  | VStr _ => "string"
  | VArr _ => "array"
  | VObj _ => "object"
  end.

Definition invalid_type (p : list string) (expected : string) (v : jsval) : ZodIssue :=
  {| path := p;
     message := match v with
                | VUndefined => "Required"
                | _ => "Expected " +:+ expected +:+ ", received " +:+ parsedType v
                end |}.

Definition joinValues (values : list string) : string :=
  join " | " (map (fun v => "'" +:+ v +:+ "'") values).

Definition invalid_enum_value (p : list string) (values : list string) (received : string) : ZodIssue :=
  {| path := p;
     message := "Invalid enum value. Expected " +:+ joinValues values +:+
                ", received '" +:+ received +:+ "'" |}.

Definition mem_str (s : string) (l : list string) : bool :=
  existsb (String.eqb s) l.

Fixpoint parse_elements (f : list string -> jsval -> list ZodIssue * jsval)
    (p : list string) (i : nat) (l : list jsval) : list ZodIssue * list jsval :=
  match l with
  | [] => ([], [])
  | x :: l' =>
      let '(is1, v) := f (p ++ [pretty i]) x in
      let '(is2, vs) := parse_elements f p (S i) l' in
      (is1 ++ is2, v :: vs)
  end.

(** [_parse t p data]: the issues found (none on success) and the output. *)
Fixpoint _parse (t : ZodType) (p : list string) (data : jsval) : list ZodIssue * jsval :=
  match t with
  | ZString =>
      match data with
      | VStr _ => ([], data)
      | _ => ([invalid_type p "string" data], data)
      end
  | ZNumber =>
      match data with
      | VNum _ => ([], data)
      | _ => ([invalid_type p "number" data], data)
      end
  | ZEnum values =>
      match data with
      | VStr s => if mem_str s values then ([], data)
                  else ([invalid_enum_value p values s], data)
      | _ => ([invalid_type p (joinValues values) data], data)
      end
  | ZArray element =>
      match data with
      | VArr l => let '(iss, vs) := parse_elements (_parse element) p 0 l in (iss, VArr vs)
      | _ => ([invalid_type p "array" data], data)
      end
  | ZOptional inner =>
      match data with
      | VUndefined => ([], VUndefined)
      | _ => _parse inner p data
      end
  | ZDefault inner defaultValue =>
      match data with
      | VUndefined => _parse inner p defaultValue
      | _ => _parse inner p data
      end
  end.

Definition Shape : Type := list (string * ZodType).

Definition prop (o : gmap string jsval) (k : string) : jsval :=
  default VUndefined (o !! k).

(** Issues and output of an object schema, key by key in shape order. *)
Fixpoint parse_shape (shape : Shape) (o : gmap string jsval)
    : list ZodIssue * gmap string jsval :=
  match shape with
  | [] => ([], ∅)
  | (k, t) :: shape' =>
      let '(is1, v) := _parse t [k] (prop o k) in
      let '(is2, out) := parse_shape shape' o in
      (is1 ++ is2, match v with VUndefined => out | _ => <[k := v]> out end)
  end.

(** [schema.parse(args)]: [inl issues] is a thrown [ZodError]. *)
Definition parse (shape : Shape) (args : option (gmap string jsval))
    : list ZodIssue + gmap string jsval :=
  match args with
  | None => inl [invalid_type [] "object" VUndefined]
  | Some o =>
      match parse_shape shape o with
      | ([], out) => inr out
      | (iss, _) => inl iss
      end
  end.

(** Reading a destructured property at its declared type. *)
Definition str_of (v : jsval) : string :=
  match v with VStr s => s | _ => EmptyString end.

Definition opt_str_of (v : jsval) : option string :=
  match v with VStr s => Some s | _ => None end.

End Zod.
Import Zod.

(** ** The tool schemas *)

Definition fieldTypes : list string :=
  ["TEXT"; "NUMBER"; "DATE"; "SINGLE_SELECT"; "ITERATION"].

Definition CreateProjectSchema : Shape :=
  [("title", ZString);
   ("description", ZOptional ZString);
   ("owner", ZString);
   ("visibility", ZDefault (ZEnum ["PUBLIC"; "PRIVATE"]) (VStr "PRIVATE"))].

Definition GetProjectSchema : Shape := [("projectId", ZString)].

Definition UpdateProjectSchema : Shape :=
  [("projectId", ZString);
   ("title", ZOptional ZString);
   ("description", ZOptional ZString);
   ("visibility", ZOptional (ZEnum ["PUBLIC"; "PRIVATE"]))].

Definition CreateIssueSchema : Shape :=
  [("owner", ZString);
   ("repo", ZString);
   ("title", ZString);
   ("body", ZOptional ZString);
   ("projectId", ZOptional ZString)].

Definition AddItemToProjectSchema : Shape :=
  [("projectId", ZString); ("contentId", ZString)].

Definition UpdateProjectItemSchema : Shape :=
  [("projectId", ZString);
   ("itemId", ZString);
   ("fieldId", ZString);
   ("value", ZString);
   ("fieldType", ZOptional (ZEnum fieldTypes))].

Definition CreateProjectFieldSchema : Shape :=
  [("projectId", ZString);
   ("name", ZString);
   ("dataType", ZEnum fieldTypes);
   ("options", ZOptional (ZArray ZString))].

Definition UpdateItemStatusSchema : Shape :=
  [("projectId", ZString); ("itemId", ZString); ("status", ZString)].

Definition GetProjectFieldsSchema : Shape := [("projectId", ZString)].

Definition GetProjectItemsSchema : Shape :=
  [("projectId", ZString);
   ("limit", ZDefault (ZOptional ZNumber) (VNum 20))].

Definition obj (l : list (string * jsval)) : option (gmap string jsval) :=
  Some (list_to_map l).

(** ** Response shapes (the [interface] declarations of the source) *)

Module SelectOption.
Record t : Type :=
  { id : string; name : string; color : option string; description : option string }.
End SelectOption.

Module Iteration.
Record t : Type :=
  { id : string; title : string; duration : Z; startDate : option string }.
End Iteration.

(** A node of [fields.nodes]; [iterations] is [configuration?.iterations].
    The nodes are read as [any]: a node answers only the keys the query
    selects on its concrete type, so each key may be missing. *)
Module Field.
Record t : Type :=
  { id : option string;
    name : option string;
    dataType : option string;
    createdAt : option string;
    options : option (list SelectOption.t);
    iterations : option (list Iteration.t) }.

(** The node [{}], as returned for a field no fragment of the query matches. *)
Definition bare : t :=
  {| id := None; name := None; dataType := None; createdAt := None;
     options := None; iterations := None |}.
End Field.

(** [content] of an item; [assignees] is [assignees?.nodes] as logins. *)
Module Content.
Record t : Type :=
  { __typename : option string;
    id : string;
    number : option Z;
    title : string;
    state : option string;
    url : option string;
    body : option string;
    assignees : option (list string) }.
End Content.

Module FieldRef.
Record t : Type := { id : string; name : string }.
End FieldRef.

Module FieldValue.
Record t : Type :=
  { text : option string;
    number : option Z;
    date : option string;
    name : option string;
    title : option string;
    field : option FieldRef.t }.
End FieldValue.

Module Item.
Record t : Type :=
  { id : string;
    type : string;
    content : option Content.t;
    fieldValues : option (list FieldValue.t) }.
End Item.

(** [interface ProjectNode]; [fields] and [items] are the [nodes] arrays. *)
Module ProjectNode.
Record t : Type :=
  { id : string;
    number : Z;
    title : string;
    shortDescription : option string;
    public : bool;
    closed : bool;
    createdAt : string;
    updatedAt : string;
    url : string;
    fields : option (list Field.t);
    items : option (list Item.t) }.
End ProjectNode.

(** [user] / [organization] of the id and project-list queries. *)
Module Owner.
Record t : Type := { id : string; projectsV2 : option (list ProjectNode.t) }.
End Owner.

Module CreatedField.
Record t : Type := { id : string; name : string; dataType : string }.
End CreatedField.

(** The JSON object a GraphQL call resolves to.  The response interfaces
    are unchecked casts, so one record carries every top-level key a
    handler reads; a key is [None] when the object lacks it. *)
Module Data.
Record t : Type :=
  { node : option ProjectNode.t;
    user : option Owner.t;
    organization : option Owner.t;
    createProjectV2 : option ProjectNode.t;          (* .projectV2 *)
    updateProjectV2 : option ProjectNode.t;          (* .projectV2 *)
    addProjectV2ItemById : option string;            (* .item.id *)
    updateProjectV2ItemFieldValue : option string;   (* .projectV2Item.id *)
    createProjectV2Field : option CreatedField.t }.  (* .projectV2Field *)

Definition empty : t :=
  {| node := None; user := None; organization := None; createProjectV2 := None;
     updateProjectV2 := None; addProjectV2ItemById := None;
     updateProjectV2ItemFieldValue := None; createProjectV2Field := None |}.

(** [{ node }] and [{ updateProjectV2ItemFieldValue: { projectV2Item: { id } } }]. *)
Definition ofNode (project : ProjectNode.t) : t :=
  {| node := Some project; user := None; organization := None; createProjectV2 := None;
     updateProjectV2 := None; addProjectV2ItemById := None;
     updateProjectV2ItemFieldValue := None; createProjectV2Field := None |}.

Definition ofUpdatedItem (itemId : string) : t :=
  {| node := None; user := None; organization := None; createProjectV2 := None;
     updateProjectV2 := None; addProjectV2ItemById := None;
     updateProjectV2ItemFieldValue := Some itemId; createProjectV2Field := None |}.
End Data.

(** [issue.data] of the REST call. *)
Module IssueData.
Record t : Type :=
  { title : string; number : Z; html_url : string; node_id : string }.
End IssueData.

(** ** The network and the promise monad *)

Inductive Query : Type :=
| GET_USER_PROJECTS
| GET_ORG_PROJECTS
| GET_PROJECT_DETAILS
| CREATE_PROJECT
| UPDATE_PROJECT
| ADD_ITEM_TO_PROJECT
| UPDATE_PROJECT_ITEM_FIELD
| CREATE_PROJECT_FIELD
| GET_USER_ID
| GET_ORG_ID
| GET_PROJECT_FIELDS_DETAILED
| GetProjectItems.   (* the query written inline in getProjectItems *)

(** The [value] payload of the field-update mutation.  [number] holds the
    argument of [parseFloat], whose double result is not computed here. *)
Inductive formattedValue : Type :=
| text (value : string)
| number (parseFloat_of : string)
| date (value : string)
| singleSelectOptionId (id : string)
| iterationId (value : string).

Inductive variable : Type :=
| Js (v : jsval)
| Formatted (v : formattedValue).

(** The variables object handed to the client, in the order written. *)
Definition Variables : Type := list (string * variable).

(** What a rejected promise carries: an [Error] with its message, or any
    other value with its [String(...)] rendering. *)
Inductive Thrown : Type :=
| ErrorObj (message : string)
| NonError (rendering : string).

(** [error instanceof Error ? error.message : String(error)]. *)
Definition errorText (e : Thrown) : string :=
  match e with ErrorObj m => m | NonError s => s end.

Inductive outcome (A : Type) : Type :=
| Resolved (a : A)
| Rejected (e : Thrown).
Arguments Resolved {A} a.
Arguments Rejected {A} e.

Inductive Event : Type :=
| Graphql (q : Query) (vars : Variables) (out : outcome Data.t)
| IssuesCreate (params : list (string * jsval)) (out : outcome IssueData.t).

(** The outside world: how GitHub answers a call given everything that was
    called before, and the host's date formatting. *)
Record Env : Type :=
  { graphql : list Event -> Query -> Variables -> outcome Data.t;
    issues_create : list Event -> list (string * jsval) -> outcome IssueData.t;
    toLocaleDateString : option string -> string }.

Definition Promise (A : Type) : Type := Env -> list Event -> outcome A * list Event.

Definition ret {A} (a : A) : Promise A := fun _ log => (Resolved a, log).

Definition throw {A} (e : Thrown) : Promise A := fun _ log => (Rejected e, log).

Definition bind {A B} (m : Promise A) (k : A -> Promise B) : Promise B :=
  fun env log =>
    match m env log with
    | (Resolved a, log') => k a env log'
    | (Rejected e, log') => (Rejected e, log')
    end.

Definition try_catch {A} (m : Promise A) (handler : Thrown -> Promise A) : Promise A :=
  fun env log =>
    match m env log with
    | (Resolved a, log') => (Resolved a, log')
    | (Rejected e, log') => handler e env log'
    end.

Definition ask {A} (f : Env -> A) : Promise A := fun env log => (Resolved (f env), log).

Declare Scope promise_scope.
Delimit Scope promise_scope with promise.
Notation "'await' x ':=' m 'in' k" := (bind m (fun x => k))
  (at level 10, x name, m at level 200, k at level 200) : promise_scope.
Notation "'attempt' m 'catch' e '=>' h" := (try_catch m (fun e => h))
  (at level 10, e name, m at level 200, h at level 200) : promise_scope.
Local Open Scope promise_scope.

(** [await this.graphqlClient(query, variables)]. *)
Definition graphqlClient (q : Query) (vars : Variables) : Promise Data.t :=
  fun env log =>
    let out := graphql env log q vars in
    (out, log ++ [Graphql q vars out]).

(** [await this.restClient.issues.create(params)]. *)
Definition restClient_issues_create (params : list (string * jsval)) : Promise IssueData.t :=
  fun env log =>
    let out := issues_create env log params in
    (out, log ++ [IssuesCreate params out]).

(** [Array.prototype.find] with a predicate that may throw: the search
    stops at the first element on which the predicate throws or holds. *)
Module Array.
Fixpoint find {A} (P : A -> outcome bool) (l : list A) : outcome (option A) :=
  match l with
  | [] => Resolved None
  | x :: l' =>
      match P x with
      | Rejected e => Rejected e
      | Resolved true => Resolved (Some x)
      | Resolved false => find P l'
      end
  end.
End Array.

(** Reading a property of a missing object throws a [TypeError]. *)
Definition read {A} (property : string) (o : option A) : Promise A :=
  match o with
  | Some a => ret a
  | None => throw (ErrorObj ("Cannot read properties of undefined (reading '" +:+
                             property +:+ "')"))
  end.

(** ** Handler plumbing *)

Inductive ErrorCode : Type := MethodNotFound | InvalidParams.

(** What escapes a handler as an exception. *)
Inductive Fault : Type :=
| ZodError (errors : list ZodIssue)
| McpError (code : ErrorCode) (message : string)
| Uncaught (e : Thrown).

(** A handler either returns [{ content: [{ type: "text", text }] }] or throws. *)
Inductive CallResult : Type :=
| Content (text : string)
| Raise (f : Fault).

Definition Run : Type := Env -> CallResult * list Event.

(** [try { body } catch (error) { return text(prefix + message) }]. *)
Definition guarded (prefix : string) (body : Promise string) : Run :=
  fun env =>
    match body env [] with
    | (Resolved t, log) => (Content t, log)
    | (Rejected e, log) => (Content (prefix +:+ errorText e), log)
    end.

(** [const {...} = Schema.parse(args)], before the [try]. *)
Definition parsing (shape : Shape) (args : option (gmap string jsval))
    (k : gmap string jsval -> Run) : Run :=
  match parse shape args with
  | inl errors => fun _ => (Raise (ZodError errors), [])
  | inr a => k a
  end.

Definition nl : string := String (ascii_of_nat 10) EmptyString.

(** JavaScript truthiness. *)
Definition truthy (v : jsval) : bool :=
  match v with
  | VUndefined | VNull => false
  | VBool b => b
  | VNum n => negb (n =? 0)%Z
  | VStr s => truthy_str s
  | VArr _ | VObj _ => true
  end.

(** [String(v)], as used by template literals.  A number is printed in
    decimal, which is JavaScript's rendering of the integers below 2^53 in
    magnitude; beyond them a double is rounded, and from 1e21 on it is
    printed with an exponent. *)
Fixpoint String_ (v : jsval) : string :=
  match v with
  | VUndefined => "undefined"
  | VNull => "null"
  | VBool true => "true"
  | VBool false => "false"
  | VNum n => show_num n
  | VStr s => s
  | VArr l => join "," (map (fun x => match x with
                                      | VUndefined | VNull => EmptyString
                                      | _ => String_ x
                                      end) l)
  | VObj _ => "[object Object]"
  end.

(** An optional string seen as a value again. *)
Definition js_of_opt (o : option string) : jsval :=
  match o with Some s => VStr s | None => VUndefined end.

Definition is_str (v : jsval) (s : string) : bool :=
  match v with VStr s' => String.eqb s' s | _ => false end.

Definition count {A} (l : list A) : string := show_num (Z.of_nat (length l)).

Definition nodes {A} (o : option (list A)) : list A := default [] o.

(** Optional chaining: [o?.f] where [f] may itself be absent. *)
Definition chain {A B} (o : option A) (f : A -> option B) : option B :=
  match o with Some a => f a | None => None end.
Notation "o ?. f" := (chain o f) (at level 50, left associativity).

(** ** list-projects *)

Definition renderProject (project : ProjectNode.t) : string :=
  "• " +:+ ProjectNode.title project +:+ " (#" +:+ show_num (ProjectNode.number project) +:+ ")" +:+ nl +:+
  "  ID: " +:+ ProjectNode.id project +:+ nl +:+
  "  Description: " +:+ or_else (ProjectNode.shortDescription project) "No description" +:+ nl +:+
  "  Visibility: " +:+ (if ProjectNode.public project then "Public" else "Private") +:+ nl +:+
  "  Status: " +:+ (if ProjectNode.closed project then "Closed" else "Open") +:+ nl +:+
  "  URL: " +:+ ProjectNode.url project +:+ nl.

(** No schema is applied: [const { owner, type = "user" } = args]. *)
Definition listProjects (args : option (gmap string jsval)) : Run :=
  match args with
  | None => fun _ =>
      (Raise (Uncaught (ErrorObj
         "Cannot destructure property 'owner' of 'args' as it is undefined.")), [])
  | Some o =>
      let owner := prop o "owner" in
      let type := match prop o "type" with VUndefined => VStr "user" | v => v end in
      guarded "Error listing projects: "
        (let query := if is_str type "organization"
                      then GET_ORG_PROJECTS else GET_USER_PROJECTS in
         await result := graphqlClient query [("login", Js owner)] in
         let projects :=
           if is_str type "organization"
           then nodes (Data.organization result ?. Owner.projectsV2)
           else nodes (Data.user result ?. Owner.projectsV2) in
         ret ("Projects for " +:+ String_ owner +:+ ":" +:+ nl +:+ nl +:+
              join nl (map renderProject projects)))
  end.

(** ** get-project *)

Definition renderFieldLine (field : Field.t) : string :=
  "• " +:+ show_opt (Field.name field) +:+ " (" +:+ show_opt (Field.dataType field) +:+
  ") - ID: " +:+ show_opt (Field.id field) +:+ nl.

Definition renderItemLine (item : Item.t) : string :=
  let fallback := "• Item ID: " +:+ Item.id item +:+ nl in
  match Item.content item with
  | Some content =>
      let ty := Content.__typename content in
      if decide (ty = Some "Issue" ∨ ty = Some "PullRequest") then
        "• " +:+ Content.title content +:+ " (#" +:+ show_opt_num (Content.number content) +:+
        ") - " +:+ show_opt (Content.state content) +:+ nl +:+
        "  URL: " +:+ show_opt (Content.url content) +:+ nl
      else if decide (ty = Some "DraftIssue") then
        "• " +:+ Content.title content +:+ " (Draft)" +:+ nl
      else fallback
  | None => fallback
  end.

Definition getProject (args : option (gmap string jsval)) : Run :=
  parsing GetProjectSchema args (fun a =>
    let projectId := prop a "projectId" in
    guarded "Error getting project: "
      (await result := graphqlClient GET_PROJECT_DETAILS [("projectId", Js projectId)] in
       match Data.node result with
       | None => throw (ErrorObj "Project not found")
       | Some project =>
           ret ("Project Details:" +:+ nl +:+ nl +:+
                "Title: " +:+ ProjectNode.title project +:+ nl +:+
                "ID: " +:+ ProjectNode.id project +:+ nl +:+
                "Number: #" +:+ show_num (ProjectNode.number project) +:+ nl +:+
                "Description: " +:+
                  or_else (ProjectNode.shortDescription project) "No description" +:+ nl +:+
                "Visibility: " +:+
                  (if ProjectNode.public project then "Public" else "Private") +:+ nl +:+
                "Status: " +:+ (if ProjectNode.closed project then "Closed" else "Open") +:+ nl +:+
                "URL: " +:+ ProjectNode.url project +:+ nl +:+ nl +:+
                "Fields (" +:+ count (nodes (ProjectNode.fields project)) +:+ "):" +:+ nl +:+
                join EmptyString (map renderFieldLine (nodes (ProjectNode.fields project))) +:+ nl +:+
                "Items (" +:+ count (nodes (ProjectNode.items project)) +:+ "):" +:+ nl +:+
                join EmptyString (map renderItemLine (nodes (ProjectNode.items project))))
       end)).

(** ** create-project *)

Definition createProject (args : option (gmap string jsval)) : Run :=
  parsing CreateProjectSchema args (fun a =>
    let title := prop a "title" in
    let description := prop a "description" in
    let owner := prop a "owner" in
    let visibility := prop a "visibility" in
    guarded "Error creating project: "
      (await ownerId :=
         (attempt
            (await userResult := graphqlClient GET_USER_ID [("login", Js owner)] in
             ret (Owner.id <$> Data.user userResult))
          catch _e =>
            (await orgResult := graphqlClient GET_ORG_ID [("login", Js owner)] in
             ret (Owner.id <$> Data.organization orgResult))) in
       if negb (truthy_opt ownerId) then
         throw (ErrorObj ("Owner '" +:+ String_ owner +:+ "' not found"))
       else
         await result := graphqlClient CREATE_PROJECT
                           [("ownerId", Js (js_of_opt ownerId));
                            ("title", Js title);
                            ("description", Js description);
                            ("visibility", Js visibility)] in
         await project := read "projectV2" (Data.createProjectV2 result) in
         ret ("Project created successfully!" +:+ nl +:+ nl +:+
              "Title: " +:+ ProjectNode.title project +:+ nl +:+
              "ID: " +:+ ProjectNode.id project +:+ nl +:+
              "Number: #" +:+ show_num (ProjectNode.number project) +:+ nl +:+
              "Description: " +:+
                or_else (ProjectNode.shortDescription project) "No description" +:+ nl +:+
              "URL: " +:+ ProjectNode.url project))).

(** ** update-project *)

Definition updateProject (args : option (gmap string jsval)) : Run :=
  parsing UpdateProjectSchema args (fun a =>
    let projectId := prop a "projectId" in
    let title := prop a "title" in
    let description := prop a "description" in
    let visibility := prop a "visibility" in
    guarded "Error updating project: "
      (await result := graphqlClient UPDATE_PROJECT
                         [("projectId", Js projectId);
                          ("title", Js title);
                          ("description", Js description);
                          ("visibility", Js visibility)] in
       await project := read "projectV2" (Data.updateProjectV2 result) in
       ret ("Project updated successfully!" +:+ nl +:+ nl +:+
            "Title: " +:+ ProjectNode.title project +:+ nl +:+
            "ID: " +:+ ProjectNode.id project +:+ nl +:+
            "Description: " +:+
              or_else (ProjectNode.shortDescription project) "No description" +:+ nl +:+
            "Visibility: " +:+ (if ProjectNode.public project then "Public" else "Private")))).

(** ** create-issue *)

Definition createIssue (args : option (gmap string jsval)) : Run :=
  parsing CreateIssueSchema args (fun a =>
    let owner := prop a "owner" in
    let repo := prop a "repo" in
    let title := prop a "title" in
    let body := prop a "body" in
    let projectId := prop a "projectId" in
    guarded "Error creating issue: "
      (await issue := restClient_issues_create
                        [("owner", owner); ("repo", repo); ("title", title); ("body", body)] in
       let result :=
         "Issue created successfully!" +:+ nl +:+ nl +:+
         "Title: " +:+ IssueData.title issue +:+ nl +:+
         "Number: #" +:+ show_num (IssueData.number issue) +:+ nl +:+
         "URL: " +:+ IssueData.html_url issue +:+ nl +:+
         "Node ID: " +:+ IssueData.node_id issue in
       await result :=
         (if truthy projectId && truthy_str (IssueData.node_id issue) then
            attempt
              (await _added := graphqlClient ADD_ITEM_TO_PROJECT
                                 [("projectId", Js projectId);
                                  ("contentId", Js (VStr (IssueData.node_id issue)))] in
               ret (result +:+ nl +:+ nl +:+ "Issue added to project successfully!"))
            catch error =>
              ret (result +:+ nl +:+ nl +:+ "Warning: Could not add issue to project: " +:+
                   errorText error)
          else ret result) in
       ret result)).

(** ** add-item-to-project *)

Definition addItemToProject (args : option (gmap string jsval)) : Run :=
  parsing AddItemToProjectSchema args (fun a =>
    let projectId := prop a "projectId" in
    let contentId := prop a "contentId" in
    guarded "Error adding item to project: "
      (await result := graphqlClient ADD_ITEM_TO_PROJECT
                         [("projectId", Js projectId); ("contentId", Js contentId)] in
       await itemId := read "item" (Data.addProjectV2ItemById result) in
       ret ("Item added to project successfully!" +:+ nl +:+ nl +:+ "Item ID: " +:+ itemId))).

(** ** update-project-item *)

(** [project?.fields?.nodes?.find(f => f.id === fieldId)]. *)
Definition findField (project : option ProjectNode.t) (fieldId : string) : option Field.t :=
  project ?. ProjectNode.fields ?.
  List.find (fun f => equals (Field.id f) fieldId).

(** [options?.find(opt => opt.name.toLowerCase() === value.toLowerCase())]. *)
Definition findOption (options : option (list SelectOption.t)) (value : string)
    : option SelectOption.t :=
  options ?.
  List.find (fun opt => String.eqb (toLowerCase (SelectOption.name opt)) (toLowerCase value)).

(** [`${options?.map(opt => opt.name).join(', ')}`]. *)
Definition optionNames (options : option (list SelectOption.t)) : string :=
  show_opt (join ", " <$> (map SelectOption.name <$> options)).

(** Auto-detection of the field type when the caller gave none. *)
Definition detectFieldType (projectId fieldId fieldType : jsval) : Promise (option string) :=
  if negb (truthy fieldType) then
    attempt
      (await projectResult := graphqlClient GET_PROJECT_DETAILS [("projectId", Js projectId)] in
       let field := findField (Data.node projectResult) (str_of fieldId) in
       ret (field ?. Field.dataType))
    catch _e => ret (Some "TEXT")
  else ret (opt_str_of fieldType).

(** The [SINGLE_SELECT] case: translate the option name to its id. *)
Definition selectOption (projectId fieldId : jsval) (value : string) : Promise formattedValue :=
  attempt
    (await projectResult := graphqlClient GET_PROJECT_DETAILS [("projectId", Js projectId)] in
     let field := findField (Data.node projectResult) (str_of fieldId) in
     match findOption (field ?. Field.options) value with
     | Some option => ret (singleSelectOptionId (SelectOption.id option))
     | None =>
         throw (ErrorObj ("Option '" +:+ value +:+ "' not found for field. Available options: " +:+
                          optionNames (field ?. Field.options)))
     end)
  catch error =>
    throw (ErrorObj ("Failed to find single select option: " +:+ errorText error)).

(** The [switch (actualFieldType)]. *)
Definition formatValue (actualFieldType : option string) (projectId fieldId : jsval)
    (value : string) : Promise formattedValue :=
  if decide (actualFieldType = Some "TEXT") then ret (text value)
  else if decide (actualFieldType = Some "NUMBER") then ret (number value)
  else if decide (actualFieldType = Some "DATE") then ret (date value)
  else if decide (actualFieldType = Some "SINGLE_SELECT") then selectOption projectId fieldId value
  else if decide (actualFieldType = Some "ITERATION") then ret (iterationId value)
  else ret (text value).

Definition updateProjectItem (args : option (gmap string jsval)) : Run :=
  parsing UpdateProjectItemSchema args (fun a =>
    let projectId := prop a "projectId" in
    let itemId := prop a "itemId" in
    let fieldId := prop a "fieldId" in
    let value := prop a "value" in
    let fieldType := prop a "fieldType" in
    guarded "Error updating project item: "
      (await actualFieldType := detectFieldType projectId fieldId fieldType in
       await formattedValue := formatValue actualFieldType projectId fieldId (str_of value) in
       await result := graphqlClient UPDATE_PROJECT_ITEM_FIELD
                         [("projectId", Js projectId);
                          ("itemId", Js itemId);
                          ("fieldId", Js fieldId);
                          ("value", Formatted formattedValue)] in
       await updatedId := read "projectV2Item" (Data.updateProjectV2ItemFieldValue result) in
       ret ("Project item field updated successfully!" +:+ nl +:+ nl +:+
            "Item ID: " +:+ updatedId +:+ nl +:+
            "Field Type: " +:+ show_opt actualFieldType +:+ nl +:+
            "New Value: " +:+ String_ value))).

(** ** create-project-field *)

Definition createProjectField (args : option (gmap string jsval)) : Run :=
  parsing CreateProjectFieldSchema args (fun a =>
    let projectId := prop a "projectId" in
    let name := prop a "name" in
    let dataType := prop a "dataType" in
    guarded "Error creating project field: "
      (await result := graphqlClient CREATE_PROJECT_FIELD
                         [("projectId", Js projectId);
                          ("name", Js name);
                          ("dataType", Js dataType)] in
       await field := read "projectV2Field" (Data.createProjectV2Field result) in
       ret ("Project field created successfully!" +:+ nl +:+ nl +:+
            "Name: " +:+ CreatedField.name field +:+ nl +:+
            "ID: " +:+ CreatedField.id field +:+ nl +:+
            "Type: " +:+ CreatedField.dataType field))).

(** ** update-item-status *)

(** The predicate of the status-field search.  [field.name.toLowerCase()]
    throws a [TypeError] on a node without a name. *)
Definition isStatusField (field : Field.t) : outcome bool :=
  match Field.name field with
  | Some name =>
      Resolved (includes (toLowerCase name) "status" ||
                includes (toLowerCase name) "state" ||
                includes (toLowerCase name) "column")
  | None =>
      Rejected (ErrorObj "Cannot read properties of undefined (reading 'toLowerCase')")
  end.

(** [project.fields?.nodes?.find(isStatusField)]. *)
Definition findStatusField (project : ProjectNode.t) : outcome (option Field.t) :=
  match ProjectNode.fields project with
  | Some fields => Array.find isStatusField fields
  | None => Resolved None
  end.

(** [project.fields?.nodes?.map(f => f.name).join(', ') || 'none']. *)
Definition availableFields (project : ProjectNode.t) : string :=
  or_else (join ", " <$> (map (fun f => joined (Field.name f)) <$> ProjectNode.fields project))
          "none".

Definition updateItemStatus (args : option (gmap string jsval)) : Run :=
  parsing UpdateItemStatusSchema args (fun a =>
    let projectId := prop a "projectId" in
    let itemId := prop a "itemId" in
    let status := prop a "status" in
    guarded "Error updating status: "
      (await projectResult := graphqlClient GET_PROJECT_DETAILS [("projectId", Js projectId)] in
       match Data.node projectResult with
       | None => throw (ErrorObj "Project not found")
       | Some project =>
           match findStatusField project with
           | Rejected e => throw e
           | Resolved None =>
               throw (ErrorObj ("No status field found. Available fields: " +:+
                                availableFields project))
           | Resolved (Some statusField) =>
               match findOption (Field.options statusField) (str_of status) with
               | None =>
                   throw (ErrorObj ("Status '" +:+ String_ status +:+
                                    "' not found. Available statuses: " +:+
                                    optionNames (Field.options statusField)))
               | Some option =>
                   await result := graphqlClient UPDATE_PROJECT_ITEM_FIELD
                                     [("projectId", Js projectId);
                                      ("itemId", Js itemId);
                                      ("fieldId", Js (js_of_opt (Field.id statusField)));
                                      ("value", Formatted
                                         (singleSelectOptionId (SelectOption.id option)))] in
                   await updatedId :=
                     read "projectV2Item" (Data.updateProjectV2ItemFieldValue result) in
                   ret ("Status updated successfully!" +:+ nl +:+ nl +:+
                        "Item ID: " +:+ updatedId +:+ nl +:+
                        "Field: " +:+ show_opt (Field.name statusField) +:+ nl +:+
                        "New Status: " +:+ String_ status)
               end
           end
       end)).

(** ** get-project-fields *)

Definition renderOption (index : nat) (option : SelectOption.t) : string :=
  "    " +:+ show_num (Z.of_nat (index + 1)) +:+ ". " +:+ dq +:+ SelectOption.name option +:+ dq +:+
  " (ID: `" +:+ SelectOption.id option +:+ "`)" +:+
  (if truthy_opt (SelectOption.color option)
   then " 🎨" +:+ show_opt (SelectOption.color option) else EmptyString) +:+
  (if truthy_opt (SelectOption.description option)
   then " - " +:+ show_opt (SelectOption.description option) else EmptyString) +:+
  nl.

Definition renderIteration (localeDate : option string -> string)
    (index : nat) (iteration : Iteration.t) : string :=
  "    " +:+ show_num (Z.of_nat (index + 1)) +:+ ". " +:+ dq +:+ Iteration.title iteration +:+ dq +:+
  " (" +:+ show_num (Iteration.duration iteration) +:+ " days)" +:+
  (if truthy_opt (Iteration.startDate iteration)
   then " - Starts: " +:+ localeDate (Iteration.startDate iteration) else EmptyString) +:+
  nl.

Definition renderFieldInfo (localeDate : option string -> string) (field : Field.t) : string :=
  "• **" +:+ show_opt (Field.name field) +:+ "**" +:+ nl +:+
  "  - ID: `" +:+ show_opt (Field.id field) +:+ "`" +:+ nl +:+
  "  - Type: " +:+ show_opt (Field.dataType field) +:+ nl +:+
  "  - Created: " +:+ localeDate (Field.createdAt field) +:+ nl +:+
  match Field.options field with
  | Some options =>
      if equals (Field.dataType field) "SINGLE_SELECT" then
        "  - Options (" +:+ count options +:+ "):" +:+ nl +:+
        join EmptyString (imap renderOption options)
      else EmptyString
  | None => EmptyString
  end +:+
  match Field.iterations field with
  | Some iterations =>
      if equals (Field.dataType field) "ITERATION" then
        "  - Iterations (" +:+ count iterations +:+ "):" +:+ nl +:+
        join EmptyString (imap (renderIteration localeDate) iterations)
      else EmptyString
  | None => EmptyString
  end.

Definition usageNotes (projectId : string) : string :=
  nl +:+ nl +:+ "**Usage Examples:**" +:+ nl +:+
  "- Text field: `{" +:+ dq +:+ "fieldId" +:+ dq +:+ ": " +:+ dq +:+ "field_id" +:+ dq +:+ ", " +:+
    dq +:+ "value" +:+ dq +:+ ": " +:+ dq +:+ "text" +:+ dq +:+ ", " +:+
    dq +:+ "fieldType" +:+ dq +:+ ": " +:+ dq +:+ "TEXT" +:+ dq +:+ "}`" +:+ nl +:+
  "- Status field: `{" +:+ dq +:+ "fieldId" +:+ dq +:+ ": " +:+ dq +:+ "field_id" +:+ dq +:+ ", " +:+
    dq +:+ "value" +:+ dq +:+ ": " +:+ dq +:+ "option_name" +:+ dq +:+ ", " +:+
    dq +:+ "fieldType" +:+ dq +:+ ": " +:+ dq +:+ "SINGLE_SELECT" +:+ dq +:+ "}`" +:+ nl +:+
  "- Quick status update: `{" +:+ dq +:+ "projectId" +:+ dq +:+ ": " +:+ dq +:+ projectId +:+ dq +:+ ", " +:+
    dq +:+ "itemId" +:+ dq +:+ ": " +:+ dq +:+ "item_id" +:+ dq +:+ ", " +:+
    dq +:+ "status" +:+ dq +:+ ": " +:+ dq +:+ "option_name" +:+ dq +:+ "}`" +:+ nl +:+ nl +:+
  "**Built-in Fields:**" +:+ nl +:+
  "- Title: Always available for all items" +:+ nl +:+
  "- Assignees: Built-in user assignment field" +:+ nl +:+
  "- Status: Default status tracking field" +:+ nl +:+
  "- Labels: Built-in labeling system".

Definition getProjectFields (args : option (gmap string jsval)) : Run :=
  parsing GetProjectFieldsSchema args (fun a =>
    let projectId := prop a "projectId" in
    guarded "Error getting project fields: "
      (await result := graphqlClient GET_PROJECT_FIELDS_DETAILED [("projectId", Js projectId)] in
       match Data.node result with
       | None => throw (ErrorObj "Project not found")
       | Some project =>
           let fields := nodes (ProjectNode.fields project) in
           match fields with
           | [] => ret "No custom fields found in this project."
           | _ =>
               await localeDate := ask toLocaleDateString in
               let fieldDetails := join nl (map (renderFieldInfo localeDate) fields) in
               ret ("Project Fields for " +:+ ProjectNode.title project +:+ ":" +:+ nl +:+ nl +:+
                    "Total Fields: " +:+ count fields +:+ nl +:+ nl +:+
                    fieldDetails +:+ usageNotes (String_ projectId))
           end
       end)).

(** ** get-project-items *)

Definition renderFieldValue (localeDate : option string -> string)
    (fieldValue : FieldValue.t) : string :=
  if truthy_opt (FieldRef.name <$> FieldValue.field fieldValue) then
    let value :=
      match FieldValue.text fieldValue with
      | Some t => t
      | None =>
      match FieldValue.number fieldValue with
      | Some n => show_num n
      | None =>
      match FieldValue.date fieldValue with
      | Some d => localeDate (Some d)
      | None =>
      match FieldValue.name fieldValue with
      | Some n => n
      | None =>
      match FieldValue.title fieldValue with
      | Some t => t
      | None => "N/A"
      end end end end end in
    "     - " +:+ show_opt (FieldRef.name <$> FieldValue.field fieldValue) +:+ ": " +:+ value +:+ nl
  else EmptyString.

(** The block under [// Add field values]. *)
Definition renderFieldValues (localeDate : option string -> string) (item : Item.t) : string :=
  match nodes (Item.fieldValues item) with
  | [] => EmptyString
  | fieldValues =>
      "   - Fields:" +:+ nl +:+ join EmptyString (map (renderFieldValue localeDate) fieldValues)
  end.

Definition renderItem (localeDate : option string -> string) (index : nat) (item : Item.t)
    : string :=
  let itemIdLine := "   - Item ID: `" +:+ Item.id item +:+ "`" +:+ nl in
  "**" +:+ show_num (Z.of_nat (index + 1)) +:+ ". " +:+
  match Item.content item with
  | Some content =>
      let ty := Content.__typename content in
      if decide (ty = Some "Issue" ∨ ty = Some "PullRequest") then
        Content.title content +:+ " (#" +:+ show_opt_num (Content.number content) +:+ ")**" +:+ nl +:+
        "   - Type: " +:+ show_opt ty +:+ nl +:+
        "   - State: " +:+ show_opt (Content.state content) +:+ nl +:+
        "   - URL: " +:+ show_opt (Content.url content) +:+ nl +:+
        itemIdLine +:+
        match nodes (Content.assignees content) with
        | [] => EmptyString
        | logins => "   - Assignees: " +:+ join ", " (map (fun a => "@" +:+ a) logins) +:+ nl
        end
      else if decide (ty = Some "DraftIssue") then
        Content.title content +:+ " (Draft)**" +:+ nl +:+
        "   - Type: Draft Issue" +:+ nl +:+
        itemIdLine +:+
        (if truthy_opt (Content.body content) then
           let body := show_opt (Content.body content) in
           let bodyPreview :=
             if (100 <? String.length body)%nat then substring0 100 body +:+ "..." else body in
           "   - Body: " +:+ bodyPreview +:+ nl
         else EmptyString)
      else EmptyString
  | None => "Unknown Item**" +:+ nl +:+ itemIdLine
  end +:+
  renderFieldValues localeDate item.

Definition getProjectItems (args : option (gmap string jsval)) : Run :=
  parsing GetProjectItemsSchema args (fun a =>
    let projectId := prop a "projectId" in
    let limit := prop a "limit" in
    guarded "Error getting project items: "
      (await result := graphqlClient GetProjectItems
                         [("projectId", Js projectId); ("first", Js limit)] in
       match Data.node result with
       | None => throw (ErrorObj "Project not found")
       | Some project =>
           let items := nodes (ProjectNode.items project) in
           match items with
           | [] => ret ("No items found in project " +:+ dq +:+ ProjectNode.title project +:+
                        dq +:+ ".")
           | _ =>
               await localeDate := ask toLocaleDateString in
               let itemDetails := join nl (imap (renderItem localeDate) items) in
               ret ("Project Items for " +:+ dq +:+ ProjectNode.title project +:+ dq +:+ ":" +:+
                    nl +:+ nl +:+
                    "Total Items: " +:+ count items +:+ nl +:+ nl +:+
                    itemDetails +:+
                    nl +:+ nl +:+ "**Quick Actions:**" +:+ nl +:+
                    "- Update status: `update-item-status` with itemId and status" +:+ nl +:+
                    "- Update any field: `update-project-item` with itemId, fieldId, and value")
           end
       end)).

(** ** The tool dispatcher ([CallToolRequestSchema] handler) *)

Definition route (name : string) (args : option (gmap string jsval)) : Run :=
  if String.eqb name "list-projects" then listProjects args
  else if String.eqb name "get-project" then getProject args
  else if String.eqb name "create-project" then createProject args
  else if String.eqb name "update-project" then updateProject args
  else if String.eqb name "create-issue" then createIssue args
  else if String.eqb name "add-item-to-project" then addItemToProject args
  else if String.eqb name "update-project-item" then updateProjectItem args
  else if String.eqb name "create-project-field" then createProjectField args
  else if String.eqb name "update-item-status" then updateItemStatus args
  else if String.eqb name "get-project-fields" then getProjectFields args
  else if String.eqb name "get-project-items" then getProjectItems args
  else fun _ => (Raise (McpError MethodNotFound ("Unknown tool: " +:+ name)), []).

(** The [catch] of the dispatcher: a [ZodError] becomes an invalid-params
    fault carrying the issue messages; anything else is rethrown. *)
Definition callTool (name : string) (args : option (gmap string jsval)) : Run :=
  fun env =>
    match route name args env with
    | (Raise (ZodError errors), log) =>
        (Raise (McpError InvalidParams
                  ("Invalid arguments: " +:+ join ", " (map message errors))), log)
    | r => r
    end.

(** The value bound to [k] in a variables object. *)
Definition variable_of (k : string) (vars : Variables) : option variable :=
  snd <$> List.find (fun kv => String.eqb (fst kv) k) vars.

(** ** GitHub's side of the project-details query

    The selection of [GET_PROJECT_DETAILS] asks for [fields(first: 20)] and
    [items(first: 50)]: whatever the project holds, the answer carries that
    first page only. *)

(** What the selection returns for one field.  Its only fragments are on
    [ProjectV2Field] and [ProjectV2SingleSelectField]: an iteration field
    matches neither and comes back as the empty object.  [options] are
    selected on single-select fields alone; [createdAt] and [configuration]
    are not selected at all. *)
Definition GET_PROJECT_DETAILS_field (field : Field.t) : Field.t :=
  if equals (Field.dataType field) "ITERATION" then Field.bare
  else
    {| Field.id := Field.id field;
       Field.name := Field.name field;
       Field.dataType := Field.dataType field;
       Field.createdAt := None;
       Field.options := if equals (Field.dataType field) "SINGLE_SELECT"
                        then Field.options field else None;
       Field.iterations := None |}.

Definition GET_PROJECT_DETAILS_page (project : ProjectNode.t) : ProjectNode.t :=
  {| ProjectNode.id := ProjectNode.id project;
     ProjectNode.number := ProjectNode.number project;
     ProjectNode.title := ProjectNode.title project;
     ProjectNode.shortDescription := ProjectNode.shortDescription project;
     ProjectNode.public := ProjectNode.public project;
     ProjectNode.closed := ProjectNode.closed project;
     ProjectNode.createdAt := ProjectNode.createdAt project;
     ProjectNode.updatedAt := ProjectNode.updatedAt project;
     ProjectNode.url := ProjectNode.url project;
     ProjectNode.fields :=
       (fun fields => map GET_PROJECT_DETAILS_field (take 20 fields)) <$> ProjectNode.fields project;
     ProjectNode.items := take 50 <$> ProjectNode.items project |}.

(** The items query asks for [items(first: $first)]. *)
Definition GetProjectItems_page (first : Z) (project : ProjectNode.t) : ProjectNode.t :=
  {| ProjectNode.id := ProjectNode.id project;
     ProjectNode.number := ProjectNode.number project;
     ProjectNode.title := ProjectNode.title project;
     ProjectNode.shortDescription := ProjectNode.shortDescription project;
     ProjectNode.public := ProjectNode.public project;
     ProjectNode.closed := ProjectNode.closed project;
     ProjectNode.createdAt := ProjectNode.createdAt project;
     ProjectNode.updatedAt := ProjectNode.updatedAt project;
     ProjectNode.url := ProjectNode.url project;
     ProjectNode.fields := None;
     ProjectNode.items := take (Z.to_nat first) <$> ProjectNode.items project |}.

Definition first_of (vars : Variables) : Z :=
  match variable_of "first" vars with
  | Some (Js (VNum n)) => n
  | _ => 0%Z
  end.

(** An environment in which GitHub hosts one project: the details and
    items queries return their first page, a field update echoes the item
    id, and every other call is refused. *)
Definition hosting (project : ProjectNode.t) : Env :=
  {| graphql := fun _ q vars =>
       match q with
       | GET_PROJECT_DETAILS => Resolved (Data.ofNode (GET_PROJECT_DETAILS_page project))
       | GetProjectItems =>
           Resolved (Data.ofNode (GetProjectItems_page (first_of vars) project))
       | UPDATE_PROJECT_ITEM_FIELD => Resolved (Data.ofUpdatedItem "ITEM")
       | _ => Rejected (ErrorObj "Not supported")
       end;
     issues_create := fun _ _ => Rejected (ErrorObj "Not supported");
     toLocaleDateString := fun d => default "Invalid Date" d |}.

(** ** Vocabulary of the statements *)

(** [x] is the first element of [l] that satisfies [P]. *)
Definition first_match {A} (P : A -> bool) (l : list A) (x : A) : Prop :=
  exists pre post, l = pre ++ x :: post /\ Forall (fun y => P y = false) pre /\ P x = true.

(** A search whose predicate may throw stops at [x] and returns it: the
    predicate is false, without throwing, on everything before [x], and
    true on [x]. *)
Definition first_found {A} (P : A -> outcome bool) (l : list A) (x : A) : Prop :=
  exists pre post,
    l = pre ++ x :: post /\ Forall (fun y => P y = Resolved false) pre /\ P x = Resolved true.

(** Two names are equal up to letter case. *)
Definition same_ignoring_case (a b : string) : Prop := toLowerCase a = toLowerCase b.

(** The log holds a call of query [q]. *)
Definition issued (q : Query) (log : list Event) : Prop :=
  exists vars out, In (Graphql q vars out) log.

(** The variables that reach the wire: [JSON.stringify] leaves out every
    property whose value is [undefined]. *)
Definition sent (vars : Variables) : Variables :=
  List.filter (fun kv => match snd kv with Js VUndefined => false | _ => true end) vars.

(** The schema accepts the argument object. *)
Definition accepts (shape : Shape) (args : option (gmap string jsval)) : bool :=
  match parse shape args with inr _ => true | inl _ => false end.

(** A field of the shape is violated by the argument object. *)
Definition violated (o : gmap string jsval) (kt : string * ZodType) : bool :=
  match fst (_parse (snd kt) [fst kt] (prop o (fst kt))) with [] => false | _ => true end.

(** The schema a tool validates with; [list-projects] has none. *)
Definition schemaOf (name : string) : option Shape :=
  if String.eqb name "get-project" then Some GetProjectSchema
  else if String.eqb name "create-project" then Some CreateProjectSchema
  else if String.eqb name "update-project" then Some UpdateProjectSchema
  else if String.eqb name "create-issue" then Some CreateIssueSchema
  else if String.eqb name "add-item-to-project" then Some AddItemToProjectSchema
  else if String.eqb name "update-project-item" then Some UpdateProjectItemSchema
  else if String.eqb name "create-project-field" then Some CreateProjectFieldSchema
  else if String.eqb name "update-item-status" then Some UpdateItemStatusSchema
  else if String.eqb name "get-project-fields" then Some GetProjectFieldsSchema
  else if String.eqb name "get-project-items" then Some GetProjectItemsSchema
  else None.

Definition is_undefined (v : jsval) : bool :=
  match v with VUndefined => true | _ => false end.

(** The field an id designates in a fetched project: the first with that id. *)
Definition designates (fieldId : string) (project : ProjectNode.t) (field : Field.t) : Prop :=
  first_match (fun f => equals (Field.id f) fieldId)
    (nodes (ProjectNode.fields project)) field.

(** The tail of [updateProjectItem], from the mutation on, under a name of
    its own for the proofs. *)
Definition finishUpdate (a : gmap string jsval) (actualFieldType : option string)
    (formattedValue : formattedValue) : Promise string :=
  await result := graphqlClient UPDATE_PROJECT_ITEM_FIELD
                    [("projectId", Js (prop a "projectId"));
                     ("itemId", Js (prop a "itemId"));
                     ("fieldId", Js (prop a "fieldId"));
                     ("value", Formatted formattedValue)] in
  await updatedId := read "projectV2Item" (Data.updateProjectV2ItemFieldValue result) in
  ret ("Project item field updated successfully!" +:+ nl +:+ nl +:+
       "Item ID: " +:+ updatedId +:+ nl +:+
       "Field Type: " +:+ show_opt actualFieldType +:+ nl +:+
       "New Value: " +:+ String_ (prop a "value")).

(** The call is on a single-select field: declared so by the caller, or
    detected so by the first fetch.  [h] is what was called before the
    option lookup. *)
Definition onSingleSelect (env : Env) (o : gmap string jsval) (h : list Event) : Prop :=
  let fetch := [("projectId", Js (prop o "projectId"))] in
  (prop o "fieldType" = VStr "SINGLE_SELECT" /\ h = []) \/
  (prop o "fieldType" = VUndefined /\
   exists d0 project0 field0,
     graphql env [] GET_PROJECT_DETAILS fetch = Resolved d0 /\
     h = [Graphql GET_PROJECT_DETAILS fetch (Resolved d0)] /\
     Data.node d0 = Some project0 /\
     designates (str_of (prop o "fieldId")) project0 field0 /\
     Field.dataType field0 = Some "SINGLE_SELECT").

(** ** The advertised tool list ([ListToolsRequestSchema] handler) *)

Module Tool.

(** One entry of [inputSchema.properties]. *)
Record property : Type :=
  { type : string;
    description : string;
    enum : option (list string);
    default : option jsval;
    minimum : option Z;
    maximum : option Z;
    items : option string }.

Record t : Type :=
  { name : string;
    summary : string;                      (* description *)
    properties : list (string * property);
    required : list string }.

Definition str (description : string) : property :=
  {| type := "string"; description := description; enum := None; default := None;
     minimum := None; maximum := None; items := None |}.

Definition oneOf (values : list string) (description : string) (default : option jsval)
    : property :=
  {| type := "string"; description := description; enum := Some values; default := default;
     minimum := None; maximum := None; items := None |}.

End Tool.

Definition tools : list Tool.t :=
  [ {| Tool.name := "list-projects";
       Tool.summary := "List GitHub Projects for a user or organization";
       Tool.properties :=
         [("owner", Tool.str "Username or organization name");
          ("type", Tool.oneOf ["user"; "organization"] "Type of owner (user or organization)"
                     (Some (VStr "user")))];
       Tool.required := ["owner"] |};
    {| Tool.name := "get-project";
       Tool.summary := "Get detailed information about a GitHub Project";
       Tool.properties := [("projectId", Tool.str "Project ID")];
       Tool.required := ["projectId"] |};
    {| Tool.name := "create-project";
       Tool.summary := "Create a new GitHub Project";
       Tool.properties :=
         [("title", Tool.str "Project title");
          ("description", Tool.str "Project description");
          ("owner", Tool.str "Owner (username or organization name)");
          ("visibility", Tool.oneOf ["PUBLIC"; "PRIVATE"] "Project visibility"
                           (Some (VStr "PRIVATE")))];
       Tool.required := ["title"; "owner"] |};
    {| Tool.name := "update-project";
       Tool.summary := "Update an existing GitHub Project";
       Tool.properties :=
         [("projectId", Tool.str "Project ID");
          ("title", Tool.str "New project title");
          ("description", Tool.str "New project description");
          ("visibility", Tool.oneOf ["PUBLIC"; "PRIVATE"] "New project visibility" None)];
       Tool.required := ["projectId"] |};
    {| Tool.name := "create-issue";
       Tool.summary := "Create a GitHub issue and optionally add to project";
       Tool.properties :=
         [("owner", Tool.str "Repository owner");
          ("repo", Tool.str "Repository name");
          ("title", Tool.str "Issue title");
          ("body", Tool.str "Issue body");
          ("projectId", Tool.str "Project ID to add the issue to")];
       Tool.required := ["owner"; "repo"; "title"] |};
    {| Tool.name := "add-item-to-project";
       Tool.summary := "Add an existing issue or PR to a project";
       Tool.properties :=
         [("projectId", Tool.str "Project ID");
          ("contentId", Tool.str "Issue or PR node ID")];
       Tool.required := ["projectId"; "contentId"] |};
    {| Tool.name := "update-project-item";
       Tool.summary := "Update a field value for a project item (supports text, number, date, single select, and iteration fields)";
       Tool.properties :=
         [("projectId", Tool.str "Project ID");
          ("itemId", Tool.str "Project item ID");
          ("fieldId", Tool.str "Field ID to update");
          ("value", Tool.str "New field value (for single select: option name like 'Todo', 'In Progress', 'Done')");
          ("fieldType", Tool.oneOf ["TEXT"; "NUMBER"; "DATE"; "SINGLE_SELECT"; "ITERATION"]
                          "Field type (auto-detected if not provided)" None)];
       Tool.required := ["projectId"; "itemId"; "fieldId"; "value"] |};
    {| Tool.name := "create-project-field";
       Tool.summary := "Create a new field in a project";
       Tool.properties :=
         [("projectId", Tool.str "Project ID");
          ("name", Tool.str "Field name");
          ("dataType", Tool.oneOf ["TEXT"; "NUMBER"; "DATE"; "SINGLE_SELECT"; "ITERATION"]
                         "Field data type" None);
          ("options", {| Tool.type := "array";
                         Tool.description := "Options for single select field";
                         Tool.enum := None; Tool.default := None;
                         Tool.minimum := None; Tool.maximum := None;
                         Tool.items := Some "string" |})];
       Tool.required := ["projectId"; "name"; "dataType"] |};
    {| Tool.name := "update-item-status";
       Tool.summary := "Update the status of a project item (shortcut for status field updates)";
       Tool.properties :=
         [("projectId", Tool.str "Project ID");
          ("itemId", Tool.str "Project item ID");
          ("status", Tool.str "New status (e.g., 'Todo', 'In Progress', 'Done')")];
       Tool.required := ["projectId"; "itemId"; "status"] |};
    {| Tool.name := "get-project-fields";
       Tool.summary := "Get detailed information about all fields in a project including options for single select fields";
       Tool.properties := [("projectId", Tool.str "Project ID")];
       Tool.required := ["projectId"] |};
    {| Tool.name := "get-project-items";
       Tool.summary := "Get all items in a project with their current field values and status";
       Tool.properties :=
         [("projectId", Tool.str "Project ID");
          ("limit", {| Tool.type := "number";
                       Tool.description := "Number of items to fetch (default: 20, max: 100)";
                       Tool.enum := None; Tool.default := Some (VNum 20);
                       Tool.minimum := Some 1%Z; Tool.maximum := Some 100%Z;
                       Tool.items := None |})];
       Tool.required := ["projectId"] |} ].

(** ** Startup: environment files and the token

    A dotenv file is its parsed key/value table; [dotenv.config] adds the
    keys the process environment does not already hold. *)

Definition dotenv_config (file env : gmap string string) : gmap string string :=
  env ∪ file.

(** The two [existsSync] tests at the top of the module: [.env.local] when
    it exists, else [.env] when it exists.  [files] gives a file's table,
    or [None] when the file does not exist. *)
Definition loadEnvFiles (files : string -> option (gmap string string))
    (env : gmap string string) : gmap string string :=
  match files ".env.local" with
  | Some file => dotenv_config file env
  | None =>
      match files ".env" with
      | Some file => dotenv_config file env
      | None => env
      end
  end.

(** The constructor's token check: the [authorization] header it builds, or
    the error it throws. *)
Definition constructor (env : gmap string string) : Thrown + string :=
  match env !! "GITHUB_TOKEN" with
  | Some token =>
      if truthy_str token then inr ("token " +:+ token)
      else inl (ErrorObj "GITHUB_TOKEN environment variable is required")
  | None => inl (ErrorObj "GITHUB_TOKEN environment variable is required")
  end.

(** Loading the module, then [new GitHubProjectsServer()]. *)
Definition startup (files : string -> option (gmap string string))
    (env : gmap string string) : Thrown + string :=
  constructor (loadEnvFiles files env).

(** ** Vocabulary of the further statements *)

(** The GraphQL documents that are mutations. *)
Definition isMutation (q : Query) : bool :=
  match q with
  | CREATE_PROJECT | UPDATE_PROJECT | ADD_ITEM_TO_PROJECT
  | UPDATE_PROJECT_ITEM_FIELD | CREATE_PROJECT_FIELD => true
  | _ => false
  end.

(** No call follows a GraphQL mutation. *)
Fixpoint mutation_only_last (log : list Event) : bool :=
  match log with
  | [] => true
  | Graphql q _ _ :: rest =>
      match rest with
      | [] => true
      | _ => negb (isMutation q) && mutation_only_last rest
      end
  | IssuesCreate _ _ :: rest => mutation_only_last rest
  end.

(** The tool names the dispatcher routes. *)
Definition toolNames : list string := map Tool.name tools.

(** A schema type that does not accept a missing value. *)
Definition demands (t : ZodType) : bool :=
  match fst (_parse t [] VUndefined) with [] => false | _ => true end.

(** ** Sample data *)

Definition mkField (id name dataType : string) (options : option (list SelectOption.t))
    : Field.t :=
  {| Field.id := Some id; Field.name := Some name; Field.dataType := Some dataType;
     Field.createdAt := None; Field.options := options; Field.iterations := None |}.

Definition mkOption (id name : string) : SelectOption.t :=
  {| SelectOption.id := id; SelectOption.name := name;
     SelectOption.color := None; SelectOption.description := None |}.

Definition draft (id title : string) : Item.t :=
  {| Item.id := id; Item.type := "DRAFT_ISSUE";
     Item.content := Some {| Content.__typename := None; Content.id := id;
                             Content.number := None; Content.title := title;
                             Content.state := None; Content.url := None;
                             Content.body := None; Content.assignees := None |};
     Item.fieldValues := None |}.

Definition mkProject (id title : string) (fields : list Field.t) : ProjectNode.t :=
  {| ProjectNode.id := id; ProjectNode.number := 1; ProjectNode.title := title;
     ProjectNode.shortDescription := None; ProjectNode.public := false;
     ProjectNode.closed := false; ProjectNode.createdAt := "2024-01-01T00:00:00Z";
     ProjectNode.updatedAt := "2024-01-01T00:00:00Z";
     ProjectNode.url := "https://github.com/users/acme/projects/1";
     ProjectNode.fields := Some fields;
     ProjectNode.items := Some [draft "PVTI_1" "Write the plan"] |}.

Definition statusOptions : list SelectOption.t :=
  [mkOption "O1" "Todo"; mkOption "O2" "In Progress"; mkOption "O3" "Done"].

(** A board with a text field, a single-select status and a plain field
    whose name also looks like a status. *)
Definition board : ProjectNode.t :=
  mkProject "P" "Roadmap"
    [mkField "F1" "Title" "TITLE" None;
     mkField "F2" "Status" "SINGLE_SELECT" (Some statusOptions);
     mkField "F3" "Estate" "TEXT" None].


(** A project with twenty-one fields, the status being the last. *)
Definition wideBoard : ProjectNode.t :=
  mkProject "P" "Wide"
    (repeat (mkField "N" "Notes" "TEXT" None) 20 ++
     [mkField "F21" "Status" "SINGLE_SELECT" (Some statusOptions)]).

(** An environment that answers by query alone. *)
Definition scripted (answer : Query -> outcome Data.t) (created : outcome IssueData.t) : Env :=
  {| graphql := fun _ q _ => answer q;
     issues_create := fun _ _ => created;
     toLocaleDateString := fun d => default "Invalid Date" d |}.

Definition issue42 : IssueData.t :=
  {| IssueData.title := "Fix login"; IssueData.number := 42;
     IssueData.html_url := "https://github.com/acme/app/issues/42";
     IssueData.node_id := "I_42" |}.

(** No user of that login, and an empty answer to everything else. *)
Definition nobody : Env :=
  scripted (fun q => match q with
                     | GET_USER_ID => Rejected (ErrorObj "Could not resolve to a User")
                     | _ => Resolved Data.empty
                     end)
           (Rejected (ErrorObj "Not supported")).

(** The user lookup finds nobody and the organization lookup is throttled. *)
Definition rateLimited : Env :=
  scripted (fun q => match q with
                     | GET_USER_ID =>
                         Rejected (ErrorObj "Could not resolve to a User with the login of 'acme-corp'.")
                     | _ => Rejected (ErrorObj "API rate limit exceeded")
                     end)
           (Rejected (ErrorObj "Not supported")).

(** * Properties *)

Example toLowerCase_ex : toLowerCase "In Progress" = "in progress".
Proof. reflexivity. Qed.

Example includes_ex : includes "my status!" "status" = true /\ includes "stat" "status" = false.
Proof. split; reflexivity. Qed.

Example show_num_ex : show_num 42 = "42" /\ show_num (-7) = "-7" /\ show_num 0 = "0".
Proof. repeat split; vm_compute; reflexivity. Qed.

Example parse_two_missing :
  parse UpdateItemStatusSchema (obj [("itemId", VStr "I")]) =
  inl [ {| path := ["projectId"]; message := "Required" |};
        {| path := ["status"]; message := "Required" |} ].
Proof. vm_compute. reflexivity. Qed.

Example parse_bad_enum :
  parse CreateProjectSchema
    (obj [("title", VStr "t"); ("owner", VStr "o"); ("visibility", VStr "SECRET")]) =
  inl [ {| path := ["visibility"];
           message := "Invalid enum value. Expected 'PUBLIC' | 'PRIVATE', received 'SECRET'" |} ].
Proof. vm_compute. reflexivity. Qed.

Example parse_default_limit :
  (fun r => match r with inr o => Some (prop o "limit") | inl _ => None end)
    (parse GetProjectItemsSchema (obj [("projectId", VStr "P")])) = Some (VNum 20).
Proof. vm_compute. reflexivity. Qed.


(** ** Strings *)

Lemma prefix_spec (p s : string) :
  String.prefix p s = true <-> exists post, s = p +:+ post.
Proof.
  revert s; induction p as [|c p IH]; intros s; simpl.
  - split; [intros _; exists s; reflexivity | destruct s; reflexivity].
  - destruct s as [|d s]; simpl.
    + split; [discriminate | intros [post H]; discriminate].
    + destruct (Ascii.ascii_dec c d) as [->|Hne].
      * rewrite IH. split; intros [post H]; exists post; [now rewrite H | now inversion H].
      * split; [discriminate | intros [post H]; inversion H; congruence].
Qed.

(** [includes s sub] holds exactly when [sub] occurs inside [s]. *)
Lemma includes_spec (s sub : string) :
  includes s sub = true <-> exists pre post, s = pre +:+ sub +:+ post.
Proof.
  induction s as [|c s IH]; cbn [includes].
  - rewrite orb_false_r, prefix_spec. split.
    + intros [post H]. exists EmptyString, post. exact H.
    + intros [pre [post H]]. destruct pre; [exists post; exact H | discriminate].
  - rewrite orb_true_iff, prefix_spec, IH. split.
    + intros [[post H] | [pre [post H]]].
      * exists EmptyString, post. exact H.
      * exists (String c pre), post. simpl. now rewrite H.
    + intros [pre [post H]]. destruct pre as [|d pre]; simpl in H.
      * left. exists post. exact H.
      * right. inversion H. exists pre, post. reflexivity.
Qed.

Lemma append_assoc (a b c : string) : (a +:+ b) +:+ c = a +:+ (b +:+ c).
Proof.
  induction a as [|x a IH]; [reflexivity|].
  change (String x ((a +:+ b) +:+ c) = String x (a +:+ (b +:+ c))). now rewrite IH.
Qed.

Lemma find_first_match {A} (P : A -> bool) (l : list A) (x : A) :
  List.find P l = Some x <-> first_match P l x.
Proof.
  unfold first_match. induction l as [|y l IH]; simpl.
  - split; [discriminate | intros (pre & post & H & _); destruct pre; discriminate].
  - destruct (P y) eqn:Py.
    + split.
      * intros [= ->]. exists [], l. repeat split; [constructor | exact Py].
      * intros (pre & post & H & Hpre & Hx). destruct pre as [|z pre]; simpl in H.
        -- now inversion H.
        -- inversion H; subst. inversion Hpre; subst. congruence.
    + rewrite IH. split.
      * intros (pre & post & -> & Hpre & Hx). exists (y :: pre), post.
        repeat split; [constructor; assumption | exact Hx].
      * intros (pre & post & H & Hpre & Hx). destruct pre as [|z pre]; simpl in H.
        -- inversion H; subst. congruence.
        -- inversion H; subst. inversion Hpre; subst. exists pre, post. repeat split; assumption.
Qed.

Lemma find_none_all {A} (P : A -> bool) (l : list A) :
  List.find P l = None <-> Forall (fun y => P y = false) l.
Proof.
  induction l as [|y l IH]; simpl.
  - split; [constructor | reflexivity].
  - destruct (P y) eqn:Py.
    + split; [discriminate | intros H; inversion H; congruence].
    + rewrite IH. split; [now constructor | intros H; now inversion H].
Qed.

(** ** Schema validation *)

Lemma parse_shape_issues (shape : Shape) (o : gmap string jsval) :
  fst (parse_shape shape o) =
  concat (map (fun kt => fst (_parse (snd kt) [fst kt] (prop o (fst kt)))) shape).
Proof.
  induction shape as [|[k t] shape IH]; simpl; [reflexivity|].
  destruct (_parse t [k] (prop o k)) as [is1 v].
  destruct (parse_shape shape o) as [is2 out]. simpl in *. now rewrite IH.
Qed.

Lemma parse_shape_absent (shape : Shape) (o : gmap string jsval) (k : string) :
  ~ In k (map fst shape) -> snd (parse_shape shape o) !! k = None.
Proof.
  induction shape as [|[k0 t0] shape IH]; simpl; intros Hk; [apply lookup_empty|].
  destruct (_parse t0 [k0] (prop o k0)) as [is1 v].
  destruct (parse_shape shape o) as [is2 out]. simpl in *.
  assert (Hout : out !! k = None) by (apply IH; tauto).
  assert (k0 <> k) by tauto.
  destruct v; simpl; try exact Hout; rewrite lookup_insert_ne; assumption.
Qed.

Lemma parse_shape_prop (shape : Shape) (o : gmap string jsval) (k : string) (t : ZodType) :
  List.NoDup (map fst shape) -> In (k, t) shape ->
  prop (snd (parse_shape shape o)) k = snd (_parse t [k] (prop o k)).
Proof.
  induction shape as [|[k0 t0] shape IH]; simpl; intros Hnd Hin; [contradiction|].
  apply List.NoDup_cons_iff in Hnd as [Hfresh Hnd].
  pose proof (parse_shape_absent shape o k0 Hfresh) as Habs.
  destruct (_parse t0 [k0] (prop o k0)) as [is1 v] eqn:Hp.
  destruct (parse_shape shape o) as [is2 out]. simpl in *.
  destruct Hin as [[= -> ->] | Hin].
  - rewrite Hp. simpl. unfold prop.
    destruct v; simpl; rewrite ?lookup_insert_eq, ?Habs; reflexivity.
  - assert (Hne : k0 <> k).
    { intros ->. apply Hfresh. apply in_map_iff. exists (k, t). split; [reflexivity | exact Hin]. }
    rewrite <- (IH Hnd Hin). unfold prop.
    destruct v; simpl; rewrite ?lookup_insert_ne by exact Hne; reflexivity.
Qed.

(** What acceptance by a schema means, field by field. *)
Lemma parse_accepts (shape : Shape) (o a : gmap string jsval) :
  List.NoDup (map fst shape) ->
  parse shape (Some o) = inr a ->
  forall k t, In (k, t) shape ->
    fst (_parse t [k] (prop o k)) = [] /\ prop a k = snd (_parse t [k] (prop o k)).
Proof.
  intros Hnd Hparse k t Hin. unfold parse in Hparse.
  pose proof (parse_shape_issues shape o) as His.
  pose proof (parse_shape_prop shape o k t Hnd Hin) as Hp.
  destruct (parse_shape shape o) as [iss out]. simpl in *.
  destruct iss; [|discriminate]. injection Hparse as <-. split; [|exact Hp].
  symmetry in His.
  assert (Hall : forall kt, In kt shape ->
            fst (_parse (snd kt) [fst kt] (prop o (fst kt))) = []).
  { clear -His. induction shape as [|kt0 shape IH]; simpl in *; [contradiction|].
    apply app_eq_nil in His as [H0 Hrest]. intros kt [<- | Hin]; [exact H0 | now apply IH]. }
  exact (Hall (k, t) Hin).
Qed.

(** Conversely, an object whose fields all pass is accepted. *)
Lemma parse_clean (shape : Shape) (o : gmap string jsval) :
  concat (map (fun kt => fst (_parse (snd kt) [fst kt] (prop o (fst kt)))) shape) = [] ->
  parse shape (Some o) = inr (snd (parse_shape shape o)).
Proof.
  intros H. unfold parse. pose proof (parse_shape_issues shape o) as His.
  destruct (parse_shape shape o) as [iss out]. simpl in *.
  rewrite H in His. now subst iss.
Qed.

(** A rejected object carries the issues of all its fields, in shape order. *)
Lemma parse_rejects (shape : Shape) (o : gmap string jsval) (errors : list ZodIssue) :
  parse shape (Some o) = inl errors ->
  errors = concat (map (fun kt => fst (_parse (snd kt) [fst kt] (prop o (fst kt)))) shape)
  /\ errors <> [].
Proof.
  unfold parse. pose proof (parse_shape_issues shape o) as His.
  destruct (parse_shape shape o) as [iss out]. simpl in *.
  destruct iss; [discriminate|]. intros [= <-]. split; [exact His | discriminate].
Qed.

Lemma parse_ZString (p : list string) (v : jsval) :
  fst (_parse ZString p v) = [] -> exists s, v = VStr s /\ snd (_parse ZString p v) = VStr s.
Proof. destruct v; simpl; try discriminate. intros _. eauto. Qed.

Lemma parse_optional_ZString (p : list string) (v : jsval) :
  fst (_parse (ZOptional ZString) p v) = [] ->
  snd (_parse (ZOptional ZString) p v) = v /\ (v = VUndefined \/ exists s, v = VStr s).
Proof. destruct v; simpl; try discriminate; intros _; split; eauto. Qed.

Lemma parse_ZEnum (values : list string) (p : list string) (v : jsval) :
  fst (_parse (ZEnum values) p v) = [] ->
  exists s, v = VStr s /\ In s values /\ snd (_parse (ZEnum values) p v) = VStr s.
Proof.
  destruct v; simpl; try discriminate.
  destruct (mem_str s values) eqn:Hm; [|discriminate]. intros _.
  exists s. repeat split. unfold mem_str in Hm. apply existsb_exists in Hm as (x & Hx & Heq).
  apply String.eqb_eq in Heq. now subst.
Qed.

Lemma parse_optional_ZEnum (values : list string) (p : list string) (v : jsval) :
  fst (_parse (ZOptional (ZEnum values)) p v) = [] ->
  snd (_parse (ZOptional (ZEnum values)) p v) = v /\
  (v = VUndefined \/ exists s, v = VStr s /\ In s values).
Proof.
  destruct v; simpl; try discriminate; try (intros _; split; eauto; fail).
  destruct (mem_str s values) eqn:Hm; [|discriminate]. intros _. split; [reflexivity|].
  right. exists s. split; [reflexivity|].
  unfold mem_str in Hm. apply existsb_exists in Hm as (x & Hx & Heq).
  apply String.eqb_eq in Heq. now subst.
Qed.

Lemma NoDup_keys (l : list string) :
  (fix nodup (l : list string) : bool :=
     match l with
     | [] => true
     | x :: l' => negb (existsb (String.eqb x) l') && nodup l'
     end) l = true -> List.NoDup l.
Proof.
  induction l as [|x l IH]; intros H; [constructor|].
  apply andb_true_iff in H as [Hx Hl]. constructor; [|now apply IH].
  intros Hin. apply negb_true_iff in Hx.
  assert (existsb (String.eqb x) l = true); [|congruence].
  apply existsb_exists. exists x. split; [exact Hin | apply String.eqb_refl].
Qed.

Ltac keys_distinct := apply NoDup_keys; vm_compute; reflexivity.

Lemma parse_elements_strings (p : list string) (i : nat) (l : list string) :
  parse_elements (_parse ZString) p i (VStr <$> l) = ([], VStr <$> l).
Proof.
  revert i; induction l as [|s l IH]; intros i; simpl; [reflexivity|].
  change (map VStr l) with (VStr <$> l). now rewrite IH.
Qed.

Lemma prop_insert_ne (o : gmap string jsval) (k k' : string) (v : jsval) :
  k <> k' -> prop (<[k := v]> o) k' = prop o k'.
Proof. intros H. unfold prop. now rewrite lookup_insert_ne. Qed.

Lemma prop_insert_eq (o : gmap string jsval) (k : string) (v : jsval) :
  prop (<[k := v]> o) k = v.
Proof. unfold prop. now rewrite lookup_insert_eq. Qed.

(** ** create-project-field *)

(** The run of an accepted create-project-field call, in closed form. *)
Lemma createProjectField_log (env : Env) (o : gmap string jsval) :
  accepts CreateProjectFieldSchema (Some o) = true ->
  exists projectId name dataType,
    prop o "projectId" = VStr projectId /\
    prop o "name" = VStr name /\
    prop o "dataType" = VStr dataType /\
    let vars := [("projectId", Js (VStr projectId)); ("name", Js (VStr name));
                 ("dataType", Js (VStr dataType))] in
    snd (createProjectField (Some o) env) =
      [Graphql CREATE_PROJECT_FIELD vars (graphql env [] CREATE_PROJECT_FIELD vars)].
Proof.
  unfold accepts. destruct (parse CreateProjectFieldSchema (Some o)) as [|a] eqn:Hparse;
    [discriminate|]. intros _.
  assert (Hnd : List.NoDup (map fst CreateProjectFieldSchema)) by keys_distinct.
  pose proof (parse_accepts _ _ _ Hnd Hparse) as Hacc.
  destruct (Hacc "projectId" ZString) as [H1 P1]; [simpl; tauto|].
  destruct (Hacc "name" ZString) as [H2 P2]; [simpl; tauto|].
  destruct (Hacc "dataType" (ZEnum fieldTypes)) as [H3 P3]; [simpl; tauto|].
  apply parse_ZString in H1 as (projectId & E1 & R1).
  apply parse_ZString in H2 as (name & E2 & R2).
  apply parse_ZEnum in H3 as (dataType & E3 & _ & R3).
  rewrite R1 in P1. rewrite R2 in P2. rewrite R3 in P3.
  exists projectId, name, dataType.
  repeat split; try eassumption.
  unfold createProjectField, parsing. rewrite Hparse.
  unfold guarded, bind, graphqlClient. rewrite P1, P2, P3. cbn [app].
  destruct (graphql env [] CREATE_PROJECT_FIELD _) as [d|e]; [|reflexivity].
  unfold read. destruct (Data.createProjectV2Field d); reflexivity.
Qed.

(** C9. create-project-field accepts an [options] array of strings and never
    forwards it: with or without [options], the one call issued is the
    creation mutation whose variables are exactly [projectId], [name] and
    [dataType]. *)
Theorem C9_createProjectField_drops_options
    (env : Env) (o : gmap string jsval) (options : list string) :
  accepts CreateProjectFieldSchema (Some o) = true ->
  accepts CreateProjectFieldSchema (Some (<["options" := VArr (VStr <$> options)]> o)) = true /\
  exists projectId name dataType,
    prop o "projectId" = VStr projectId /\
    prop o "name" = VStr name /\
    prop o "dataType" = VStr dataType /\
    let vars := [("projectId", Js (VStr projectId)); ("name", Js (VStr name));
                 ("dataType", Js (VStr dataType))] in
    let call := [Graphql CREATE_PROJECT_FIELD vars (graphql env [] CREATE_PROJECT_FIELD vars)] in
    snd (createProjectField (Some o) env) = call /\
    snd (createProjectField (Some (<["options" := VArr (VStr <$> options)]> o)) env) = call.
Proof.
  intros Hacc.
  assert (Hacc' : accepts CreateProjectFieldSchema
                    (Some (<["options" := VArr (VStr <$> options)]> o)) = true).
  { unfold accepts in *.
    destruct (parse CreateProjectFieldSchema (Some o)) as [|a] eqn:Hparse; [discriminate|].
    assert (Hnd : List.NoDup (map fst CreateProjectFieldSchema)) by keys_distinct.
    pose proof (parse_accepts _ _ _ Hnd Hparse) as H.
    destruct (H "projectId" ZString) as [H1 _]; [simpl; tauto|].
    destruct (H "name" ZString) as [H2 _]; [simpl; tauto|].
    destruct (H "dataType" (ZEnum fieldTypes)) as [H3 _]; [simpl; tauto|].
    rewrite parse_clean; [reflexivity|].
    cbn [map concat CreateProjectFieldSchema fst snd].
    rewrite !prop_insert_ne by discriminate. rewrite prop_insert_eq.
    rewrite H1, H2, H3. cbn [_parse]. rewrite parse_elements_strings. reflexivity. }
  split; [exact Hacc'|].
  destruct (createProjectField_log env o Hacc) as (projectId & name & dataType & E1 & E2 & E3 & L).
  destruct (createProjectField_log env _ Hacc')
    as (projectId' & name' & dataType' & E1' & E2' & E3' & L').
  rewrite prop_insert_ne in E1', E2', E3' by discriminate.
  assert (projectId' = projectId) by congruence.
  assert (name' = name) by congruence.
  assert (dataType' = dataType) by congruence. subst.
  exists projectId, name, dataType. repeat split; assumption.
Qed.

Lemma C9_createProjectField_drops_options_witness :
  accepts CreateProjectFieldSchema
    (obj [("projectId", VStr "P"); ("name", VStr "Priority");
          ("dataType", VStr "SINGLE_SELECT")]) = true /\
  snd (createProjectField
         (Some (<["options" := VArr (VStr <$> ["Low"; "High"])]>
                  (list_to_map [("projectId", VStr "P"); ("name", VStr "Priority");
                                ("dataType", VStr "SINGLE_SELECT")])))
         (hosting board)) =
  [Graphql CREATE_PROJECT_FIELD
     [("projectId", Js (VStr "P")); ("name", Js (VStr "Priority"));
      ("dataType", Js (VStr "SINGLE_SELECT"))]
     (Rejected (ErrorObj "Not supported"))].
Proof.
  assert (H : accepts CreateProjectFieldSchema
                (obj [("projectId", VStr "P"); ("name", VStr "Priority");
                      ("dataType", VStr "SINGLE_SELECT")]) = true)
    by (vm_compute; reflexivity).
  split; [exact H|].
  destruct (C9_createProjectField_drops_options (hosting board) _ ["Low"; "High"] H)
    as (_ & projectId & name & dataType & E1 & E2 & E3 & _ & L).
  vm_compute in E1, E2, E3. injection E1 as <-. injection E2 as <-. injection E3 as <-.
  exact L.
Defined.

(** ** update-project *)

(** C7. update-project sends, besides [projectId], exactly those of
    [title], [description] and [visibility] that the caller supplied, each
    with the caller's value; an omitted one is absent from what is sent,
    and nothing is sent as [null]. *)
Theorem C7_updateProject_sends_supplied_only (env : Env) (o : gmap string jsval) :
  accepts UpdateProjectSchema (Some o) = true ->
  exists vars out,
    snd (updateProject (Some o) env) = [Graphql UPDATE_PROJECT vars out] /\
    map fst (sent vars) =
      List.filter (fun k => negb (is_undefined (prop o k)))
        ["projectId"; "title"; "description"; "visibility"] /\
    forall k v, In (k, v) (sent vars) -> v = Js (prop o k) /\ prop o k <> VNull.
Proof.
  unfold accepts. destruct (parse UpdateProjectSchema (Some o)) as [|a] eqn:Hparse;
    [discriminate|]. intros _.
  assert (Hnd : List.NoDup (map fst UpdateProjectSchema)) by keys_distinct.
  pose proof (parse_accepts _ _ _ Hnd Hparse) as Hacc.
  destruct (Hacc "projectId" ZString) as [H1 P1]; [simpl; tauto|].
  destruct (Hacc "title" (ZOptional ZString)) as [H2 P2]; [simpl; tauto|].
  destruct (Hacc "description" (ZOptional ZString)) as [H3 P3]; [simpl; tauto|].
  destruct (Hacc "visibility" (ZOptional (ZEnum ["PUBLIC"; "PRIVATE"]))) as [H4 P4];
    [simpl; tauto|].
  apply parse_ZString in H1 as (projectId & E1 & R1).
  apply parse_optional_ZString in H2 as [R2 C2].
  apply parse_optional_ZString in H3 as [R3 C3].
  apply parse_optional_ZEnum in H4 as [R4 C4].
  rewrite R1 in P1. rewrite R2 in P2. rewrite R3 in P3. rewrite R4 in P4.
  exists [("projectId", Js (prop o "projectId")); ("title", Js (prop o "title"));
          ("description", Js (prop o "description")); ("visibility", Js (prop o "visibility"))].
  exists (graphql env [] UPDATE_PROJECT
            [("projectId", Js (prop o "projectId")); ("title", Js (prop o "title"));
             ("description", Js (prop o "description"));
             ("visibility", Js (prop o "visibility"))]).
  split; [|split].
  - unfold updateProject, parsing. rewrite Hparse.
    unfold guarded, bind, graphqlClient. rewrite P1, P2, P3, P4, E1. cbn [app].
    destruct (graphql env [] UPDATE_PROJECT _) as [d|e] eqn:Hout; [|reflexivity].
    unfold read. destruct (Data.updateProjectV2 d); reflexivity.
  - cbn [List.filter].
    destruct C2 as [E2 | [t E2]], C3 as [E3 | [d E3]], C4 as [E4 | [vis [E4 _]]];
      rewrite E1, E2, E3, E4; reflexivity.
  - intros k v Hin.
    destruct C2 as [E2 | [t E2]], C3 as [E3 | [d E3]], C4 as [E4 | [vis [E4 _]]];
      rewrite E1, E2, E3, E4 in Hin; cbn [sent List.filter snd In] in Hin;
      repeat (destruct Hin as [Hin | Hin]; [injection Hin as <- <- |]);
      try contradiction;
      rewrite ?E1, ?E2, ?E3, ?E4; (split; [reflexivity | discriminate]).
Qed.

Lemma C7_updateProject_sends_supplied_only_witness :
  accepts UpdateProjectSchema (obj [("projectId", VStr "P"); ("title", VStr "Q3")]) = true /\
  exists vars out,
    snd (updateProject (obj [("projectId", VStr "P"); ("title", VStr "Q3")]) (hosting board)) =
      [Graphql UPDATE_PROJECT vars out] /\
    map fst (sent vars) = ["projectId"; "title"].
Proof.
  assert (H : accepts UpdateProjectSchema
                (obj [("projectId", VStr "P"); ("title", VStr "Q3")]) = true)
    by (vm_compute; reflexivity).
  split; [exact H|].
  destruct (C7_updateProject_sends_supplied_only (hosting board) _ H)
    as (vars & out & L & K & _).
  exists vars, out. split; [exact L|]. rewrite K. vm_compute. reflexivity.
Defined.

(** ** update-item-status *)

Lemma chain_find {A} (P : A -> bool) (o : option (list A)) :
  o ?. List.find P = List.find P (nodes o).
Proof. destruct o; reflexivity. Qed.

(** A field is status-like exactly when it carries a name whose lower-cased
    form contains one of the three keywords. *)
Lemma isStatusField_spec (field : Field.t) :
  isStatusField field = Resolved true <->
  exists name, Field.name field = Some name /\
    exists kw, In kw ["status"; "state"; "column"] /\
      exists pre post, toLowerCase name = pre +:+ kw +:+ post.
Proof.
  unfold isStatusField. destruct (Field.name field) as [name|].
  - split.
    + intros [= H]. exists name. split; [reflexivity|].
      rewrite !orb_true_iff, !includes_spec in H.
      destruct H as [[H | H] | H]; eexists; (split; [|exact H]); simpl; tauto.
    + intros (name' & [= <-] & kw & Hkw & H). f_equal.
      rewrite !orb_true_iff, !includes_spec. simpl in Hkw.
      destruct Hkw as [<- | [<- | [<- | []]]]; tauto.
  - split; [discriminate | intros (name & H & _); discriminate].
Qed.

(** The search throws exactly on a node without a name. *)
Lemma isStatusField_throws (field : Field.t) (e : Thrown) :
  isStatusField field = Rejected e <->
  Field.name field = None /\
  e = ErrorObj "Cannot read properties of undefined (reading 'toLowerCase')".
Proof.
  unfold isStatusField. destruct (Field.name field).
  - split; [discriminate | intros [H _]; discriminate].
  - split; [intros [= <-]; split; reflexivity | intros [_ ->]; reflexivity].
Qed.

Lemma findStatusField_nodes (project : ProjectNode.t) :
  findStatusField project = Array.find isStatusField (nodes (ProjectNode.fields project)).
Proof. unfold findStatusField. destruct (ProjectNode.fields project); reflexivity. Qed.

Lemma Array_find_first_found {A} (P : A -> outcome bool) (l : list A) (x : A) :
  Array.find P l = Resolved (Some x) <-> first_found P l x.
Proof.
  unfold first_found. induction l as [|y l IH]; simpl.
  - split; [discriminate | intros (pre & post & H & _); destruct pre; discriminate].
  - destruct (P y) as [[|]|e] eqn:Py.
    + split.
      * intros [= ->]. exists [], l. repeat split; [constructor | exact Py].
      * intros (pre & post & H & Hpre & Hx). destruct pre as [|z pre]; simpl in H.
        -- now inversion H.
        -- inversion H; subst. inversion Hpre; subst. congruence.
    + rewrite IH. split.
      * intros (pre & post & -> & Hpre & Hx). exists (y :: pre), post.
        repeat split; [constructor; assumption | exact Hx].
      * intros (pre & post & H & Hpre & Hx). destruct pre as [|z pre]; simpl in H.
        -- inversion H; subst. congruence.
        -- inversion H; subst. inversion Hpre; subst. exists pre, post. repeat split; assumption.
    + split; [discriminate|].
      intros (pre & post & H & Hpre & Hx). destruct pre as [|z pre]; simpl in H.
      * inversion H; subst. congruence.
      * inversion H; subst. inversion Hpre; subst. congruence.
Qed.




Lemma findOption_spec (options : option (list SelectOption.t)) (value : string)
    (option : SelectOption.t) :
  findOption options value = Some option ->
  In option (nodes options) /\ same_ignoring_case (SelectOption.name option) value.
Proof.
  unfold findOption. rewrite chain_find. intros H.
  apply find_some in H as [Hin Heq]. split; [exact Hin|]. now apply String.eqb_eq in Heq.
Qed.

Lemma findOption_none (options : list SelectOption.t) (value : string) :
  (forall option, In option options -> ~ same_ignoring_case (SelectOption.name option) value) ->
  findOption (Some options) value = None.
Proof.
  intros H. unfold findOption, chain. apply find_none_all. apply List.Forall_forall.
  intros opt Hin. apply String.eqb_neq. exact (H opt Hin).
Qed.

Lemma UpdateItemStatus_args (o : gmap string jsval) :
  accepts UpdateItemStatusSchema (Some o) = true ->
  exists a projectId itemId status,
    parse UpdateItemStatusSchema (Some o) = inr a /\
    prop o "projectId" = VStr projectId /\ prop a "projectId" = VStr projectId /\
    prop o "itemId" = VStr itemId /\ prop a "itemId" = VStr itemId /\
    prop o "status" = VStr status /\ prop a "status" = VStr status.
Proof.
  unfold accepts. destruct (parse UpdateItemStatusSchema (Some o)) as [|a] eqn:Hparse;
    [discriminate|]. intros _.
  assert (Hnd : List.NoDup (map fst UpdateItemStatusSchema)) by keys_distinct.
  pose proof (parse_accepts _ _ _ Hnd Hparse) as Hacc.
  destruct (Hacc "projectId" ZString) as [H1 P1]; [simpl; tauto|].
  destruct (Hacc "itemId" ZString) as [H2 P2]; [simpl; tauto|].
  destruct (Hacc "status" ZString) as [H3 P3]; [simpl; tauto|].
  apply parse_ZString in H1 as (projectId & E1 & R1).
  apply parse_ZString in H2 as (itemId & E2 & R2).
  apply parse_ZString in H3 as (status & E3 & R3).
  exists a, projectId, itemId, status. repeat split; congruence.
Qed.

(** C10. When the first status-like field of the fetched project carries no
    options list, update-item-status fails with the status-not-found error
    whatever status was asked for, after the one fetch and without any
    update mutation. *)
Theorem C10_status_field_without_options
    (env : Env) (o : gmap string jsval) (d : Data.t) (project : ProjectNode.t)
    (statusField : Field.t) :
  accepts UpdateItemStatusSchema (Some o) = true ->
  graphql env [] GET_PROJECT_DETAILS [("projectId", Js (prop o "projectId"))] = Resolved d ->
  Data.node d = Some project ->
  first_found isStatusField (nodes (ProjectNode.fields project)) statusField ->
  Field.options statusField = None ->
  exists status log,
    prop o "status" = VStr status /\
    updateItemStatus (Some o) env =
      (Content ("Error updating status: Status '" +:+ status +:+
                "' not found. Available statuses: undefined"), log) /\
    log = [Graphql GET_PROJECT_DETAILS [("projectId", Js (prop o "projectId"))] (Resolved d)] /\
    ~ issued UPDATE_PROJECT_ITEM_FIELD log.
Proof.
  intros Hacc Hfetch Hnode Hfirst Hopts.
  destruct (UpdateItemStatus_args o Hacc)
    as (a & projectId & itemId & status & Hparse & E1 & P1 & E2 & P2 & E3 & P3).
  apply Array_find_first_found in Hfirst. rewrite <- findStatusField_nodes in Hfirst.
  exists status,
    [Graphql GET_PROJECT_DETAILS [("projectId", Js (prop o "projectId"))] (Resolved d)].
  split; [exact E3|]. split; [|split; [reflexivity|]].
  - unfold updateItemStatus, parsing. rewrite Hparse.
    unfold guarded, bind, graphqlClient. rewrite P1, P3. rewrite E1 in *.
    rewrite Hfetch, Hnode, Hfirst, Hopts. reflexivity.
  - intros (vars & out & [Hin | []]). discriminate.
Qed.

Lemma C10_status_field_without_options_witness :
  accepts UpdateItemStatusSchema
    (obj [("projectId", VStr "P"); ("itemId", VStr "I"); ("status", VStr "Done")]) = true /\
  fst (updateItemStatus
         (obj [("projectId", VStr "P"); ("itemId", VStr "I"); ("status", VStr "Done")])
         (hosting (mkProject "P" "Plain" [mkField "F1" "Workflow state" "TEXT" None]))) =
  Content "Error updating status: Status 'Done' not found. Available statuses: undefined".
Proof.
  assert (H : accepts UpdateItemStatusSchema
                (obj [("projectId", VStr "P"); ("itemId", VStr "I"); ("status", VStr "Done")])
              = true) by (vm_compute; reflexivity).
  split; [exact H|].
  assert (F : first_found isStatusField
                (nodes (ProjectNode.fields
                          (GET_PROJECT_DETAILS_page
                             (mkProject "P" "Plain" [mkField "F1" "Workflow state" "TEXT" None]))))
                (mkField "F1" "Workflow state" "TEXT" None)).
  { exists [], []. split; [reflexivity | split; [constructor | vm_compute; reflexivity]]. }
  destruct (C10_status_field_without_options
              (hosting (mkProject "P" "Plain" [mkField "F1" "Workflow state" "TEXT" None]))
              (list_to_map [("projectId", VStr "P"); ("itemId", VStr "I"); ("status", VStr "Done")])
              _ _ _ H eq_refl eq_refl F eq_refl)
    as (status & log & E & R & _).
  vm_compute in E. injection E as <-. unfold obj. rewrite R. reflexivity.
Defined.

(** What GitHub returns for the details query is the first page of fields,
    each as the selection answers it. *)
Lemma hosting_returns_first_page (project : ProjectNode.t) (log : list Event) (vars : Variables) :
  exists d page,
    graphql (hosting project) log GET_PROJECT_DETAILS vars = Resolved d /\
    Data.node d = Some page /\
    nodes (ProjectNode.fields page) =
      map GET_PROJECT_DETAILS_field (take 20 (nodes (ProjectNode.fields project))).
Proof.
  eexists. eexists. split; [reflexivity|]. split; [reflexivity|].
  simpl. destruct (ProjectNode.fields project); reflexivity.
Qed.


(** The body of [updateItemStatus] once the arguments are parsed. *)
Lemma updateItemStatus_frame (env : Env) (o : gmap string jsval) :
  accepts UpdateItemStatusSchema (Some o) = true ->
  exists projectId itemId status,
    prop o "projectId" = VStr projectId /\
    prop o "itemId" = VStr itemId /\
    prop o "status" = VStr status /\
    updateItemStatus (Some o) env =
      guarded "Error updating status: "
        (await projectResult := graphqlClient GET_PROJECT_DETAILS
                                  [("projectId", Js (VStr projectId))] in
         match Data.node projectResult with
         | None => throw (ErrorObj "Project not found")
         | Some project =>
             match findStatusField project with
             | Rejected e => throw e
             | Resolved None =>
                 throw (ErrorObj ("No status field found. Available fields: " +:+
                                  availableFields project))
             | Resolved (Some statusField) =>
                 match findOption (Field.options statusField) status with
                 | None =>
                     throw (ErrorObj ("Status '" +:+ status +:+
                                      "' not found. Available statuses: " +:+
                                      optionNames (Field.options statusField)))
                 | Some option =>
                     await result := graphqlClient UPDATE_PROJECT_ITEM_FIELD
                                       [("projectId", Js (VStr projectId));
                                        ("itemId", Js (VStr itemId));
                                        ("fieldId", Js (js_of_opt (Field.id statusField)));
                                        ("value", Formatted
                                           (singleSelectOptionId (SelectOption.id option)))] in
                     await updatedId :=
                       read "projectV2Item" (Data.updateProjectV2ItemFieldValue result) in
                     ret ("Status updated successfully!" +:+ nl +:+ nl +:+
                          "Item ID: " +:+ updatedId +:+ nl +:+
                          "Field: " +:+ show_opt (Field.name statusField) +:+ nl +:+
                          "New Status: " +:+ status)
                 end
             end
         end) env.
Proof.
  intros Hacc.
  destruct (UpdateItemStatus_args o Hacc)
    as (a & projectId & itemId & status & Hparse & E1 & P1 & E2 & P2 & E3 & P3).
  exists projectId, itemId, status. repeat split; try assumption.
  unfold updateItemStatus, parsing. rewrite Hparse, P1, P2, P3. reflexivity.
Qed.



(** ** create-issue *)

(** C5. If the REST call created the issue and the add-to-project mutation
    that followed threw, create-issue still returns the success text with
    the issue's details, a warning appended, and no error response. *)
Theorem C5_createIssue_attach_failure_is_warning
    (env : Env) (o : gmap string jsval)
    (params : list (string * jsval)) (issue : IssueData.t) (vars : Variables) (e : Thrown) :
  accepts CreateIssueSchema (Some o) = true ->
  In (IssuesCreate params (Resolved issue)) (snd (createIssue (Some o) env)) ->
  In (Graphql ADD_ITEM_TO_PROJECT vars (Rejected e)) (snd (createIssue (Some o) env)) ->
  fst (createIssue (Some o) env) =
    Content ("Issue created successfully!" +:+ nl +:+ nl +:+
             "Title: " +:+ IssueData.title issue +:+ nl +:+
             "Number: #" +:+ show_num (IssueData.number issue) +:+ nl +:+
             "URL: " +:+ IssueData.html_url issue +:+ nl +:+
             "Node ID: " +:+ IssueData.node_id issue +:+ nl +:+ nl +:+
             "Warning: Could not add issue to project: " +:+ errorText e).
Proof.
  unfold accepts. destruct (parse CreateIssueSchema (Some o)) as [|a] eqn:Hparse;
    [discriminate|]. intros _.
  unfold createIssue, parsing. rewrite Hparse.
  unfold guarded, bind, restClient_issues_create.
  destruct (issues_create env [] _) as [created|e0]; cbn [app].
  - destruct (truthy (prop a "projectId") && truthy_str (IssueData.node_id created)).
    + unfold try_catch, bind, graphqlClient, ret.
      destruct (graphql env _ ADD_ITEM_TO_PROJECT _) as [r|e1]; cbn [app fst snd].
      * intros _ [H | [H | []]]; discriminate.
      * intros [H | [H | []]]; [|discriminate]. injection H as _ <-.
        intros [H | [H | []]]; [discriminate|]. injection H as _ <-.
        rewrite !append_assoc. reflexivity.
    + unfold ret. cbn [fst snd]. intros _ [H | []]. discriminate.
  - cbn [fst snd]. intros [H | []]. discriminate.
Qed.

Lemma C5_createIssue_attach_failure_is_warning_witness :
  accepts CreateIssueSchema
    (obj [("owner", VStr "acme"); ("repo", VStr "app"); ("title", VStr "Fix login");
          ("projectId", VStr "P")]) = true /\
  fst (createIssue
         (obj [("owner", VStr "acme"); ("repo", VStr "app"); ("title", VStr "Fix login");
               ("projectId", VStr "P")])
         (scripted (fun _ => Rejected (ErrorObj "Resource not accessible")) (Resolved issue42))) =
  Content ("Issue created successfully!" +:+ nl +:+ nl +:+
           "Title: Fix login" +:+ nl +:+
           "Number: #42" +:+ nl +:+
           "URL: https://github.com/acme/app/issues/42" +:+ nl +:+
           "Node ID: I_42" +:+ nl +:+ nl +:+
           "Warning: Could not add issue to project: Resource not accessible").
Proof.
  assert (H : accepts CreateIssueSchema
                (obj [("owner", VStr "acme"); ("repo", VStr "app"); ("title", VStr "Fix login");
                      ("projectId", VStr "P")]) = true) by (vm_compute; reflexivity).
  split; [exact H|]. unfold obj in *.
  rewrite (C5_createIssue_attach_failure_is_warning
             (scripted (fun _ => Rejected (ErrorObj "Resource not accessible")) (Resolved issue42))
             (list_to_map [("owner", VStr "acme"); ("repo", VStr "app");
                           ("title", VStr "Fix login"); ("projectId", VStr "P")])
             [("owner", VStr "acme"); ("repo", VStr "app"); ("title", VStr "Fix login");
              ("body", VUndefined)]
             issue42
             [("projectId", Js (VStr "P")); ("contentId", Js (VStr "I_42"))]
             (ErrorObj "Resource not accessible") H).
  - vm_compute. reflexivity.
  - vm_compute. left. reflexivity.
  - vm_compute. right. left. reflexivity.
Defined.

(** ** create-project *)

(** C4, as stated, fails: when the user lookup throws and the organization
    lookup throws as well, neither lookup yields an owner id, yet the text
    returned is the organization lookup's own error, not the
    owner-not-found message. *)
Lemma C4_counterexample_org_lookup_throws :
  createProject (obj [("title", VStr "Sprint Planning"); ("owner", VStr "acme-corp")])
    rateLimited =
  (Content "Error creating project: API rate limit exceeded",
   [Graphql GET_USER_ID [("login", Js (VStr "acme-corp"))]
      (Rejected (ErrorObj "Could not resolve to a User with the login of 'acme-corp'."));
    Graphql GET_ORG_ID [("login", Js (VStr "acme-corp"))]
      (Rejected (ErrorObj "API rate limit exceeded"))]) /\
  "Error creating project: API rate limit exceeded" <>
  "Error creating project: Owner 'acme-corp' not found".
Proof. split; [vm_compute; reflexivity | discriminate]. Qed.

(** C4, amended.  create-project looks the owner up as a user first and as
    an organization only when the user lookup throws.  When the lookup that
    answered carries no owner id, the call fails with the owner-not-found
    message; when the organization lookup throws too, the call fails with
    that error's text.  In all these cases no create-project mutation is
    issued. *)
Theorem C4_owner_resolution (env : Env) (o : gmap string jsval) :
  accepts CreateProjectSchema (Some o) = true ->
  exists owner,
    prop o "owner" = VStr owner /\
    let login := [("login", Js (VStr owner))] in
    let user := graphql env [] GET_USER_ID login in
    let userLookup := Graphql GET_USER_ID login user in
    let org := graphql env [userLookup] GET_ORG_ID login in
    let orgLookup := Graphql GET_ORG_ID login org in
    let notFound := Content ("Error creating project: Owner '" +:+ owner +:+ "' not found") in
    let run := createProject (Some o) env in
    (exists rest, snd run = userLookup :: rest) /\
    (issued GET_ORG_ID (snd run) <-> exists e, user = Rejected e) /\
    (forall e, user = Rejected e -> exists rest, snd run = userLookup :: orgLookup :: rest) /\
    (forall d, user = Resolved d -> truthy_opt (Owner.id <$> Data.user d) = false ->
       run = (notFound, [userLookup])) /\
    (forall e d, user = Rejected e -> org = Resolved d ->
       truthy_opt (Owner.id <$> Data.organization d) = false ->
       run = (notFound, [userLookup; orgLookup])) /\
    (forall e e', user = Rejected e -> org = Rejected e' ->
       run = (Content ("Error creating project: " +:+ errorText e'), [userLookup; orgLookup])).
Proof.
  intros Hacc0. unfold accepts in Hacc0.
  destruct (parse CreateProjectSchema (Some o)) as [|a] eqn:Hparse; [discriminate|].
  clear Hacc0.
  assert (Hnd : List.NoDup (map fst CreateProjectSchema)) by keys_distinct.
  pose proof (parse_accepts _ _ _ Hnd Hparse) as Hacc.
  destruct (Hacc "owner" ZString) as [H1 P1]; [simpl; tauto|].
  apply parse_ZString in H1 as (owner & E1 & R1). rewrite R1 in P1.
  refine (ex_intro _ owner (conj E1 _)).
  intros login user userLookup org orgLookup notFound run.
  assert (Hrun : run =
    guarded "Error creating project: "
      (await ownerId :=
         (attempt
            (await userResult := graphqlClient GET_USER_ID login in
             ret (Owner.id <$> Data.user userResult))
          catch _e =>
            (await orgResult := graphqlClient GET_ORG_ID login in
             ret (Owner.id <$> Data.organization orgResult))) in
       if negb (truthy_opt ownerId) then
         throw (ErrorObj ("Owner '" +:+ owner +:+ "' not found"))
       else
         await result := graphqlClient CREATE_PROJECT
                           [("ownerId", Js (js_of_opt ownerId));
                            ("title", Js (prop a "title"));
                            ("description", Js (prop a "description"));
                            ("visibility", Js (prop a "visibility"))] in
         await project := read "projectV2" (Data.createProjectV2 result) in
         ret ("Project created successfully!" +:+ nl +:+ nl +:+
              "Title: " +:+ ProjectNode.title project +:+ nl +:+
              "ID: " +:+ ProjectNode.id project +:+ nl +:+
              "Number: #" +:+ show_num (ProjectNode.number project) +:+ nl +:+
              "Description: " +:+
                or_else (ProjectNode.shortDescription project) "No description" +:+ nl +:+
              "URL: " +:+ ProjectNode.url project)) env).
  { subst run. unfold createProject, parsing. rewrite Hparse, P1. reflexivity. }
  rewrite Hrun. clear Hrun.
  unfold guarded, bind, try_catch, graphqlClient, ret. cbn [app].
  fold user. fold userLookup.
  destruct user as [d|e] eqn:Huser.
  - (* the user lookup answered: no organization lookup *)
    destruct (truthy_opt (Owner.id <$> Data.user d)) eqn:Hid; cbn [negb].
    + destruct (graphql env [userLookup] CREATE_PROJECT _) as [r|e'];
        [unfold read; destruct (Data.createProjectV2 r)|]; cbn [fst snd throw];
        (split; [eexists; reflexivity|]);
        (split; [split; [intros (vars & out & [Hin | [Hin | []]]); discriminate
                        | intros [e0 He0]; discriminate]|]);
        (split; [intros e0 He0; discriminate|]);
        (split; [intros d0 [= <-] Hd0; congruence|]);
        (split; intros; discriminate).
    + cbn [fst snd throw].
      split; [eexists; reflexivity|].
      split; [split; [intros (vars & out & [Hin | []]); discriminate
                     | intros [e0 He0]; discriminate]|].
      split; [intros e0 He0; discriminate|].
      split; [intros d0 [= <-] Hd0; reflexivity|].
      split; intros; discriminate.
  - (* the user lookup threw: the organization lookup follows *)
    fold org. fold orgLookup.
    assert (Hissued : forall rest, issued GET_ORG_ID (userLookup :: orgLookup :: rest)).
    { intros rest. exists login, org. right. left. reflexivity. }
    destruct org as [d|e'] eqn:Horg.
    + destruct (truthy_opt (Owner.id <$> Data.organization d)) eqn:Hid; cbn [negb].
      * match goal with
        | |- context [graphql env ?l CREATE_PROJECT ?v] =>
            destruct (graphql env l CREATE_PROJECT v) as [r|e'']
        end;
          [unfold read; destruct (Data.createProjectV2 r)|]; cbn [fst snd throw app];
          (split; [eexists; reflexivity|]);
          (split; [split; [intros _; eexists; reflexivity | intros _; apply Hissued]|]);
          (split; [intros e0 _; eexists; reflexivity|]);
          (split; [intros d0 Hd0; discriminate|]);
          (split; [intros e0 d0 _ [= <-] Hd0; congruence | intros; discriminate]).
      * cbn [fst snd throw].
        split; [eexists; reflexivity|].
        split; [split; [intros _; eexists; reflexivity | intros _; apply (Hissued [])]|].
        split; [intros e0 _; eexists; reflexivity|].
        split; [intros d0 Hd0; discriminate|].
        split; [intros e0 d0 _ [= <-] Hd0; reflexivity | intros; discriminate].
    + cbn [fst snd throw].
      split; [eexists; reflexivity|].
      split; [split; [intros _; eexists; reflexivity | intros _; apply (Hissued [])]|].
      split; [intros e0 _; eexists; reflexivity|].
      split; [intros d0 Hd0; discriminate|].
      split; [intros; discriminate | intros e0 e1 _ [= <-]; reflexivity].
Qed.

Lemma C4_owner_resolution_witness :
  accepts CreateProjectSchema (obj [("title", VStr "Sprint Planning"); ("owner", VStr "ghost")])
    = true /\
  createProject (obj [("title", VStr "Sprint Planning"); ("owner", VStr "ghost")]) nobody =
  (Content "Error creating project: Owner 'ghost' not found",
   [Graphql GET_USER_ID [("login", Js (VStr "ghost"))]
      (Rejected (ErrorObj "Could not resolve to a User"));
    Graphql GET_ORG_ID [("login", Js (VStr "ghost"))] (Resolved Data.empty)]).
Proof.
  assert (H : accepts CreateProjectSchema
                (obj [("title", VStr "Sprint Planning"); ("owner", VStr "ghost")]) = true)
    by (vm_compute; reflexivity).
  split; [exact H|].
  destruct (C4_owner_resolution nobody
              (list_to_map [("title", VStr "Sprint Planning"); ("owner", VStr "ghost")]) H)
    as (owner & E & _ & _ & _ & _ & Horg & _).
  vm_compute in E. injection E as <-.
  exact (Horg (ErrorObj "Could not resolve to a User") Data.empty eq_refl eq_refl eq_refl).
Defined.

(** ** get-project-items *)

Lemma GetProjectItems_args (o : gmap string jsval) (projectId : string) (limit : jsval) :
  prop o "projectId" = VStr projectId ->
  prop o "limit" = limit ->
  (limit = VUndefined \/ exists n, limit = VNum n) ->
  exists a,
    parse GetProjectItemsSchema (Some o) = inr a /\
    prop a "projectId" = VStr projectId /\
    prop a "limit" = match limit with VUndefined => VNum 20 | _ => limit end.
Proof.
  intros E1 E2 Hlimit.
  assert (Hnd : List.NoDup (map fst GetProjectItemsSchema)) by keys_distinct.
  exists (snd (parse_shape GetProjectItemsSchema o)). split; [|split].
  - apply parse_clean. cbn [map concat GetProjectItemsSchema fst snd]. rewrite E1, E2.
    destruct Hlimit as [-> | [n ->]]; reflexivity.
  - rewrite (parse_shape_prop _ o "projectId" ZString Hnd); [|simpl; tauto].
    rewrite E1. reflexivity.
  - rewrite (parse_shape_prop _ o "limit" (ZDefault (ZOptional ZNumber) (VNum 20)) Hnd);
      [|simpl; tauto].
    rewrite E2. destruct Hlimit as [-> | [n ->]]; reflexivity.
Qed.

(** C8. get-project-items with limit 0 makes exactly one network call, the
    items query with [first] 0, and, the project being found with no more
    items in the answer than were asked for, returns the no-items message;
    with the limit omitted the query asks for 20 items. *)
Theorem C8_getProjectItems_limit (env : Env) (o : gmap string jsval) (projectId : string) :
  prop o "projectId" = VStr projectId ->
  (prop o "limit" = VNum 0 ->
     let vars := [("projectId", Js (VStr projectId)); ("first", Js (VNum 0))] in
     let out := graphql env [] GetProjectItems vars in
     snd (getProjectItems (Some o) env) = [Graphql GetProjectItems vars out] /\
     forall d project,
       out = Resolved d -> Data.node d = Some project ->
       (Z.of_nat (length (nodes (ProjectNode.items project))) <= 0)%Z ->
       fst (getProjectItems (Some o) env) =
         Content ("No items found in project " +:+ dq +:+ ProjectNode.title project +:+ dq +:+ ".")
       /\ String.prefix "No items found"
            ("No items found in project " +:+ dq +:+ ProjectNode.title project +:+ dq +:+ ".")
          = true) /\
  (prop o "limit" = VUndefined ->
     let vars := [("projectId", Js (VStr projectId)); ("first", Js (VNum 20))] in
     snd (getProjectItems (Some o) env) =
       [Graphql GetProjectItems vars (graphql env [] GetProjectItems vars)]).
Proof.
  intros E1. split.
  - intros E2 vars out.
    destruct (GetProjectItems_args o projectId (VNum 0) E1 E2) as (a & Hparse & P1 & P2);
      [right; eauto|].
    unfold getProjectItems, parsing. rewrite Hparse, P1, P2.
    unfold guarded, bind, graphqlClient. cbn [app]. fold vars. fold out. split.
    + destruct out as [d|e]; [|reflexivity].
      destruct (Data.node d) as [project|]; [|reflexivity].
      destruct (nodes (ProjectNode.items project)); reflexivity.
    + intros d project -> Hnode Hlen. rewrite Hnode.
      destruct (nodes (ProjectNode.items project)) as [|item items];
        [split; reflexivity | simpl in Hlen; lia].
  - intros E2 vars.
    destruct (GetProjectItems_args o projectId VUndefined E1 E2) as (a & Hparse & P1 & P2);
      [left; reflexivity|].
    unfold getProjectItems, parsing. rewrite Hparse, P1, P2.
    unfold guarded, bind, graphqlClient. cbn [app]. fold vars.
    destruct (graphql env [] GetProjectItems vars) as [d|e]; [|reflexivity].
    destruct (Data.node d) as [project|]; [|reflexivity].
    destruct (nodes (ProjectNode.items project)); reflexivity.
Qed.

Lemma C8_getProjectItems_limit_witness :
  prop (list_to_map [("projectId", VStr "P"); ("limit", VNum 0)]) "projectId" = VStr "P" /\
  getProjectItems (obj [("projectId", VStr "P"); ("limit", VNum 0)]) (hosting board) =
  (Content ("No items found in project " +:+ dq +:+ "Roadmap" +:+ dq +:+ "."),
   [Graphql GetProjectItems [("projectId", Js (VStr "P")); ("first", Js (VNum 0))]
      (graphql (hosting board) [] GetProjectItems
         [("projectId", Js (VStr "P")); ("first", Js (VNum 0))])]).
Proof.
  assert (H : prop (list_to_map [("projectId", VStr "P"); ("limit", VNum 0)]) "projectId"
              = VStr "P") by (vm_compute; reflexivity).
  split; [exact H|].
  destruct (C8_getProjectItems_limit (hosting board) _ "P" H) as [Hzero _].
  destruct Hzero as [Hlog Htext]; [vm_compute; reflexivity|].
  destruct (Htext (Data.ofNode (GetProjectItems_page 0 board)) _ eq_refl eq_refl)
    as [Hres _];
    [vm_compute; discriminate|].
  unfold obj. rewrite (surjective_pairing (getProjectItems _ _)), Hlog, Hres. reflexivity.
Defined.

(** ** update-project-item *)

Lemma UpdateProjectItem_args (o : gmap string jsval) :
  accepts UpdateProjectItemSchema (Some o) = true ->
  exists a projectId itemId fieldId value,
    parse UpdateProjectItemSchema (Some o) = inr a /\
    prop o "projectId" = VStr projectId /\ prop a "projectId" = VStr projectId /\
    prop o "itemId" = VStr itemId /\ prop a "itemId" = VStr itemId /\
    prop o "fieldId" = VStr fieldId /\ prop a "fieldId" = VStr fieldId /\
    prop o "value" = VStr value /\ prop a "value" = VStr value /\
    prop a "fieldType" = prop o "fieldType" /\
    (prop o "fieldType" = VUndefined \/
     exists t, prop o "fieldType" = VStr t /\ In t fieldTypes).
Proof.
  unfold accepts. destruct (parse UpdateProjectItemSchema (Some o)) as [|a] eqn:Hparse;
    [discriminate|]. intros _.
  assert (Hnd : List.NoDup (map fst UpdateProjectItemSchema)) by keys_distinct.
  pose proof (parse_accepts _ _ _ Hnd Hparse) as Hacc.
  destruct (Hacc "projectId" ZString) as [H1 P1]; [simpl; tauto|].
  destruct (Hacc "itemId" ZString) as [H2 P2]; [simpl; tauto|].
  destruct (Hacc "fieldId" ZString) as [H3 P3]; [simpl; tauto|].
  destruct (Hacc "value" ZString) as [H4 P4]; [simpl; tauto|].
  destruct (Hacc "fieldType" (ZOptional (ZEnum fieldTypes))) as [H5 P5]; [simpl; tauto|].
  apply parse_ZString in H1 as (projectId & E1 & R1).
  apply parse_ZString in H2 as (itemId & E2 & R2).
  apply parse_ZString in H3 as (fieldId & E3 & R3).
  apply parse_ZString in H4 as (value & E4 & R4).
  apply parse_optional_ZEnum in H5 as [R5 C5].
  exists a, projectId, itemId, fieldId, value. repeat split; (congruence || exact C5).
Qed.

Lemma formatValue_SINGLE_SELECT (projectId fieldId : jsval) (value : string) :
  formatValue (Some "SINGLE_SELECT") projectId fieldId value =
  selectOption projectId fieldId value.
Proof. reflexivity. Qed.

Lemma findField_designates (d : Data.t) (project : ProjectNode.t) (fieldId : string)
    (field : Field.t) :
  Data.node d = Some project ->
  (findField (Data.node d) fieldId = Some field <-> designates fieldId project field).
Proof.
  intros ->. unfold findField, designates. cbn [chain]. rewrite chain_find.
  apply find_first_match.
Qed.

(** The option lookup of the [SINGLE_SELECT] case, run after the calls [h]. *)
Lemma selectOption_run (env : Env) (h : list Event) (projectId fieldId value : string)
    (d : Data.t) (project : ProjectNode.t) (field : Field.t)
    (options : list SelectOption.t) :
  graphql env h GET_PROJECT_DETAILS [("projectId", Js (VStr projectId))] = Resolved d ->
  Data.node d = Some project ->
  designates fieldId project field ->
  Field.options field = Some options ->
  selectOption (VStr projectId) (VStr fieldId) value env h =
  (match findOption (Some options) value with
   | Some option => Resolved (singleSelectOptionId (SelectOption.id option))
   | None =>
       Rejected (ErrorObj ("Failed to find single select option: Option '" +:+ value +:+
                           "' not found for field. Available options: " +:+
                           join ", " (map SelectOption.name options)))
   end,
   h ++ [Graphql GET_PROJECT_DETAILS [("projectId", Js (VStr projectId))] (Resolved d)]).
Proof.
  intros Hfetch Hnode Hfield Hoptions.
  apply (findField_designates d project fieldId field Hnode) in Hfield.
  unfold selectOption, try_catch, bind, graphqlClient. rewrite Hfetch. cbn [str_of].
  rewrite Hfield. cbn [chain]. rewrite Hoptions.
  destruct (findOption (Some options) value); reflexivity.
Qed.

Lemma finishUpdate_log (env : Env) (a : gmap string jsval) (ty : option string)
    (fv : formattedValue) (log : list Event) :
  exists out,
    snd (finishUpdate a ty fv env log) =
      log ++ [Graphql UPDATE_PROJECT_ITEM_FIELD
                [("projectId", Js (prop a "projectId")); ("itemId", Js (prop a "itemId"));
                 ("fieldId", Js (prop a "fieldId")); ("value", Formatted fv)] out].
Proof.
  unfold finishUpdate, bind, graphqlClient.
  destruct (graphql env log UPDATE_PROJECT_ITEM_FIELD _) as [r|e] eqn:Hout.
  - exists (Resolved r). unfold read. destruct (Data.updateProjectV2ItemFieldValue r); reflexivity.
  - exists (Rejected e). reflexivity.
Qed.

(** C2, as stated, fails: the twenty-first field of the project is a
    single-select field with an option named exactly as the value, yet the
    lookup does not see the field.  Declared SINGLE_SELECT, the call fails
    with a text that lists no option name; with the type left to detection,
    the value is sent as text and no option id at all. *)
Lemma C2_counterexample_field_beyond_first_page :
  designates "F21" wideBoard (mkField "F21" "Status" "SINGLE_SELECT" (Some statusOptions)) /\
  In (mkOption "O3" "Done") statusOptions /\
  updateProjectItem
    (obj [("projectId", VStr "P"); ("itemId", VStr "I"); ("fieldId", VStr "F21");
          ("value", VStr "Done"); ("fieldType", VStr "SINGLE_SELECT")])
    (hosting wideBoard) =
  (Content ("Error updating project item: Failed to find single select option: " +:+
            "Option 'Done' not found for field. Available options: undefined"),
   [Graphql GET_PROJECT_DETAILS [("projectId", Js (VStr "P"))]
      (Resolved (Data.ofNode (GET_PROJECT_DETAILS_page wideBoard)))]) /\
  updateProjectItem
    (obj [("projectId", VStr "P"); ("itemId", VStr "I"); ("fieldId", VStr "F21");
          ("value", VStr "Done")])
    (hosting wideBoard) =
  (Content ("Project item field updated successfully!" +:+ nl +:+ nl +:+
            "Item ID: ITEM" +:+ nl +:+
            "Field Type: undefined" +:+ nl +:+
            "New Value: Done"),
   [Graphql GET_PROJECT_DETAILS [("projectId", Js (VStr "P"))]
      (Resolved (Data.ofNode (GET_PROJECT_DETAILS_page wideBoard)));
    Graphql UPDATE_PROJECT_ITEM_FIELD
      [("projectId", Js (VStr "P")); ("itemId", Js (VStr "I")); ("fieldId", Js (VStr "F21"));
       ("value", Formatted (text "Done"))]
      (Resolved (Data.ofUpdatedItem "ITEM"))]).
Proof.
  split; [|split; [|split]].
  - exists (repeat (mkField "N" "Notes" "TEXT" None) 20), [].
    split; [reflexivity|]. split; [|vm_compute; reflexivity].
    apply List.Forall_forall. intros f Hf. apply repeat_spec in Hf. subst f.
    vm_compute. reflexivity.
  - right. right. left. reflexivity.
  - vm_compute. reflexivity.
  - vm_compute. reflexivity.
Qed.

(** C2, amended. When the option lookup's own fetch returns the field (the
    first node with the given id) together with its options, and the value
    and the option names are ASCII, update-project-item on a single-select
    field matches the value against the option names with letter case
    ignored.  Every update mutation of the call carries the id of such a
    matching option, and is issued when one exists; when no option matches,
    the call fails with a text that lists every option name of the field,
    and no update mutation is issued. *)
Theorem C2_single_select_option
    (env : Env) (o : gmap string jsval) (h : list Event)
    (d : Data.t) (project : ProjectNode.t) (field : Field.t) (options : list SelectOption.t) :
  accepts UpdateProjectItemSchema (Some o) = true ->
  onSingleSelect env o h ->
  graphql env h GET_PROJECT_DETAILS [("projectId", Js (prop o "projectId"))] = Resolved d ->
  Data.node d = Some project ->
  designates (str_of (prop o "fieldId")) project field ->
  Field.options field = Some options ->
  ascii_only (str_of (prop o "value")) = true ->
  Forall (fun option => ascii_only (SelectOption.name option) = true) options ->
  let value := str_of (prop o "value") in
  let run := updateProjectItem (Some o) env in
  (forall vars out, In (Graphql UPDATE_PROJECT_ITEM_FIELD vars out) (snd run) ->
     exists option,
       In option options /\
       same_ignoring_case (SelectOption.name option) value /\
       variable_of "value" vars = Some (Formatted (singleSelectOptionId (SelectOption.id option))))
  /\
  ((exists option, In option options /\ same_ignoring_case (SelectOption.name option) value) ->
     issued UPDATE_PROJECT_ITEM_FIELD (snd run))
  /\
  ((forall option, In option options -> ~ same_ignoring_case (SelectOption.name option) value) ->
     fst run =
       Content ("Error updating project item: Failed to find single select option: Option '" +:+
                value +:+ "' not found for field. Available options: " +:+
                join ", " (map SelectOption.name options)) /\
     ~ issued UPDATE_PROJECT_ITEM_FIELD (snd run)).
Proof.
  intros Hacc Hon Hfetch Hnode Hfield Hoptions _ _ value run.
  destruct (UpdateProjectItem_args o Hacc)
    as (a & projectId & itemId & fieldId & v & Hparse & E1 & P1 & E2 & P2 & E3 & P3
        & E4 & P4 & P5 & _).
  assert (Hrun : run =
            guarded "Error updating project item: "
              (await fv := (fun env _ => selectOption (VStr projectId) (VStr fieldId) v env h) in
               finishUpdate a (Some "SINGLE_SELECT") fv) env).
  { subst run. unfold updateProjectItem, parsing. rewrite Hparse.
    match goal with
    | |- _ = ?rhs =>
        change (guarded "Error updating project item: "
                  (await ty := detectFieldType (prop a "projectId") (prop a "fieldId")
                                 (prop a "fieldType") in
                   await fv := formatValue ty (prop a "projectId") (prop a "fieldId")
                                 (str_of (prop a "value")) in
                   finishUpdate a ty fv) env = rhs)
    end.
    rewrite P1, P3, P4, P5. cbn [str_of]. unfold guarded. f_equal.
    unfold onSingleSelect in Hon. destruct Hon as [[Hty ->] | [Hty Hdet]].
    - rewrite Hty. reflexivity.
    - destruct Hdet as (d0 & project0 & field0 & Hfetch0 & -> & Hnode0 & Hfield0 & Hdt).
      rewrite Hty. unfold detectFieldType. cbn [truthy negb].
      rewrite E1 in *. unfold try_catch, bind, graphqlClient. rewrite Hfetch0.
      rewrite E3 in Hfield0. cbn [str_of] in *.
      apply (findField_designates d0 project0 fieldId field0 Hnode0) in Hfield0.
      rewrite Hfield0. cbn [chain ret app]. rewrite Hdt.
      reflexivity. }
  subst value. rewrite E1, E3, E4 in *. cbn [str_of] in *.
  rewrite Hrun. clear Hrun. unfold guarded, bind.
  rewrite (selectOption_run env h projectId fieldId v d project field options
             Hfetch Hnode Hfield Hoptions).
  set (fetched := h ++ [Graphql GET_PROJECT_DETAILS [("projectId", Js (VStr projectId))]
                          (Resolved d)]).
  assert (Hquiet : ~ issued UPDATE_PROJECT_ITEM_FIELD fetched).
  { subst fetched. intros (vars & out & Hin). apply in_app_or in Hin as [Hin | [Hin | []]];
      [|discriminate].
    unfold onSingleSelect in Hon. destruct Hon as [[_ ->] | [_ (d0 & p0 & f0 & _ & -> & _)]].
    - contradiction.
    - destruct Hin as [Hin | []]. discriminate. }
  destruct (findOption (Some options) v) as [option|] eqn:Hfind.
  - apply findOption_spec in Hfind as [Hin Hsame]. cbn [nodes default] in Hin.
    destruct (finishUpdate_log env a (Some "SINGLE_SELECT")
                (singleSelectOptionId (SelectOption.id option)) fetched) as [out Hlog].
    destruct (finishUpdate a (Some "SINGLE_SELECT") _ env fetched) as [[t|e] log] eqn:Hfin;
      cbn [fst snd] in *; subst log.
    all: split;
      [ intros vars out' Hin'; apply in_app_or in Hin' as [Hin' | [Hin' | []]];
        [ exfalso; apply Hquiet; exists vars, out'; exact Hin'
        | injection Hin' as <- <-; exists option; repeat split; assumption ]
      | split;
        [ intros _; eexists; exists out; apply in_or_app; right; left; reflexivity
        | intros Hnone; exfalso; exact (Hnone option Hin Hsame) ] ].
  - cbn [fst snd errorText]. split; [|split].
    + intros vars out Hin. exfalso. apply Hquiet. exists vars, out. exact Hin.
    + intros (option & Hin & Hsame). exfalso.
      unfold findOption, chain in Hfind. apply find_none_all in Hfind.
      rewrite List.Forall_forall in Hfind. specialize (Hfind option Hin).
      apply String.eqb_neq in Hfind. exact (Hfind Hsame).
    + intros _. split; [reflexivity | exact Hquiet].
Qed.

Lemma C2_single_select_option_witness :
  accepts UpdateProjectItemSchema
    (obj [("projectId", VStr "P"); ("itemId", VStr "I"); ("fieldId", VStr "F2");
          ("value", VStr "in progress"); ("fieldType", VStr "SINGLE_SELECT")]) = true /\
  issued UPDATE_PROJECT_ITEM_FIELD
    (snd (updateProjectItem
            (obj [("projectId", VStr "P"); ("itemId", VStr "I"); ("fieldId", VStr "F2");
                  ("value", VStr "in progress"); ("fieldType", VStr "SINGLE_SELECT")])
            (hosting board))).
Proof.
  assert (H : accepts UpdateProjectItemSchema
                (obj [("projectId", VStr "P"); ("itemId", VStr "I"); ("fieldId", VStr "F2");
                      ("value", VStr "in progress"); ("fieldType", VStr "SINGLE_SELECT")])
              = true) by (vm_compute; reflexivity).
  split; [exact H|].
  assert (F : designates "F2" (GET_PROJECT_DETAILS_page board)
                (mkField "F2" "Status" "SINGLE_SELECT" (Some statusOptions))).
  { exists [mkField "F1" "Title" "TITLE" None], [mkField "F3" "Estate" "TEXT" None].
    split; [reflexivity|]. split; [|vm_compute; reflexivity]. repeat constructor. }
  destruct (C2_single_select_option (hosting board)
              (list_to_map [("projectId", VStr "P"); ("itemId", VStr "I"); ("fieldId", VStr "F2");
                            ("value", VStr "in progress"); ("fieldType", VStr "SINGLE_SELECT")])
              [] (Data.ofNode (GET_PROJECT_DETAILS_page board)) (GET_PROJECT_DETAILS_page board)
              (mkField "F2" "Status" "SINGLE_SELECT" (Some statusOptions)) statusOptions H)
    as (_ & Hissued & _).
  - left. split; [vm_compute; reflexivity | reflexivity].
  - reflexivity.
  - reflexivity.
  - exact F.
  - reflexivity.
  - vm_compute. reflexivity.
  - repeat constructor.
  - apply Hissued. exists (mkOption "O2" "In Progress").
    split; [right; left; reflexivity | vm_compute; reflexivity].
Defined.

(** C6 fails on the code: with no field type given and a fetch that
    succeeds without a field of the given id, the value is formatted as
    text, but the success text reports the field type as "undefined". *)
Theorem C6_undetected_type_reported_undefined :
  updateProjectItem
    (obj [("projectId", VStr "P"); ("itemId", VStr "I"); ("fieldId", VStr "F9");
          ("value", VStr "hello")])
    (hosting board) =
  (Content ("Project item field updated successfully!" +:+ nl +:+ nl +:+
            "Item ID: ITEM" +:+ nl +:+
            "Field Type: undefined" +:+ nl +:+
            "New Value: hello"),
   [Graphql GET_PROJECT_DETAILS [("projectId", Js (VStr "P"))]
      (Resolved (Data.ofNode (GET_PROJECT_DETAILS_page board)));
    Graphql UPDATE_PROJECT_ITEM_FIELD
      [("projectId", Js (VStr "P")); ("itemId", Js (VStr "I")); ("fieldId", Js (VStr "F9"));
       ("value", Formatted (text "hello"))]
      (Resolved (Data.ofUpdatedItem "ITEM"))]).
Proof. vm_compute. reflexivity. Qed.

(** When the detection fetch throws, the type used and reported is TEXT. *)
Lemma detectFieldType_throw (env : Env) (projectId fieldId : jsval) (e : Thrown) :
  graphql env [] GET_PROJECT_DETAILS [("projectId", Js projectId)] = Rejected e ->
  fst (detectFieldType projectId fieldId VUndefined env []) = Resolved (Some "TEXT").
Proof.
  intros H. unfold detectFieldType. cbn [truthy negb].
  unfold try_catch, bind, graphqlClient. rewrite H. reflexivity.
Qed.

(** ** Validation at the dispatcher *)

Lemma parse_elements_path (f : list string -> jsval -> list ZodIssue * jsval)
    (p : list string) (i : nat) (l : list jsval) :
  (forall q v e, In e (fst (f q v)) -> exists rest, path e = q ++ rest) ->
  forall e, In e (fst (parse_elements f p i l)) -> exists rest, path e = p ++ rest.
Proof.
  intros Hf. revert i. induction l as [|x l IH]; intros i e; simpl; [contradiction|].
  destruct (f (p ++ [pretty i]) x) as [is1 v] eqn:Hx.
  destruct (parse_elements f p (S i) l) as [is2 vs] eqn:Hl. simpl.
  intros Hin. apply in_app_or in Hin as [Hin | Hin].
  - destruct (Hf (p ++ [pretty i]) x e) as [rest Hrest]; [rewrite Hx; exact Hin|].
    exists ([pretty i] ++ rest). rewrite Hrest. now rewrite <- app_assoc.
  - apply (IH (S i)). rewrite Hl. exact Hin.
Qed.

Ltac single_issue H :=
  destruct H as [<- | []]; exists []; simpl; now rewrite app_nil_r.

(** Every issue of a field is filed under that field's path. *)
Lemma parse_path (t : ZodType) (p : list string) (v : jsval) (e : ZodIssue) :
  In e (fst (_parse t p v)) -> exists rest, path e = p ++ rest.
Proof.
  revert p v e. induction t as [| |values|element IH|inner IH|inner IH dflt]; intros p v e.
  - destruct v; simpl; intros Hin; try contradiction; single_issue Hin.
  - destruct v; simpl; intros Hin; try contradiction; single_issue Hin.
  - destruct v; simpl; try (intros Hin; single_issue Hin).
    destruct (mem_str s values); simpl; intros Hin; [contradiction | single_issue Hin].
  - destruct v; simpl; try (intros Hin; single_issue Hin).
    destruct (parse_elements (_parse element) p 0 l) as [iss vs] eqn:Hl. simpl.
    intros Hin. apply (parse_elements_path (_parse element) p 0 l IH e). now rewrite Hl.
  - destruct v; simpl; try apply IH. contradiction.
  - destruct v; simpl; apply IH.
Qed.

Lemma route_validates (name : string) (shape : Shape) (args : option (gmap string jsval)) :
  schemaOf name = Some shape ->
  exists k, route name args = parsing shape args k.
Proof.
  unfold schemaOf, route.
  destruct (String.eqb name "get-project") eqn:E1.
  { apply String.eqb_eq in E1 as ->. intros [= <-]. eexists. reflexivity. }
  destruct (String.eqb name "create-project") eqn:E2.
  { apply String.eqb_eq in E2 as ->. intros [= <-]. eexists. reflexivity. }
  destruct (String.eqb name "update-project") eqn:E3.
  { apply String.eqb_eq in E3 as ->. intros [= <-]. eexists. reflexivity. }
  destruct (String.eqb name "create-issue") eqn:E4.
  { apply String.eqb_eq in E4 as ->. intros [= <-]. eexists. reflexivity. }
  destruct (String.eqb name "add-item-to-project") eqn:E5.
  { apply String.eqb_eq in E5 as ->. intros [= <-]. eexists. reflexivity. }
  destruct (String.eqb name "update-project-item") eqn:E6.
  { apply String.eqb_eq in E6 as ->. intros [= <-]. eexists. reflexivity. }
  destruct (String.eqb name "create-project-field") eqn:E7.
  { apply String.eqb_eq in E7 as ->. intros [= <-]. eexists. reflexivity. }
  destruct (String.eqb name "update-item-status") eqn:E8.
  { apply String.eqb_eq in E8 as ->. intros [= <-]. eexists. reflexivity. }
  destruct (String.eqb name "get-project-fields") eqn:E9.
  { apply String.eqb_eq in E9 as ->. intros [= <-]. eexists. reflexivity. }
  destruct (String.eqb name "get-project-items") eqn:E10.
  { apply String.eqb_eq in E10 as ->. intros [= <-]. eexists. reflexivity. }
  discriminate.
Qed.

(** The ten tools that parse their arguments reject an object with a
    violated field before any network call, with an invalid-params fault
    whose message joins the issue messages of all fields in shape order;
    every violated field has an issue filed under its name. *)
Theorem validated_tools_reject (name : string) (shape : Shape)
    (o : gmap string jsval) (env : Env) :
  schemaOf name = Some shape ->
  existsb (violated o) shape = true ->
  exists errors,
    callTool name (Some o) env =
      (Raise (McpError InvalidParams
                ("Invalid arguments: " +:+ join ", " (map message errors))), []) /\
    errors = concat (map (fun kt => fst (_parse (snd kt) [fst kt] (prop o (fst kt)))) shape) /\
    forall kt, In kt shape -> violated o kt = true ->
      exists e rest, In e errors /\ path e = fst kt :: rest.
Proof.
  intros Hschema Hviolated.
  destruct (route_validates name shape (Some o) Hschema) as [k Hroute].
  set (errors := concat (map (fun kt => fst (_parse (snd kt) [fst kt] (prop o (fst kt)))) shape)).
  assert (Hfiled : forall kt, In kt shape -> violated o kt = true ->
            exists e rest, In e errors /\ path e = fst kt :: rest).
  { intros kt Hin Hv. unfold violated in Hv.
    destruct (fst (_parse (snd kt) [fst kt] (prop o (fst kt)))) as [|e es] eqn:Hes;
      [discriminate|].
    destruct (parse_path (snd kt) [fst kt] (prop o (fst kt)) e) as [rest Hrest];
      [rewrite Hes; left; reflexivity|].
    exists e, rest. split; [|exact Hrest].
    subst errors. apply in_concat. exists (e :: es). split; [|left; reflexivity].
    apply in_map_iff. exists kt. split; [exact Hes | exact Hin]. }
  assert (Hparse : parse shape (Some o) = inl errors).
  { unfold parse. pose proof (parse_shape_issues shape o) as His. fold errors in His.
    destruct (parse_shape shape o) as [iss out]. simpl in His. subst iss.
    apply existsb_exists in Hviolated as (kt & Hin & Hv).
    destruct (Hfiled kt Hin Hv) as (e & _ & He & _).
    destruct errors; [contradiction | reflexivity]. }
  exists errors. split; [|split; [reflexivity | exact Hfiled]].
  unfold callTool. rewrite Hroute. unfold parsing. rewrite Hparse. reflexivity.
Qed.

(** list-projects never rejects an argument object: whatever it holds, one
    query goes out and a text result comes back. *)
Lemma listProjects_never_rejects (env : Env) (o : gmap string jsval) :
  exists text q out,
    callTool "list-projects" (Some o) env =
    (Content text, [Graphql q [("login", Js (prop o "owner"))] out]).
Proof.
  unfold callTool, route. cbn [String.eqb Ascii.eqb Bool.eqb].
  unfold listProjects, guarded, bind, graphqlClient. cbn [app].
  destruct (graphql env [] _ [("login", Js (prop o "owner"))]) as [d|e] eqn:Hout;
    eexists; eexists; eexists; cbn [fst snd]; rewrite <- Hout; reflexivity.
Qed.

(** C1 fails on the code for list-projects: the handler parses nothing, so
    a call without [owner] and with a [type] outside the declared enum
    reaches the network (the user query, with an undefined login) and
    comes back as an ordinary text result, not as a fault. *)
Theorem C1_listProjects_not_validated (env : Env) :
  exists text out,
    callTool "list-projects" (obj [("type", VStr "team")]) env =
    (Content text, [Graphql GET_USER_PROJECTS [("login", Js VUndefined)] out]).
Proof.
  unfold callTool, route. cbn [String.eqb Ascii.eqb Bool.eqb].
  unfold listProjects, obj.
  replace (prop (list_to_map [("type", VStr "team")]) "owner") with VUndefined
    by (vm_compute; reflexivity).
  replace (prop (list_to_map [("type", VStr "team")]) "type") with (VStr "team")
    by (vm_compute; reflexivity).
  unfold guarded, bind, graphqlClient. cbn [is_str String.eqb Ascii.eqb Bool.eqb app].
  destruct (graphql env [] GET_USER_PROJECTS [("login", Js VUndefined)]) as [d|e];
    eexists; eexists; reflexivity.
Qed.

(** * Further properties of the handlers *)

(** ** The dispatcher *)

(** Every validating tool has the same frame: parse, then a guarded body. *)
Lemma route_guarded (name : string) (shape : Shape) :
  schemaOf name = Some shape ->
  exists prefix body,
    forall args, route name args = parsing shape args (fun a => guarded prefix (body a)).
Proof.
  unfold schemaOf, route.
  destruct (String.eqb name "get-project") eqn:E1.
  { apply String.eqb_eq in E1 as ->. intros [= <-]. eexists. eexists. intros. reflexivity. }
  destruct (String.eqb name "create-project") eqn:E2.
  { apply String.eqb_eq in E2 as ->. intros [= <-]. eexists. eexists. intros. reflexivity. }
  destruct (String.eqb name "update-project") eqn:E3.
  { apply String.eqb_eq in E3 as ->. intros [= <-]. eexists. eexists. intros. reflexivity. }
  destruct (String.eqb name "create-issue") eqn:E4.
  { apply String.eqb_eq in E4 as ->. intros [= <-]. eexists. eexists. intros. reflexivity. }
  destruct (String.eqb name "add-item-to-project") eqn:E5.
  { apply String.eqb_eq in E5 as ->. intros [= <-]. eexists. eexists. intros. reflexivity. }
  destruct (String.eqb name "update-project-item") eqn:E6.
  { apply String.eqb_eq in E6 as ->. intros [= <-]. eexists. eexists. intros. reflexivity. }
  destruct (String.eqb name "create-project-field") eqn:E7.
  { apply String.eqb_eq in E7 as ->. intros [= <-]. eexists. eexists. intros. reflexivity. }
  destruct (String.eqb name "update-item-status") eqn:E8.
  { apply String.eqb_eq in E8 as ->. intros [= <-]. eexists. eexists. intros. reflexivity. }
  destruct (String.eqb name "get-project-fields") eqn:E9.
  { apply String.eqb_eq in E9 as ->. intros [= <-]. eexists. eexists. intros. reflexivity. }
  destruct (String.eqb name "get-project-items") eqn:E10.
  { apply String.eqb_eq in E10 as ->. intros [= <-]. eexists. eexists. intros. reflexivity. }
  discriminate.
Qed.

Lemma guarded_content (prefix : string) (body : Promise string) (env : Env) :
  exists text, fst (guarded prefix body env) = Content text.
Proof.
  unfold guarded. destruct (body env []) as [[t|e] log]; eexists; reflexivity.
Qed.

Lemma callTool_log (name : string) (args : option (gmap string jsval)) (env : Env) :
  snd (callTool name args env) = snd (route name args env).
Proof.
  unfold callTool. destruct (route name args env) as [[t|[errors|code message|e]] log];
    reflexivity.
Qed.

(** A [ZodError] of a validating tool surfaces as the invalid-params fault. *)
Lemma callTool_rejects (name : string) (shape : Shape) (args : option (gmap string jsval))
    (errors : list ZodIssue) (env : Env) :
  schemaOf name = Some shape ->
  parse shape args = inl errors ->
  callTool name args env =
    (Raise (McpError InvalidParams ("Invalid arguments: " +:+ join ", " (map message errors))),
     []).
Proof.
  intros Hschema Hparse. destruct (route_guarded name shape Hschema) as (prefix & body & Hroute).
  unfold callTool. rewrite Hroute. unfold parsing. rewrite Hparse. reflexivity.
Qed.

Lemma toolNames_cases (name : string) :
  In name toolNames ->
  name = "list-projects" \/ exists shape, schemaOf name = Some shape.
Proof.
  intros H. cbv [toolNames tools map Tool.name] in H. simpl in H.
  destruct H as [<- | [<- | [<- | [<- | [<- | [<- | [<- | [<- | [<- | [<- | [<- | []]]]]]]]]]]];
    [left; reflexivity | right; eexists; reflexivity ..].
Qed.

(** The dispatcher and the advertised list agree on names: a name outside
    the list gets the method-not-found fault with no network call, and a
    listed name never gets that fault. *)
Theorem unknown_tool_is_method_not_found
    (name : string) (args : option (gmap string jsval)) (env : Env) :
  (~ In name toolNames ->
   callTool name args env =
     (Raise (McpError MethodNotFound ("Unknown tool: " +:+ name)), [])) /\
  (In name toolNames ->
   forall message, fst (callTool name args env) <> Raise (McpError MethodNotFound message)).
Proof.
  split.
  - intros Hnot.
    assert (Hne : forall n, In n toolNames -> String.eqb name n = false).
    { intros n Hn. apply String.eqb_neq. intros ->. exact (Hnot Hn). }
    unfold callTool, route.
    rewrite !Hne by (cbv [toolNames tools map Tool.name]; simpl; tauto).
    reflexivity.
  - intros Hin message. apply toolNames_cases in Hin as [-> | [shape Hschema]].
    + destruct args as [o|].
      * destruct (listProjects_never_rejects env o) as (text & q & out & H).
        rewrite H. discriminate.
      * discriminate.
    + destruct (parse shape args) as [errors|a] eqn:Hparse.
      * rewrite (callTool_rejects name shape args errors env Hschema Hparse). discriminate.
      * destruct (route_guarded name shape Hschema) as (prefix & body & Hroute).
        unfold callTool. rewrite Hroute. unfold parsing. rewrite Hparse.
        destruct (guarded_content prefix (body a) env) as [text Htext].
        destruct (guarded prefix (body a) env) as [r log]. simpl in Htext. subst r.
        discriminate.
Qed.

Lemma unknown_tool_is_method_not_found_witness :
  ~ In "delete-project" toolNames /\
  callTool "delete-project" (obj [("projectId", VStr "P")]) (hosting board) =
  (Raise (McpError MethodNotFound "Unknown tool: delete-project"), []).
Proof.
  assert (H : ~ In "delete-project" toolNames).
  { cbv [toolNames tools map Tool.name]. simpl.
    intros [H | [H | [H | [H | [H | [H | [H | [H | [H | [H | [H | []]]]]]]]]]]]; discriminate. }
  split; [exact H|].
  exact (proj1 (unknown_tool_is_method_not_found "delete-project" _ (hosting board)) H).
Defined.

(** A call whose arguments pass the tool's schema never faults: whatever
    the network does, the caller gets a text result.  list-projects, which
    has no schema, returns text for every argument object. *)
Theorem accepted_call_returns_text (name : string) (o : gmap string jsval) (env : Env) :
  In name toolNames ->
  (forall shape, schemaOf name = Some shape -> accepts shape (Some o) = true) ->
  exists text, fst (callTool name (Some o) env) = Content text.
Proof.
  intros Hin Hacc. apply toolNames_cases in Hin as [-> | [shape Hschema]].
  - destruct (listProjects_never_rejects env o) as (text & q & out & H).
    exists text. now rewrite H.
  - specialize (Hacc shape Hschema). unfold accepts in Hacc.
    destruct (parse shape (Some o)) as [errors|a] eqn:Hparse; [discriminate|].
    destruct (route_guarded name shape Hschema) as (prefix & body & Hroute).
    unfold callTool. rewrite Hroute. unfold parsing. rewrite Hparse.
    destruct (guarded_content prefix (body a) env) as [text Htext].
    exists text. destruct (guarded prefix (body a) env) as [r log]. simpl in *. now subst r.
Qed.

Lemma accepted_call_returns_text_witness :
  In "create-issue" toolNames /\
  exists text,
    fst (callTool "create-issue"
           (obj [("owner", VStr "acme"); ("repo", VStr "app"); ("title", VStr "Fix login")])
           rateLimited) = Content text.
Proof.
  assert (H : In "create-issue" toolNames).
  { cbv [toolNames tools map Tool.name]. simpl. tauto. }
  split; [exact H|].
  apply (accepted_call_returns_text "create-issue" _ rateLimited H).
  intros shape [= <-]. vm_compute. reflexivity.
Defined.

(** With no argument object at all, a validating tool answers with the
    invalid-params fault "Invalid arguments: Required", while list-projects
    lets the destructuring [TypeError] escape unconverted; neither reaches
    the network. *)
Theorem missing_argument_object (name : string) (shape : Shape) (env : Env) :
  schemaOf name = Some shape ->
  callTool name None env =
    (Raise (McpError InvalidParams "Invalid arguments: Required"), []) /\
  callTool "list-projects" None env =
    (Raise (Uncaught (ErrorObj
       "Cannot destructure property 'owner' of 'args' as it is undefined.")), []).
Proof.
  intros Hschema. split; [|reflexivity].
  exact (callTool_rejects name shape None _ env Hschema eq_refl).
Qed.

Lemma missing_argument_object_witness :
  schemaOf "get-project" = Some GetProjectSchema /\
  callTool "get-project" None nobody =
    (Raise (McpError InvalidParams "Invalid arguments: Required"), []).
Proof.
  split; [reflexivity|].
  exact (proj1 (missing_argument_object "get-project" GetProjectSchema nobody eq_refl)).
Defined.

(** ** What the schemas look at *)

Lemma parse_shape_ignores (shape : Shape) (o : gmap string jsval) (k : string) (v : jsval) :
  ~ In k (map fst shape) -> parse_shape shape (<[k := v]> o) = parse_shape shape o.
Proof.
  induction shape as [|[k0 t0] shape IH]; simpl; intros Hk; [reflexivity|].
  rewrite IH by (intros H; apply Hk; right; exact H).
  rewrite prop_insert_ne by (intros ->; apply Hk; left; reflexivity). reflexivity.
Qed.

(** An argument the tool's schema does not name changes nothing: the call
    behaves exactly as without it. *)
Theorem extra_arguments_are_ignored
    (name : string) (shape : Shape) (k : string) (v : jsval)
    (o : gmap string jsval) (env : Env) :
  schemaOf name = Some shape ->
  ~ In k (map fst shape) ->
  callTool name (Some (<[k := v]> o)) env = callTool name (Some o) env.
Proof.
  intros Hschema Hk. destruct (route_guarded name shape Hschema) as (prefix & body & Hroute).
  unfold callTool. rewrite !Hroute. unfold parsing, parse.
  rewrite (parse_shape_ignores shape o k v Hk). reflexivity.
Qed.

Lemma extra_arguments_are_ignored_witness :
  schemaOf "get-project-items" = Some GetProjectItemsSchema /\
  callTool "get-project-items"
    (Some (<["cursor" := VStr "abc"]> (list_to_map [("projectId", VStr "P")]))) (hosting board) =
  callTool "get-project-items" (obj [("projectId", VStr "P")]) (hosting board).
Proof.
  split; [reflexivity|].
  apply (extra_arguments_are_ignored "get-project-items" GetProjectItemsSchema); [reflexivity|].
  simpl. intros [H | [H | []]]; discriminate.
Defined.

Lemma parse_elements_clean (element : ZodType) (p : list string) (i : nat) (l : list jsval) :
  (forall q v, fst (_parse element q v) = [] <-> fst (_parse element [] v) = []) ->
  fst (parse_elements (_parse element) p i l) = [] <->
  Forall (fun v => fst (_parse element [] v) = []) l.
Proof.
  intros Hel. revert i. induction l as [|x l IH]; intros i; simpl.
  - split; [constructor | reflexivity].
  - destruct (_parse element (p ++ [pretty i]) x) as [is1 v] eqn:Hx.
    destruct (parse_elements (_parse element) p (S i) l) as [is2 vs] eqn:Hl. simpl.
    specialize (IH (S i)). rewrite Hl in IH. simpl in IH.
    specialize (Hel (p ++ [pretty i]) x). rewrite Hx in Hel. simpl in Hel.
    split.
    + intros H. apply app_eq_nil in H as [H1 H2]. constructor; [now apply Hel | now apply IH].
    + intros H. inversion H as [|? ? Hx' Hl']; subst.
      apply Hel in Hx'. apply IH in Hl'. now rewrite Hx', Hl'.
Qed.

(** Whether a value passes a type does not depend on where it sits. *)
Lemma parse_clean_anywhere (t : ZodType) (p : list string) (v : jsval) :
  fst (_parse t p v) = [] <-> fst (_parse t [] v) = [].
Proof.
  revert p v. induction t as [| |values|element IH|inner IH|inner IH dflt]; intros p v.
  - destruct v; simpl; split; (reflexivity || discriminate).
  - destruct v; simpl; split; (reflexivity || discriminate).
  - destruct v; simpl; try (split; discriminate).
    destruct (mem_str s values); simpl; split; (reflexivity || discriminate).
  - destruct v; simpl; try (split; discriminate).
    pose proof (parse_elements_clean element p 0 l IH) as Hp.
    pose proof (parse_elements_clean element [] 0 l IH) as H0.
    destruct (parse_elements (_parse element) p 0 l) as [is1 vs1].
    destruct (parse_elements (_parse element) [] 0 l) as [is2 vs2]. simpl in *.
    rewrite Hp, H0. reflexivity.
  - destruct v; simpl; try apply IH. split; reflexivity.
  - destruct v; simpl; apply IH.
Qed.

Lemma demands_rejects_missing (t : ZodType) (p : list string) :
  demands t = true -> fst (_parse t p VUndefined) <> [].
Proof.
  unfold demands. intros H Hclean. apply parse_clean_anywhere in Hclean.
  rewrite Hclean in H. discriminate.
Qed.

(** For each validating tool the advertised schema and the parser agree:
    they name the same arguments, the arguments advertised as required are
    exactly those the parser demands, and a call that leaves one of them
    out is rejected with the invalid-params fault before any network call. *)
Theorem advertised_required_is_enforced (tool : Tool.t) (shape : Shape) :
  In tool tools ->
  schemaOf (Tool.name tool) = Some shape ->
  map fst (Tool.properties tool) = map fst shape /\
  Tool.required tool = map fst (List.filter (fun kt => demands (snd kt)) shape) /\
  forall k o env,
    In k (Tool.required tool) -> o !! k = None ->
    exists message,
      callTool (Tool.name tool) (Some o) env = (Raise (McpError InvalidParams message), []).
Proof.
  intros Hin Hschema.
  assert (Htables : map fst (Tool.properties tool) = map fst shape /\
                    Tool.required tool = map fst (List.filter (fun kt => demands (snd kt)) shape)).
  { unfold tools in Hin. simpl in Hin.
    destruct Hin as [<- | [<- | [<- | [<- | [<- | [<- | [<- | [<- | [<- | [<- | [<- | []]]]]]]]]]]];
      vm_compute in Hschema; try discriminate; injection Hschema as <-;
      split; vm_compute; reflexivity. }
  destruct Htables as [Hprops Hreq]. split; [exact Hprops|]. split; [exact Hreq|].
  intros k o env Hk Hmissing. rewrite Hreq in Hk.
  apply in_map_iff in Hk as ([k' t] & Hfst & Hkt). simpl in Hfst. subst k'.
  apply filter_In in Hkt as [Hkt Hdemands]. simpl in Hdemands.
  destruct (parse shape (Some o)) as [errors|a] eqn:Hparse.
  - eexists. exact (callTool_rejects _ shape (Some o) errors env Hschema Hparse).
  - exfalso. unfold parse in Hparse. pose proof (parse_shape_issues shape o) as His.
    destruct (parse_shape shape o) as [iss out]. simpl in His.
    destruct iss; [|discriminate]. symmetry in His.
    assert (Hk : fst (_parse t [k] (prop o k)) = []).
    { clear -His Hkt. induction shape as [|kt0 shape IH]; simpl in *; [contradiction|].
      apply app_eq_nil in His as [H0 Hrest].
      destruct Hkt as [-> | Hkt]; [exact H0 | now apply IH]. }
    unfold prop in Hk. rewrite Hmissing in Hk. simpl in Hk.
    exact (demands_rejects_missing t [k] Hdemands Hk).
Qed.

Lemma advertised_required_is_enforced_witness :
  schemaOf "create-project" = Some CreateProjectSchema /\
  exists message,
    callTool "create-project" (obj [("title", VStr "Sprint Planning")]) nobody =
    (Raise (McpError InvalidParams message), []).
Proof.
  split; [reflexivity|].
  destruct (advertised_required_is_enforced
              {| Tool.name := "create-project";
                 Tool.summary := "Create a new GitHub Project";
                 Tool.properties :=
                   [("title", Tool.str "Project title");
                    ("description", Tool.str "Project description");
                    ("owner", Tool.str "Owner (username or organization name)");
                    ("visibility", Tool.oneOf ["PUBLIC"; "PRIVATE"] "Project visibility"
                                     (Some (VStr "PRIVATE")))];
                 Tool.required := ["title"; "owner"] |}
              CreateProjectSchema) as (_ & _ & Hreject).
  - unfold tools. simpl. tauto.
  - reflexivity.
  - apply (Hreject "owner" (list_to_map [("title", VStr "Sprint Planning")]) nobody).
    + simpl. tauto.
    + vm_compute. reflexivity.
Defined.

Lemma validated_tools_reject_witness :
  schemaOf "update-item-status" = Some UpdateItemStatusSchema /\
  callTool "update-item-status" (obj [("itemId", VStr "I")]) (hosting board) =
  (Raise (McpError InvalidParams "Invalid arguments: Required, Required"), []).
Proof.
  split; [reflexivity|].
  destruct (validated_tools_reject "update-item-status" UpdateItemStatusSchema
              (list_to_map [("itemId", VStr "I")]) (hosting board) eq_refl)
    as (errors & Hcall & Herrors & _).
  - vm_compute. reflexivity.
  - unfold obj. rewrite Hcall, Herrors. vm_compute. reflexivity.
Defined.

(** ** The shape of the call log *)

Lemma mutation_only_last_spec (log : list Event) :
  mutation_only_last log = true ->
  forall pre q vars out post,
    log = pre ++ Graphql q vars out :: post -> isMutation q = true -> post = [].
Proof.
  induction log as [|ev log IH]; intros Hlast pre q vars out post Hlog Hq.
  - destruct pre; discriminate.
  - destruct pre as [|ev' pre]; simpl in Hlog; injection Hlog as -> Hrest.
    + subst log. simpl in Hlast. destruct post; [reflexivity|].
      rewrite Hq in Hlast. discriminate.
    + apply (IH) with (pre := pre) (q := q) (vars := vars) (out := out); [|exact Hrest|exact Hq].
      destruct ev' as [q' vars' out'|params out']; simpl in Hlast; [|exact Hlast].
      destruct log; [destruct pre; discriminate|].
      apply andb_true_iff in Hlast as [_ H]. exact H.
Qed.

Ltac open_run :=
  unfold listProjects, getProject, createProject, updateProject, createIssue,
    addItemToProject, updateProjectItem, createProjectField, updateItemStatus,
    getProjectFields, getProjectItems, parsing, guarded, detectFieldType, formatValue,
    selectOption, bind, try_catch, graphqlClient, restClient_issues_create, read, ret,
    throw, ask.

Ltac split_run :=
  repeat match goal with
         | |- context [match ?x with _ => _ end] =>
             lazymatch x with
             | context [match _ with _ => _ end] => fail
             | _ => destruct x
             end
         end.

Lemma route_log_shape (name : string) (args : option (gmap string jsval)) (env : Env) :
  (length (snd (route name args env)) <= 3)%nat /\
  mutation_only_last (snd (route name args env)) = true.
Proof.
  unfold route.
  repeat match goal with
         | |- context [String.eqb name ?s] => destruct (String.eqb name s)
         end.
  all: open_run; split_run; cbn [snd app length]; split; try reflexivity; lia.
Qed.

(** Whatever the tool, the arguments and the network, a tool call makes at
    most three network calls, and a GraphQL mutation is never followed by
    another call. *)
Theorem calls_are_bounded_and_mutation_is_last
    (name : string) (args : option (gmap string jsval)) (env : Env) :
  (length (snd (callTool name args env)) <= 3)%nat /\
  forall pre q vars out post,
    snd (callTool name args env) = pre ++ Graphql q vars out :: post ->
    isMutation q = true -> post = [].
Proof.
  rewrite callTool_log. destruct (route_log_shape name args env) as [Hlen Hlast].
  split; [exact Hlen|]. exact (mutation_only_last_spec _ Hlast).
Qed.

Lemma calls_are_bounded_and_mutation_is_last_witness :
  exists fetch vars out post,
    snd (callTool "update-item-status"
           (obj [("projectId", VStr "P"); ("itemId", VStr "I"); ("status", VStr "todo")])
           (hosting board)) = [fetch] ++ Graphql UPDATE_PROJECT_ITEM_FIELD vars out :: post /\
    isMutation UPDATE_PROJECT_ITEM_FIELD = true /\
    post = [].
Proof.
  eexists. eexists. eexists. eexists.
  assert (H : snd (callTool "update-item-status"
                     (obj [("projectId", VStr "P"); ("itemId", VStr "I"); ("status", VStr "todo")])
                     (hosting board)) =
              [Graphql GET_PROJECT_DETAILS [("projectId", Js (VStr "P"))]
                 (Resolved (Data.ofNode (GET_PROJECT_DETAILS_page board)))] ++
              Graphql UPDATE_PROJECT_ITEM_FIELD
                [("projectId", Js (VStr "P")); ("itemId", Js (VStr "I"));
                 ("fieldId", Js (VStr "F2")); ("value", Formatted (singleSelectOptionId "O1"))]
                (Resolved (Data.ofUpdatedItem "ITEM")) :: [])
    by (vm_compute; reflexivity).
  split; [exact H|]. split; [reflexivity|].
  exact (proj2 (calls_are_bounded_and_mutation_is_last "update-item-status" _ (hosting board))
           _ _ _ _ _ H eq_refl).
Defined.

(** ** list-projects *)

(** list-projects makes one call with the owner as login: the organization
    query exactly when [type] is the string "organization", the user query
    for every other value.  A rejected call becomes the error text; an
    answer without the owner node becomes an empty listing, not an error,
    headed by the owner when it is a string and by "undefined" when it is
    missing. *)
Theorem listProjects_query_and_fallbacks (env : Env) (o : gmap string jsval) :
  exists q,
    let login := [("login", Js (prop o "owner"))] in
    let run := listProjects (Some o) env in
    snd run = [Graphql q login (graphql env [] q login)] /\
    (prop o "type" = VStr "organization" -> q = GET_ORG_PROJECTS) /\
    (prop o "type" <> VStr "organization" -> q = GET_USER_PROJECTS) /\
    (forall e, graphql env [] q login = Rejected e ->
       fst run = Content ("Error listing projects: " +:+ errorText e)) /\
    (forall d owner, graphql env [] q login = Resolved d ->
       Data.user d = None -> Data.organization d = None ->
       prop o "owner" = VStr owner \/ (prop o "owner" = VUndefined /\ owner = "undefined") ->
       fst run = Content ("Projects for " +:+ owner +:+ ":" +:+ nl +:+ nl)).
Proof.
  set (type := match prop o "type" with VUndefined => VStr "user" | v => v end).
  exists (if is_str type "organization" then GET_ORG_PROJECTS else GET_USER_PROJECTS).
  intros login run.
  assert (Horg : is_str type "organization" = true <-> prop o "type" = VStr "organization").
  { subst type. destruct (prop o "type") as [| | | |s| |]; simpl; try (split; discriminate).
    rewrite String.eqb_eq. split; [now intros -> | now intros [= ->]]. }
  subst run. unfold listProjects. fold type. unfold guarded, bind, graphqlClient. cbn [app].
  fold login.
  set (q := if is_str type "organization" then GET_ORG_PROJECTS else GET_USER_PROJECTS).
  split; [|split; [|split; [|split]]].
  - destruct (graphql env [] q login); reflexivity.
  - intros H. apply Horg in H. subst q. now rewrite H.
  - intros H. subst q. destruct (is_str type "organization") eqn:E; [|reflexivity].
    exfalso. apply H. now apply Horg.
  - intros e ->. reflexivity.
  - intros d owner -> Hu Ho Howner. rewrite Hu, Ho. cbn [chain nodes default].
    destruct Howner as [-> | [-> ->]]; destruct (is_str type "organization"); reflexivity.
Qed.

Lemma listProjects_query_and_fallbacks_witness :
  prop (list_to_map [("owner", VStr "ghost"); ("type", VStr "organization")]) "type"
    = VStr "organization" /\
  listProjects (obj [("owner", VStr "ghost"); ("type", VStr "organization")]) nobody =
  (Content ("Projects for ghost:" +:+ nl +:+ nl),
   [Graphql GET_ORG_PROJECTS [("login", Js (VStr "ghost"))] (Resolved Data.empty)]).
Proof.
  assert (H : prop (list_to_map [("owner", VStr "ghost"); ("type", VStr "organization")]) "type"
              = VStr "organization") by (vm_compute; reflexivity).
  split; [exact H|].
  destruct (listProjects_query_and_fallbacks nobody
              (list_to_map [("owner", VStr "ghost"); ("type", VStr "organization")]))
    as (q & Hlog & Horg & _ & _ & Hempty).
  specialize (Horg H). subst q.
  unfold obj. rewrite (surjective_pairing (listProjects _ _)), Hlog.
  rewrite (Hempty Data.empty "ghost" eq_refl eq_refl eq_refl
             ltac:(left; vm_compute; reflexivity)).
  vm_compute. reflexivity.
Defined.

(** ** Missing projects and empty projects *)

Lemma accepted_string (shape : Shape) (o a : gmap string jsval) (k : string) :
  List.NoDup (map fst shape) ->
  parse shape (Some o) = inr a ->
  In (k, ZString) shape ->
  exists s, prop o k = VStr s /\ prop a k = VStr s.
Proof.
  intros Hnd Hparse Hin.
  destruct (parse_accepts shape o a Hnd Hparse k ZString Hin) as [H P].
  apply parse_ZString in H as (s & E & R). exists s. split; congruence.
Qed.

(** When the answer holds no project node, get-project, get-project-fields,
    get-project-items and update-item-status all stop after that one call
    with "Project not found" behind their own prefix. *)
Theorem missing_project_is_reported (env : Env) (o : gmap string jsval) (d : Data.t) :
  Data.node d = None ->
  let fetch := [("projectId", Js (prop o "projectId"))] in
  (accepts GetProjectSchema (Some o) = true ->
   graphql env [] GET_PROJECT_DETAILS fetch = Resolved d ->
   getProject (Some o) env =
     (Content "Error getting project: Project not found",
      [Graphql GET_PROJECT_DETAILS fetch (Resolved d)])) /\
  (accepts GetProjectFieldsSchema (Some o) = true ->
   graphql env [] GET_PROJECT_FIELDS_DETAILED fetch = Resolved d ->
   getProjectFields (Some o) env =
     (Content "Error getting project fields: Project not found",
      [Graphql GET_PROJECT_FIELDS_DETAILED fetch (Resolved d)])) /\
  (accepts UpdateItemStatusSchema (Some o) = true ->
   graphql env [] GET_PROJECT_DETAILS fetch = Resolved d ->
   updateItemStatus (Some o) env =
     (Content "Error updating status: Project not found",
      [Graphql GET_PROJECT_DETAILS fetch (Resolved d)])) /\
  (accepts GetProjectItemsSchema (Some o) = true ->
   forall items,
     items = [("projectId", Js (prop o "projectId"));
              ("first", Js (match prop o "limit" with VUndefined => VNum 20 | v => v end))] ->
     graphql env [] GetProjectItems items = Resolved d ->
     getProjectItems (Some o) env =
       (Content "Error getting project items: Project not found",
        [Graphql GetProjectItems items (Resolved d)])).
Proof.
  intros Hnode fetch. subst fetch. repeat split.
  - unfold accepts. destruct (parse GetProjectSchema (Some o)) as [|a] eqn:Hparse;
      [discriminate|]. intros _ Hfetch.
    destruct (accepted_string GetProjectSchema o a "projectId" ltac:(keys_distinct) Hparse) as (s & E & P);
      [simpl; tauto|].
    unfold getProject, parsing. rewrite Hparse. unfold guarded, bind, graphqlClient.
    rewrite P. rewrite E in Hfetch. rewrite Hfetch, Hnode, E. reflexivity.
  - unfold accepts. destruct (parse GetProjectFieldsSchema (Some o)) as [|a] eqn:Hparse;
      [discriminate|]. intros _ Hfetch.
    destruct (accepted_string GetProjectFieldsSchema o a "projectId" ltac:(keys_distinct) Hparse) as (s & E & P);
      [simpl; tauto|].
    unfold getProjectFields, parsing. rewrite Hparse. unfold guarded, bind, graphqlClient.
    rewrite P. rewrite E in Hfetch. rewrite Hfetch, Hnode, E. reflexivity.
  - intros Hacc Hfetch.
    destruct (UpdateItemStatus_args o Hacc)
      as (a & projectId & itemId & status & Hparse & E1 & P1 & E2 & P2 & E3 & P3).
    unfold updateItemStatus, parsing. rewrite Hparse. unfold guarded, bind, graphqlClient.
    rewrite P1. rewrite E1 in Hfetch. rewrite Hfetch, Hnode, E1. reflexivity.
  - unfold accepts. destruct (parse GetProjectItemsSchema (Some o)) as [|a] eqn:Hparse;
      [discriminate|]. intros _ items -> Hfetch.
    assert (Hnd : List.NoDup (map fst GetProjectItemsSchema)) by keys_distinct.
    destruct (accepted_string _ o a "projectId" Hnd Hparse) as (s & E & P); [simpl; tauto|].
    destruct (parse_accepts _ o a Hnd Hparse "limit" (ZDefault (ZOptional ZNumber) (VNum 20)))
      as [Hl Pl]; [simpl; tauto|].
    assert (Hlimit : prop a "limit" =
                     match prop o "limit" with VUndefined => VNum 20 | v => v end).
    { rewrite Pl. destruct (prop o "limit"); simpl in *; (reflexivity || discriminate). }
    unfold getProjectItems, parsing. rewrite Hparse. unfold guarded, bind, graphqlClient.
    rewrite P, Hlimit. rewrite E in Hfetch. rewrite Hfetch, Hnode, E. reflexivity.
Qed.

Lemma missing_project_is_reported_witness :
  Data.node Data.empty = None /\
  getProject (obj [("projectId", VStr "gone")])
    (scripted (fun _ => Resolved Data.empty) (Rejected (ErrorObj "Not supported"))) =
  (Content "Error getting project: Project not found",
   [Graphql GET_PROJECT_DETAILS [("projectId", Js (VStr "gone"))] (Resolved Data.empty)]).
Proof.
  split; [reflexivity|].
  destruct (missing_project_is_reported
              (scripted (fun _ => Resolved Data.empty) (Rejected (ErrorObj "Not supported")))
              (list_to_map [("projectId", VStr "gone")]) Data.empty eq_refl) as [Hget _].
  exact (Hget ltac:(vm_compute; reflexivity) eq_refl).
Defined.

(** A project whose answer carries no fields makes get-project-fields
    return the no-custom-fields sentence, and one whose answer carries no
    items makes get-project-items return the no-items sentence with the
    project's title. *)
Theorem empty_project_messages (env : Env) (o : gmap string jsval)
    (d : Data.t) (project : ProjectNode.t) :
  Data.node d = Some project ->
  let fetch := [("projectId", Js (prop o "projectId"))] in
  (accepts GetProjectFieldsSchema (Some o) = true ->
   graphql env [] GET_PROJECT_FIELDS_DETAILED fetch = Resolved d ->
   nodes (ProjectNode.fields project) = [] ->
   getProjectFields (Some o) env =
     (Content "No custom fields found in this project.",
      [Graphql GET_PROJECT_FIELDS_DETAILED fetch (Resolved d)])) /\
  (accepts GetProjectItemsSchema (Some o) = true ->
   forall items,
     items = [("projectId", Js (prop o "projectId"));
              ("first", Js (match prop o "limit" with VUndefined => VNum 20 | v => v end))] ->
     graphql env [] GetProjectItems items = Resolved d ->
     nodes (ProjectNode.items project) = [] ->
     getProjectItems (Some o) env =
       (Content ("No items found in project " +:+ dq +:+ ProjectNode.title project +:+ dq +:+ "."),
        [Graphql GetProjectItems items (Resolved d)])).
Proof.
  intros Hnode fetch. subst fetch. split.
  - unfold accepts. destruct (parse GetProjectFieldsSchema (Some o)) as [|a] eqn:Hparse;
      [discriminate|]. intros _ Hfetch Hempty.
    destruct (accepted_string GetProjectFieldsSchema o a "projectId" ltac:(keys_distinct) Hparse) as (s & E & P);
      [simpl; tauto|].
    unfold getProjectFields, parsing. rewrite Hparse. unfold guarded, bind, graphqlClient.
    rewrite P. rewrite E in Hfetch. rewrite Hfetch, Hnode, Hempty, E. reflexivity.
  - unfold accepts. destruct (parse GetProjectItemsSchema (Some o)) as [|a] eqn:Hparse;
      [discriminate|]. intros _ items -> Hfetch Hempty.
    assert (Hnd : List.NoDup (map fst GetProjectItemsSchema)) by keys_distinct.
    destruct (accepted_string _ o a "projectId" Hnd Hparse) as (s & E & P); [simpl; tauto|].
    destruct (parse_accepts _ o a Hnd Hparse "limit" (ZDefault (ZOptional ZNumber) (VNum 20)))
      as [Hl Pl]; [simpl; tauto|].
    assert (Hlimit : prop a "limit" =
                     match prop o "limit" with VUndefined => VNum 20 | v => v end).
    { rewrite Pl. destruct (prop o "limit"); simpl in *; (reflexivity || discriminate). }
    unfold getProjectItems, parsing. rewrite Hparse. unfold guarded, bind, graphqlClient.
    rewrite P, Hlimit. rewrite E in Hfetch. rewrite Hfetch, Hnode, Hempty, E. reflexivity.
Qed.

Lemma empty_project_messages_witness :
  Data.node (Data.ofNode (GetProjectItems_page 5 (mkProject "P" "Bare" []))) =
    Some (GetProjectItems_page 5 (mkProject "P" "Bare" [])) /\
  fst (getProjectFields (obj [("projectId", VStr "P")])
         (scripted (fun _ => Resolved (Data.ofNode (GetProjectItems_page 5 (mkProject "P" "Bare" []))))
                   (Rejected (ErrorObj "Not supported")))) =
  Content "No custom fields found in this project.".
Proof.
  split; [reflexivity|].
  destruct (empty_project_messages
              (scripted (fun _ => Resolved (Data.ofNode
                                              (GetProjectItems_page 5 (mkProject "P" "Bare" []))))
                        (Rejected (ErrorObj "Not supported")))
              (list_to_map [("projectId", VStr "P")])
              (Data.ofNode (GetProjectItems_page 5 (mkProject "P" "Bare" [])))
              (GetProjectItems_page 5 (mkProject "P" "Bare" [])) eq_refl) as [Hfields _].
  unfold obj. rewrite (Hfields ltac:(vm_compute; reflexivity) eq_refl eq_refl). reflexivity.
Defined.

(** ** update-project-item: the field type and the payload *)

Lemma updateProjectItem_frame (env : Env) (o : gmap string jsval) :
  accepts UpdateProjectItemSchema (Some o) = true ->
  exists a projectId itemId fieldId value,
    prop o "projectId" = VStr projectId /\ prop a "projectId" = VStr projectId /\
    prop o "itemId" = VStr itemId /\ prop a "itemId" = VStr itemId /\
    prop o "fieldId" = VStr fieldId /\ prop a "fieldId" = VStr fieldId /\
    prop o "value" = VStr value /\ prop a "value" = VStr value /\
    updateProjectItem (Some o) env =
      guarded "Error updating project item: "
        (await ty := detectFieldType (VStr projectId) (VStr fieldId) (prop o "fieldType") in
         await fv := formatValue ty (VStr projectId) (VStr fieldId) value in
         finishUpdate a ty fv) env.
Proof.
  intros Hacc.
  destruct (UpdateProjectItem_args o Hacc)
    as (a & projectId & itemId & fieldId & v & Hparse & E1 & P1 & E2 & P2 & E3 & P3
        & E4 & P4 & P5 & _).
  exists a, projectId, itemId, fieldId, v. repeat split; try assumption.
  unfold updateProjectItem, parsing. rewrite Hparse.
  match goal with
  | |- _ = ?rhs =>
      change (guarded "Error updating project item: "
                (await ty := detectFieldType (prop a "projectId") (prop a "fieldId")
                               (prop a "fieldType") in
                 await fv := formatValue ty (prop a "projectId") (prop a "fieldId")
                               (str_of (prop a "value")) in
                 finishUpdate a ty fv) env = rhs)
  end.
  rewrite P1, P3, P4, P5. reflexivity.
Qed.

Lemma finishUpdate_run (env : Env) (a : gmap string jsval) (ty : option string)
    (fv : formattedValue) (log : list Event) (projectId itemId fieldId value : string) :
  prop a "projectId" = VStr projectId -> prop a "itemId" = VStr itemId ->
  prop a "fieldId" = VStr fieldId -> prop a "value" = VStr value ->
  let vars := [("projectId", Js (VStr projectId)); ("itemId", Js (VStr itemId));
               ("fieldId", Js (VStr fieldId)); ("value", Formatted fv)] in
  let out := graphql env log UPDATE_PROJECT_ITEM_FIELD vars in
  finishUpdate a ty fv env log =
  (match out with
   | Resolved r =>
       match Data.updateProjectV2ItemFieldValue r with
       | Some updatedId =>
           Resolved ("Project item field updated successfully!" +:+ nl +:+ nl +:+
                     "Item ID: " +:+ updatedId +:+ nl +:+
                     "Field Type: " +:+ show_opt ty +:+ nl +:+
                     "New Value: " +:+ value)
       | None =>
           Rejected (ErrorObj "Cannot read properties of undefined (reading 'projectV2Item')")
       end
   | Rejected e => Rejected e
   end,
   log ++ [Graphql UPDATE_PROJECT_ITEM_FIELD vars out]).
Proof.
  intros P1 P2 P3 P4 vars out. unfold finishUpdate, bind, graphqlClient.
  rewrite P1, P2, P3, P4. fold vars. fold out.
  destruct out as [r|e]; [|reflexivity].
  unfold read. destruct (Data.updateProjectV2ItemFieldValue r); reflexivity.
Qed.

(** Outside the single-select case the payload needs no lookup. *)
Lemma formatValue_plain (ty : option string) (projectId fieldId : jsval) (value : string) :
  ty <> Some "SINGLE_SELECT" ->
  exists payload,
    formatValue ty projectId fieldId value = ret payload /\
    (ty = Some "NUMBER" -> payload = number value) /\
    (ty = Some "DATE" -> payload = date value) /\
    (ty = Some "ITERATION" -> payload = iterationId value) /\
    (ty <> Some "NUMBER" -> ty <> Some "DATE" -> ty <> Some "ITERATION" ->
     payload = text value).
Proof.
  intros Hne. unfold formatValue.
  destruct (decide (ty = Some "TEXT")) as [->|H1].
  { eexists. split; [reflexivity|]. repeat split; intros; (discriminate || reflexivity). }
  destruct (decide (ty = Some "NUMBER")) as [->|H2].
  { eexists. split; [reflexivity|]. repeat split; intros; (discriminate || congruence). }
  destruct (decide (ty = Some "DATE")) as [->|H3].
  { eexists. split; [reflexivity|]. repeat split; intros; (discriminate || congruence). }
  destruct (decide (ty = Some "SINGLE_SELECT")) as [->|H4]; [congruence|].
  destruct (decide (ty = Some "ITERATION")) as [->|H5].
  { eexists. split; [reflexivity|]. repeat split; intros; (discriminate || congruence). }
  eexists. split; [reflexivity|]. repeat split; intros; (congruence || reflexivity).
Qed.

(** With a field type declared other than SINGLE_SELECT, update-project-item
    makes the update mutation its only call: no project is fetched, and the
    value goes out as given, as text, as the number it parses to, as a
    date, or as an iteration id.  On success the text repeats the declared
    type and the caller's value. *)
Theorem declared_type_needs_no_lookup (env : Env) (o : gmap string jsval) (t : string) :
  accepts UpdateProjectItemSchema (Some o) = true ->
  prop o "fieldType" = VStr t ->
  t <> "SINGLE_SELECT" ->
  exists payload,
    let value := str_of (prop o "value") in
    let vars := [("projectId", Js (prop o "projectId")); ("itemId", Js (prop o "itemId"));
                 ("fieldId", Js (prop o "fieldId")); ("value", Formatted payload)] in
    let out := graphql env [] UPDATE_PROJECT_ITEM_FIELD vars in
    snd (updateProjectItem (Some o) env) = [Graphql UPDATE_PROJECT_ITEM_FIELD vars out] /\
    (t = "TEXT" -> payload = text value) /\
    (t = "NUMBER" -> payload = number value) /\
    (t = "DATE" -> payload = date value) /\
    (t = "ITERATION" -> payload = iterationId value) /\
    (forall r updatedId,
       out = Resolved r -> Data.updateProjectV2ItemFieldValue r = Some updatedId ->
       fst (updateProjectItem (Some o) env) =
         Content ("Project item field updated successfully!" +:+ nl +:+ nl +:+
                  "Item ID: " +:+ updatedId +:+ nl +:+
                  "Field Type: " +:+ t +:+ nl +:+
                  "New Value: " +:+ value)).
Proof.
  intros Hacc Hty Hne.
  destruct (UpdateProjectItem_args o Hacc)
    as (a0 & p0 & i0 & f0 & v0 & _ & _ & _ & _ & _ & _ & _ & _ & _ & _ & Henum).
  assert (Hin : In t fieldTypes).
  { destruct Henum as [H | (t' & H & Hin)]; congruence. }
  destruct (updateProjectItem_frame env o Hacc)
    as (a & projectId & itemId & fieldId & value & E1 & P1 & E2 & P2 & E3 & P3 & E4 & P4 & Hrun).
  destruct (formatValue_plain (Some t) (VStr projectId) (VStr fieldId) value)
    as (payload & Hfmt & Hnum & Hdate & Hiter & Htext); [congruence|].
  exists payload. rewrite Hrun, E1, E2, E3, E4, Hty. cbn [str_of].
  assert (Htruthy : truthy (VStr t) = true).
  { simpl in Hin. destruct Hin as [<- | [<- | [<- | [<- | [<- | []]]]]]; reflexivity. }
  unfold guarded, bind, detectFieldType. rewrite Htruthy. cbn [negb ret opt_str_of].
  rewrite Hfmt. cbn [ret].
  rewrite (finishUpdate_run env a (Some t) payload [] projectId itemId fieldId value P1 P2 P3 P4).
  cbn [app fst snd show_opt].
  split; [|split; [|split; [|split; [|split]]]].
  - destruct (graphql env [] UPDATE_PROJECT_ITEM_FIELD _) as [r|e]; [|reflexivity].
    destruct (Data.updateProjectV2ItemFieldValue r); reflexivity.
  - intros ->. apply Htext; discriminate.
  - intros ->. now apply Hnum.
  - intros ->. now apply Hdate.
  - intros ->. now apply Hiter.
  - intros r updatedId -> Hid. rewrite Hid. reflexivity.
Qed.

Lemma declared_type_needs_no_lookup_witness :
  accepts UpdateProjectItemSchema
    (obj [("projectId", VStr "P"); ("itemId", VStr "I"); ("fieldId", VStr "F7");
          ("value", VStr "12.5"); ("fieldType", VStr "NUMBER")]) = true /\
  snd (updateProjectItem
         (obj [("projectId", VStr "P"); ("itemId", VStr "I"); ("fieldId", VStr "F7");
               ("value", VStr "12.5"); ("fieldType", VStr "NUMBER")])
         (hosting board)) =
  [Graphql UPDATE_PROJECT_ITEM_FIELD
     [("projectId", Js (VStr "P")); ("itemId", Js (VStr "I")); ("fieldId", Js (VStr "F7"));
      ("value", Formatted (number "12.5"))]
     (Resolved (Data.ofUpdatedItem "ITEM"))].
Proof.
  assert (H : accepts UpdateProjectItemSchema
                (obj [("projectId", VStr "P"); ("itemId", VStr "I"); ("fieldId", VStr "F7");
                      ("value", VStr "12.5"); ("fieldType", VStr "NUMBER")]) = true)
    by (vm_compute; reflexivity).
  split; [exact H|].
  destruct (declared_type_needs_no_lookup (hosting board)
              (list_to_map [("projectId", VStr "P"); ("itemId", VStr "I"); ("fieldId", VStr "F7");
                            ("value", VStr "12.5"); ("fieldType", VStr "NUMBER")])
              "NUMBER" H) as (payload & Hlog & _ & Hnum & _).
  - vm_compute. reflexivity.
  - discriminate.
  - rewrite (Hnum eq_refl) in Hlog. unfold obj. rewrite Hlog. vm_compute. reflexivity.
Defined.

(** With no field type given, update-project-item fetches the project once
    to detect it.  If that fetch throws, the value is written as text and
    the success text reports TEXT; the update is still attempted. *)
Theorem failed_detection_writes_text (env : Env) (o : gmap string jsval) (e : Thrown) :
  accepts UpdateProjectItemSchema (Some o) = true ->
  prop o "fieldType" = VUndefined ->
  graphql env [] GET_PROJECT_DETAILS [("projectId", Js (prop o "projectId"))] = Rejected e ->
  let value := str_of (prop o "value") in
  let fetch :=
    Graphql GET_PROJECT_DETAILS [("projectId", Js (prop o "projectId"))] (Rejected e) in
  let vars := [("projectId", Js (prop o "projectId")); ("itemId", Js (prop o "itemId"));
               ("fieldId", Js (prop o "fieldId")); ("value", Formatted (text value))] in
  let out := graphql env [fetch] UPDATE_PROJECT_ITEM_FIELD vars in
  snd (updateProjectItem (Some o) env) = [fetch; Graphql UPDATE_PROJECT_ITEM_FIELD vars out] /\
  forall r updatedId,
    out = Resolved r -> Data.updateProjectV2ItemFieldValue r = Some updatedId ->
    fst (updateProjectItem (Some o) env) =
      Content ("Project item field updated successfully!" +:+ nl +:+ nl +:+
               "Item ID: " +:+ updatedId +:+ nl +:+
               "Field Type: TEXT" +:+ nl +:+
               "New Value: " +:+ value).
Proof.
  intros Hacc Hty Hfetch.
  destruct (updateProjectItem_frame env o Hacc)
    as (a & projectId & itemId & fieldId & value & E1 & P1 & E2 & P2 & E3 & P3 & E4 & P4 & Hrun).
  rewrite Hrun, E1, E2, E3, E4, Hty in *. cbn [str_of].
  unfold guarded, bind, detectFieldType. cbn [truthy negb].
  unfold try_catch, bind, graphqlClient. rewrite Hfetch. cbn [ret app].
  change (formatValue (Some "TEXT") (VStr projectId) (VStr fieldId) value)
    with (@ret formattedValue (text value)). cbn [ret].
  rewrite (finishUpdate_run env a (Some "TEXT") (text value) _ projectId itemId fieldId value
             P1 P2 P3 P4).
  cbn [app fst snd show_opt]. split.
  - destruct (graphql env _ UPDATE_PROJECT_ITEM_FIELD _) as [r|e']; [|reflexivity].
    destruct (Data.updateProjectV2ItemFieldValue r); reflexivity.
  - intros r updatedId -> Hid. rewrite Hid. reflexivity.
Qed.

Lemma failed_detection_writes_text_witness :
  accepts UpdateProjectItemSchema
    (obj [("projectId", VStr "P"); ("itemId", VStr "I"); ("fieldId", VStr "F1");
          ("value", VStr "hello")]) = true /\
  snd (updateProjectItem
         (obj [("projectId", VStr "P"); ("itemId", VStr "I"); ("fieldId", VStr "F1");
               ("value", VStr "hello")])
         rateLimited) =
  [Graphql GET_PROJECT_DETAILS [("projectId", Js (VStr "P"))]
     (Rejected (ErrorObj "API rate limit exceeded"));
   Graphql UPDATE_PROJECT_ITEM_FIELD
     [("projectId", Js (VStr "P")); ("itemId", Js (VStr "I")); ("fieldId", Js (VStr "F1"));
      ("value", Formatted (text "hello"))]
     (Rejected (ErrorObj "API rate limit exceeded"))].
Proof.
  assert (H : accepts UpdateProjectItemSchema
                (obj [("projectId", VStr "P"); ("itemId", VStr "I"); ("fieldId", VStr "F1");
                      ("value", VStr "hello")]) = true) by (vm_compute; reflexivity).
  split; [exact H|].
  destruct (failed_detection_writes_text rateLimited
              (list_to_map [("projectId", VStr "P"); ("itemId", VStr "I"); ("fieldId", VStr "F1");
                            ("value", VStr "hello")])
              (ErrorObj "API rate limit exceeded") H)
    as [Hlog _]; [vm_compute; reflexivity | reflexivity |].
  unfold obj. rewrite Hlog. vm_compute. reflexivity.
Defined.

(** With no field type given and the field found in the fetched project,
    the detected data type decides the payload: NUMBER, DATE and ITERATION
    as for a declared type, and any other type that is not SINGLE_SELECT,
    built-in ones included, as text.  The success text reports the detected
    type ("undefined" for a node that carries none). *)
Theorem detected_type_decides_payload
    (env : Env) (o : gmap string jsval) (d : Data.t) (project : ProjectNode.t)
    (field : Field.t) :
  accepts UpdateProjectItemSchema (Some o) = true ->
  prop o "fieldType" = VUndefined ->
  graphql env [] GET_PROJECT_DETAILS [("projectId", Js (prop o "projectId"))] = Resolved d ->
  Data.node d = Some project ->
  designates (str_of (prop o "fieldId")) project field ->
  Field.dataType field <> Some "SINGLE_SELECT" ->
  exists payload,
    let t := Field.dataType field in
    let value := str_of (prop o "value") in
    let fetch :=
      Graphql GET_PROJECT_DETAILS [("projectId", Js (prop o "projectId"))] (Resolved d) in
    let vars := [("projectId", Js (prop o "projectId")); ("itemId", Js (prop o "itemId"));
                 ("fieldId", Js (prop o "fieldId")); ("value", Formatted payload)] in
    let out := graphql env [fetch] UPDATE_PROJECT_ITEM_FIELD vars in
    snd (updateProjectItem (Some o) env) = [fetch; Graphql UPDATE_PROJECT_ITEM_FIELD vars out] /\
    (t = Some "NUMBER" -> payload = number value) /\
    (t = Some "DATE" -> payload = date value) /\
    (t = Some "ITERATION" -> payload = iterationId value) /\
    (t <> Some "NUMBER" -> t <> Some "DATE" -> t <> Some "ITERATION" ->
     payload = text value) /\
    (forall r updatedId,
       out = Resolved r -> Data.updateProjectV2ItemFieldValue r = Some updatedId ->
       fst (updateProjectItem (Some o) env) =
         Content ("Project item field updated successfully!" +:+ nl +:+ nl +:+
                  "Item ID: " +:+ updatedId +:+ nl +:+
                  "Field Type: " +:+ show_opt t +:+ nl +:+
                  "New Value: " +:+ value)).
Proof.
  intros Hacc Hty Hfetch Hnode Hfield Hne.
  destruct (updateProjectItem_frame env o Hacc)
    as (a & projectId & itemId & fieldId & value & E1 & P1 & E2 & P2 & E3 & P3 & E4 & P4 & Hrun).
  rewrite E3 in Hfield. cbn [str_of] in Hfield.
  apply (findField_designates d project fieldId field Hnode) in Hfield.
  destruct (formatValue_plain (Field.dataType field) (VStr projectId) (VStr fieldId) value)
    as (payload & Hfmt & Hnum & Hdate & Hiter & Htext); [exact Hne|].
  exists payload. rewrite Hrun, E1, E2, E3, E4, Hty in *. cbn [str_of].
  unfold guarded, bind, detectFieldType. cbn [truthy negb].
  unfold try_catch, bind, graphqlClient. rewrite Hfetch. cbn [str_of]. rewrite Hfield.
  cbn [chain ret app]. rewrite Hfmt. cbn [ret].
  rewrite (finishUpdate_run env a (Field.dataType field) payload _
             projectId itemId fieldId value P1 P2 P3 P4).
  cbn [app fst snd].
  split; [|split; [|split; [|split; [|split]]]].
  - destruct (graphql env _ UPDATE_PROJECT_ITEM_FIELD _) as [r|e']; [|reflexivity].
    destruct (Data.updateProjectV2ItemFieldValue r); reflexivity.
  - exact Hnum.
  - exact Hdate.
  - exact Hiter.
  - exact Htext.
  - intros r updatedId -> Hid. rewrite Hid. reflexivity.
Qed.

Lemma detected_type_decides_payload_witness :
  accepts UpdateProjectItemSchema
    (obj [("projectId", VStr "P"); ("itemId", VStr "I"); ("fieldId", VStr "F1");
          ("value", VStr "Ship it")]) = true /\
  updateProjectItem
    (obj [("projectId", VStr "P"); ("itemId", VStr "I"); ("fieldId", VStr "F1");
          ("value", VStr "Ship it")])
    (hosting board) =
  (Content ("Project item field updated successfully!" +:+ nl +:+ nl +:+
            "Item ID: ITEM" +:+ nl +:+
            "Field Type: TITLE" +:+ nl +:+
            "New Value: Ship it"),
   [Graphql GET_PROJECT_DETAILS [("projectId", Js (VStr "P"))]
      (Resolved (Data.ofNode (GET_PROJECT_DETAILS_page board)));
    Graphql UPDATE_PROJECT_ITEM_FIELD
      [("projectId", Js (VStr "P")); ("itemId", Js (VStr "I")); ("fieldId", Js (VStr "F1"));
       ("value", Formatted (text "Ship it"))]
      (Resolved (Data.ofUpdatedItem "ITEM"))]).
Proof.
  assert (H : accepts UpdateProjectItemSchema
                (obj [("projectId", VStr "P"); ("itemId", VStr "I"); ("fieldId", VStr "F1");
                      ("value", VStr "Ship it")]) = true) by (vm_compute; reflexivity).
  split; [exact H|].
  destruct (detected_type_decides_payload (hosting board)
              (list_to_map [("projectId", VStr "P"); ("itemId", VStr "I"); ("fieldId", VStr "F1");
                            ("value", VStr "Ship it")])
              (Data.ofNode (GET_PROJECT_DETAILS_page board)) (GET_PROJECT_DETAILS_page board)
              (mkField "F1" "Title" "TITLE" None) H)
    as (payload & Hlog & _ & _ & _ & Htext & Hres).
  - vm_compute. reflexivity.
  - reflexivity.
  - reflexivity.
  - exists [], [mkField "F2" "Status" "SINGLE_SELECT" (Some statusOptions);
                mkField "F3" "Estate" "TEXT" None].
    split; [reflexivity|]. split; [constructor | vm_compute; reflexivity].
  - discriminate.
  - rewrite (Htext ltac:(discriminate) ltac:(discriminate) ltac:(discriminate)) in *.
    unfold obj. rewrite (surjective_pairing (updateProjectItem _ _)), Hlog.
    rewrite (Hres (Data.ofUpdatedItem "ITEM") "ITEM" eq_refl eq_refl). vm_compute. reflexivity.
Defined.

(** On a SINGLE_SELECT field, a lookup that cannot find the option stops
    the call before any update: a thrown fetch is reported behind both
    prefixes, and a field that is absent from the answer, or that carries
    no options, is reported with "Available options: undefined". *)
Theorem single_select_lookup_failures (env : Env) (o : gmap string jsval) :
  accepts UpdateProjectItemSchema (Some o) = true ->
  prop o "fieldType" = VStr "SINGLE_SELECT" ->
  let fetchVars := [("projectId", Js (prop o "projectId"))] in
  let out := graphql env [] GET_PROJECT_DETAILS fetchVars in
  let run := updateProjectItem (Some o) env in
  (forall e, out = Rejected e ->
     run = (Content ("Error updating project item: Failed to find single select option: " +:+
                     errorText e),
            [Graphql GET_PROJECT_DETAILS fetchVars out])) /\
  (forall d, out = Resolved d ->
     findField (Data.node d) (str_of (prop o "fieldId")) ?. Field.options = None ->
     run = (Content ("Error updating project item: Failed to find single select option: " +:+
                     "Option '" +:+ str_of (prop o "value") +:+
                     "' not found for field. Available options: undefined"),
            [Graphql GET_PROJECT_DETAILS fetchVars out])).
Proof.
  intros Hacc Hty fetchVars out run.
  destruct (updateProjectItem_frame env o Hacc)
    as (a & projectId & itemId & fieldId & value & E1 & P1 & E2 & P2 & E3 & P3 & E4 & P4 & Hrun).
  subst run fetchVars out. rewrite Hrun, E1, E3, E4, Hty. cbn [str_of].
  unfold guarded, bind, detectFieldType. cbn [truthy truthy_str negb ret opt_str_of].
  rewrite formatValue_SINGLE_SELECT. unfold selectOption, try_catch, bind, graphqlClient.
  cbn [str_of app]. split.
  - intros e ->. reflexivity.
  - intros d -> Hnone. rewrite Hnone. reflexivity.
Qed.

Lemma single_select_lookup_failures_witness :
  accepts UpdateProjectItemSchema
    (obj [("projectId", VStr "P"); ("itemId", VStr "I"); ("fieldId", VStr "F3");
          ("value", VStr "Done"); ("fieldType", VStr "SINGLE_SELECT")]) = true /\
  fst (updateProjectItem
         (obj [("projectId", VStr "P"); ("itemId", VStr "I"); ("fieldId", VStr "F3");
               ("value", VStr "Done"); ("fieldType", VStr "SINGLE_SELECT")])
         (hosting board)) =
  Content ("Error updating project item: Failed to find single select option: " +:+
           "Option 'Done' not found for field. Available options: undefined").
Proof.
  assert (H : accepts UpdateProjectItemSchema
                (obj [("projectId", VStr "P"); ("itemId", VStr "I"); ("fieldId", VStr "F3");
                      ("value", VStr "Done"); ("fieldType", VStr "SINGLE_SELECT")]) = true)
    by (vm_compute; reflexivity).
  split; [exact H|].
  destruct (single_select_lookup_failures (hosting board)
              (list_to_map [("projectId", VStr "P"); ("itemId", VStr "I"); ("fieldId", VStr "F3");
                            ("value", VStr "Done"); ("fieldType", VStr "SINGLE_SELECT")]) H)
    as [_ Hmissing]; [vm_compute; reflexivity|].
  unfold obj. rewrite (Hmissing _ eq_refl); [vm_compute; reflexivity | vm_compute; reflexivity].
Defined.

(** ** update-item-status: the option *)

(** When the search finds a status field that has options, and the status
    and the option names are ASCII, update-item-status takes the first
    option whose name equals the status up to letter case and, on success,
    reports the field's name and the status as the caller spelt it; when
    none matches it fails with a text listing every option name, having
    made the fetch only. *)
Theorem status_option_matching
    (env : Env) (o : gmap string jsval) (d : Data.t) (project : ProjectNode.t)
    (statusField : Field.t) (options : list SelectOption.t) :
  accepts UpdateItemStatusSchema (Some o) = true ->
  graphql env [] GET_PROJECT_DETAILS [("projectId", Js (prop o "projectId"))] = Resolved d ->
  Data.node d = Some project ->
  first_found isStatusField (nodes (ProjectNode.fields project)) statusField ->
  Field.options statusField = Some options ->
  ascii_only (str_of (prop o "status")) = true ->
  Forall (fun option => ascii_only (SelectOption.name option) = true) options ->
  let status := str_of (prop o "status") in
  let fetch :=
    Graphql GET_PROJECT_DETAILS [("projectId", Js (prop o "projectId"))] (Resolved d) in
  let run := updateItemStatus (Some o) env in
  ((forall option, In option options -> ~ same_ignoring_case (SelectOption.name option) status) ->
   run = (Content ("Error updating status: Status '" +:+ status +:+
                   "' not found. Available statuses: " +:+
                   join ", " (map SelectOption.name options)), [fetch])) /\
  (forall option r updatedId,
     first_match (fun opt => String.eqb (toLowerCase (SelectOption.name opt)) (toLowerCase status))
       options option ->
     graphql env [fetch] UPDATE_PROJECT_ITEM_FIELD
       [("projectId", Js (prop o "projectId")); ("itemId", Js (prop o "itemId"));
        ("fieldId", Js (js_of_opt (Field.id statusField)));
        ("value", Formatted (singleSelectOptionId (SelectOption.id option)))] = Resolved r ->
     Data.updateProjectV2ItemFieldValue r = Some updatedId ->
     fst run = Content ("Status updated successfully!" +:+ nl +:+ nl +:+
                        "Item ID: " +:+ updatedId +:+ nl +:+
                        "Field: " +:+ show_opt (Field.name statusField) +:+ nl +:+
                        "New Status: " +:+ status)).
Proof.
  intros Hacc Hfetch Hnode Hfirst Hoptions _ _ status fetch run.
  destruct (updateItemStatus_frame env o Hacc)
    as (projectId & itemId & st & E1 & E2 & E3 & Hrun).
  apply Array_find_first_found in Hfirst. rewrite <- findStatusField_nodes in Hfirst.
  subst status fetch run. rewrite E1, E2, E3 in *. cbn [str_of].
  rewrite Hrun. clear Hrun.
  unfold guarded, bind, graphqlClient.
  rewrite Hfetch, Hnode, Hfirst, Hoptions. cbn [app]. split.
  - intros Hnone. rewrite (findOption_none options st Hnone). reflexivity.
  - intros option r updatedId Hopt Hout Hid. apply find_first_match in Hopt.
    unfold findOption, chain. rewrite Hopt, Hout. unfold read. rewrite Hid. reflexivity.
Qed.

Lemma status_option_matching_witness :
  accepts UpdateItemStatusSchema
    (obj [("projectId", VStr "P"); ("itemId", VStr "I"); ("status", VStr "Blocked")]) = true /\
  updateItemStatus
    (obj [("projectId", VStr "P"); ("itemId", VStr "I"); ("status", VStr "Blocked")])
    (hosting board) =
  (Content "Error updating status: Status 'Blocked' not found. Available statuses: Todo, In Progress, Done",
   [Graphql GET_PROJECT_DETAILS [("projectId", Js (VStr "P"))]
      (Resolved (Data.ofNode (GET_PROJECT_DETAILS_page board)))]).
Proof.
  assert (H : accepts UpdateItemStatusSchema
                (obj [("projectId", VStr "P"); ("itemId", VStr "I"); ("status", VStr "Blocked")])
              = true) by (vm_compute; reflexivity).
  split; [exact H|].
  destruct (status_option_matching (hosting board)
              (list_to_map [("projectId", VStr "P"); ("itemId", VStr "I");
                            ("status", VStr "Blocked")])
              (Data.ofNode (GET_PROJECT_DETAILS_page board)) (GET_PROJECT_DETAILS_page board)
              (mkField "F2" "Status" "SINGLE_SELECT" (Some statusOptions)) statusOptions H)
    as [Hnone _].
  - reflexivity.
  - reflexivity.
  - exists [mkField "F1" "Title" "TITLE" None], [mkField "F3" "Estate" "TEXT" None].
    split; [reflexivity|]. split; [|vm_compute; reflexivity].
    constructor; [vm_compute; reflexivity | constructor].
  - reflexivity.
  - vm_compute. reflexivity.
  - repeat constructor.
  - unfold obj. rewrite Hnone; [vm_compute; reflexivity|].
    intros option Hin. simpl in Hin.
    destruct Hin as [<- | [<- | [<- | []]]]; vm_compute; discriminate.
Defined.

(** ** create-project: the owner id and the defaults *)

(** The create mutation carries the id of the lookup that answered, the
    user's when the user lookup returned one and the organization's when
    the user lookup threw, together with the caller's title and
    description; an omitted visibility goes out as PRIVATE. *)
Theorem createProject_mutation_variables (env : Env) (o : gmap string jsval) :
  accepts CreateProjectSchema (Some o) = true ->
  let login := [("login", Js (prop o "owner"))] in
  let user := graphql env [] GET_USER_ID login in
  let userLookup := Graphql GET_USER_ID login user in
  let org := graphql env [userLookup] GET_ORG_ID login in
  let orgLookup := Graphql GET_ORG_ID login org in
  let visibility := match prop o "visibility" with VUndefined => VStr "PRIVATE" | v => v end in
  let create ownerId :=
    [("ownerId", Js (VStr ownerId)); ("title", Js (prop o "title"));
     ("description", Js (prop o "description")); ("visibility", Js visibility)] in
  (forall d owner, user = Resolved d -> Data.user d = Some owner ->
     truthy_str (Owner.id owner) = true ->
     exists out,
       snd (createProject (Some o) env) =
         [userLookup; Graphql CREATE_PROJECT (create (Owner.id owner)) out]) /\
  (forall e d owner, user = Rejected e -> org = Resolved d ->
     Data.organization d = Some owner -> truthy_str (Owner.id owner) = true ->
     exists out,
       snd (createProject (Some o) env) =
         [userLookup; orgLookup; Graphql CREATE_PROJECT (create (Owner.id owner)) out]).
Proof.
  intros Hacc0 login user userLookup org orgLookup visibility create.
  unfold accepts in Hacc0.
  destruct (parse CreateProjectSchema (Some o)) as [|a] eqn:Hparse; [discriminate|].
  clear Hacc0.
  assert (Hnd : List.NoDup (map fst CreateProjectSchema)) by keys_distinct.
  pose proof (parse_accepts _ _ _ Hnd Hparse) as Hacc.
  destruct (Hacc "title" ZString) as [H1 P1]; [simpl; tauto|].
  destruct (Hacc "description" (ZOptional ZString)) as [H2 P2]; [simpl; tauto|].
  destruct (Hacc "owner" ZString) as [H3 P3]; [simpl; tauto|].
  destruct (Hacc "visibility" (ZDefault (ZEnum ["PUBLIC"; "PRIVATE"]) (VStr "PRIVATE")))
    as [H4 P4]; [simpl; tauto|].
  apply parse_ZString in H1 as (title & E1 & R1). rewrite R1, <- E1 in P1.
  apply parse_optional_ZString in H2 as [R2 _]. rewrite R2 in P2.
  apply parse_ZString in H3 as (owner & E3 & R3). rewrite R3, <- E3 in P3.
  assert (P4' : prop a "visibility" = visibility).
  { rewrite P4. subst visibility. clear.
    destruct (prop o "visibility"); simpl; try reflexivity.
    match goal with |- context [if ?b then _ else _] => destruct b end; reflexivity. }
  unfold createProject, parsing. rewrite Hparse, P1, P2, P3, P4'.
  unfold guarded, bind, try_catch, graphqlClient, ret. cbn [app].
  fold login. fold user. fold userLookup. split.
  - intros d ownerNode Huser Hnode Hid. rewrite Huser, Hnode.
    cbn [fmap option_fmap option_map truthy_opt]. rewrite Hid. cbn [negb js_of_opt].
    match goal with
    | |- context [graphql env ?l CREATE_PROJECT ?v] =>
        exists (graphql env l CREATE_PROJECT v); destruct (graphql env l CREATE_PROJECT v) as [r|e]
    end; [unfold read; destruct (Data.createProjectV2 r)|]; reflexivity.
  - intros e d ownerNode Huser Horg Hnode Hid. rewrite Huser.
    fold org. fold orgLookup. rewrite Horg, Hnode.
    cbn [fmap option_fmap option_map truthy_opt]. rewrite Hid. cbn [negb js_of_opt app].
    match goal with
    | |- context [graphql env ?l CREATE_PROJECT ?v] =>
        exists (graphql env l CREATE_PROJECT v); destruct (graphql env l CREATE_PROJECT v) as [r|e']
    end; [unfold read; destruct (Data.createProjectV2 r)|]; reflexivity.
Qed.

Lemma createProject_mutation_variables_witness :
  accepts CreateProjectSchema
    (obj [("title", VStr "Sprint Planning"); ("owner", VStr "acme-corp")]) = true /\
  exists out,
    snd (createProject (obj [("title", VStr "Sprint Planning"); ("owner", VStr "acme-corp")])
           (scripted (fun q => match q with
                               | GET_USER_ID =>
                                   Resolved {| Data.node := None;
                                               Data.user := Some {| Owner.id := "U_1";
                                                                    Owner.projectsV2 := None |};
                                               Data.organization := None;
                                               Data.createProjectV2 := None;
                                               Data.updateProjectV2 := None;
                                               Data.addProjectV2ItemById := None;
                                               Data.updateProjectV2ItemFieldValue := None;
                                               Data.createProjectV2Field := None |}
                               | _ => Rejected (ErrorObj "Not supported")
                               end)
                     (Rejected (ErrorObj "Not supported")))) =
    [Graphql GET_USER_ID [("login", Js (VStr "acme-corp"))]
       (Resolved {| Data.node := None;
                    Data.user := Some {| Owner.id := "U_1"; Owner.projectsV2 := None |};
                    Data.organization := None; Data.createProjectV2 := None;
                    Data.updateProjectV2 := None; Data.addProjectV2ItemById := None;
                    Data.updateProjectV2ItemFieldValue := None;
                    Data.createProjectV2Field := None |});
     Graphql CREATE_PROJECT
       [("ownerId", Js (VStr "U_1")); ("title", Js (VStr "Sprint Planning"));
        ("description", Js VUndefined); ("visibility", Js (VStr "PRIVATE"))] out].
Proof.
  assert (H : accepts CreateProjectSchema
                (obj [("title", VStr "Sprint Planning"); ("owner", VStr "acme-corp")]) = true)
    by (vm_compute; reflexivity).
  split; [exact H|].
  match goal with
  | |- exists out, snd (createProject _ ?env) = _ =>
      destruct (createProject_mutation_variables env
                  (list_to_map [("title", VStr "Sprint Planning"); ("owner", VStr "acme-corp")]) H)
        as [Huser _]
  end.
  destruct (Huser _ {| Owner.id := "U_1"; Owner.projectsV2 := None |} eq_refl eq_refl eq_refl)
    as [out Hlog].
  exists out. unfold obj. rewrite Hlog. vm_compute. reflexivity.
Defined.

(** ** create-issue: when the project is touched *)

Lemma CreateIssue_args (o : gmap string jsval) :
  accepts CreateIssueSchema (Some o) = true ->
  exists a,
    parse CreateIssueSchema (Some o) = inr a /\
    prop a "owner" = prop o "owner" /\ prop a "repo" = prop o "repo" /\
    prop a "title" = prop o "title" /\ prop a "body" = prop o "body" /\
    prop a "projectId" = prop o "projectId" /\
    (prop o "projectId" = VUndefined \/ exists s, prop o "projectId" = VStr s).
Proof.
  unfold accepts. destruct (parse CreateIssueSchema (Some o)) as [|a] eqn:Hparse;
    [discriminate|]. intros _.
  assert (Hnd : List.NoDup (map fst CreateIssueSchema)) by keys_distinct.
  pose proof (parse_accepts _ _ _ Hnd Hparse) as Hacc.
  destruct (Hacc "owner" ZString) as [H1 P1]; [simpl; tauto|].
  destruct (Hacc "repo" ZString) as [H2 P2]; [simpl; tauto|].
  destruct (Hacc "title" ZString) as [H3 P3]; [simpl; tauto|].
  destruct (Hacc "body" (ZOptional ZString)) as [H4 P4]; [simpl; tauto|].
  destruct (Hacc "projectId" (ZOptional ZString)) as [H5 P5]; [simpl; tauto|].
  apply parse_ZString in H1 as (s1 & E1 & R1).
  apply parse_ZString in H2 as (s2 & E2 & R2).
  apply parse_ZString in H3 as (s3 & E3 & R3).
  apply parse_optional_ZString in H4 as [R4 _].
  apply parse_optional_ZString in H5 as [R5 C5].
  exists a. repeat split; (congruence || exact C5).
Qed.

(** create-issue calls the REST endpoint first, with the caller's owner,
    repo, title and body.  If that call throws, or no project id was given
    (or an empty one), nothing else is called: the result is the error
    text, respectively the plain success text. *)
Theorem createIssue_without_project (env : Env) (o : gmap string jsval) :
  accepts CreateIssueSchema (Some o) = true ->
  let params := [("owner", prop o "owner"); ("repo", prop o "repo");
                 ("title", prop o "title"); ("body", prop o "body")] in
  let created := issues_create env [] params in
  let run := createIssue (Some o) env in
  (forall e, created = Rejected e ->
     run = (Content ("Error creating issue: " +:+ errorText e), [IssuesCreate params created])) /\
  (forall issue, created = Resolved issue ->
     prop o "projectId" = VUndefined \/ prop o "projectId" = VStr EmptyString ->
     run = (Content ("Issue created successfully!" +:+ nl +:+ nl +:+
                     "Title: " +:+ IssueData.title issue +:+ nl +:+
                     "Number: #" +:+ show_num (IssueData.number issue) +:+ nl +:+
                     "URL: " +:+ IssueData.html_url issue +:+ nl +:+
                     "Node ID: " +:+ IssueData.node_id issue),
            [IssuesCreate params created])).
Proof.
  intros Hacc params created run.
  destruct (CreateIssue_args o Hacc) as (a & Hparse & P1 & P2 & P3 & P4 & P5 & _).
  subst run. unfold createIssue, parsing. rewrite Hparse, P1, P2, P3, P4, P5.
  unfold guarded, bind, restClient_issues_create. fold params. fold created. cbn [app]. split.
  - intros e ->. reflexivity.
  - intros issue -> [H | H]; rewrite H; reflexivity.
Qed.

Lemma createIssue_without_project_witness :
  accepts CreateIssueSchema
    (obj [("owner", VStr "acme"); ("repo", VStr "app"); ("title", VStr "Fix login")]) = true /\
  snd (createIssue
         (obj [("owner", VStr "acme"); ("repo", VStr "app"); ("title", VStr "Fix login")])
         (scripted (fun _ => Resolved Data.empty) (Resolved issue42))) =
  [IssuesCreate [("owner", VStr "acme"); ("repo", VStr "app"); ("title", VStr "Fix login");
                 ("body", VUndefined)] (Resolved issue42)].
Proof.
  assert (H : accepts CreateIssueSchema
                (obj [("owner", VStr "acme"); ("repo", VStr "app"); ("title", VStr "Fix login")])
              = true) by (vm_compute; reflexivity).
  split; [exact H|].
  destruct (createIssue_without_project
              (scripted (fun _ => Resolved Data.empty) (Resolved issue42))
              (list_to_map [("owner", VStr "acme"); ("repo", VStr "app");
                            ("title", VStr "Fix login")]) H) as [_ Hplain].
  unfold obj. rewrite (Hplain issue42 eq_refl); [vm_compute; reflexivity|].
  left. vm_compute. reflexivity.
Defined.

(** With a project id given and the issue created, create-issue attaches
    the issue by the node id the REST call returned, under the caller's
    project id, and a successful attach adds its sentence to the text. *)
Theorem createIssue_attaches_created_issue
    (env : Env) (o : gmap string jsval) (projectId : string) (issue : IssueData.t) :
  accepts CreateIssueSchema (Some o) = true ->
  prop o "projectId" = VStr projectId ->
  projectId <> EmptyString ->
  IssueData.node_id issue <> EmptyString ->
  let params := [("owner", prop o "owner"); ("repo", prop o "repo");
                 ("title", prop o "title"); ("body", prop o "body")] in
  issues_create env [] params = Resolved issue ->
  let created := IssuesCreate params (Resolved issue) in
  let vars := [("projectId", Js (VStr projectId));
               ("contentId", Js (VStr (IssueData.node_id issue)))] in
  let out := graphql env [created] ADD_ITEM_TO_PROJECT vars in
  snd (createIssue (Some o) env) = [created; Graphql ADD_ITEM_TO_PROJECT vars out] /\
  forall r, out = Resolved r ->
    fst (createIssue (Some o) env) =
      Content ("Issue created successfully!" +:+ nl +:+ nl +:+
               "Title: " +:+ IssueData.title issue +:+ nl +:+
               "Number: #" +:+ show_num (IssueData.number issue) +:+ nl +:+
               "URL: " +:+ IssueData.html_url issue +:+ nl +:+
               "Node ID: " +:+ IssueData.node_id issue +:+ nl +:+ nl +:+
               "Issue added to project successfully!").
Proof.
  intros Hacc Hpid Hne Hnode params Hcreated created vars out.
  destruct (CreateIssue_args o Hacc) as (a & Hparse & P1 & P2 & P3 & P4 & P5 & _).
  unfold createIssue, parsing. rewrite Hparse, P1, P2, P3, P4, P5.
  unfold guarded, bind, restClient_issues_create. fold params. rewrite Hcreated, Hpid.
  assert (T1 : truthy (VStr projectId) = true) by (destruct projectId; [congruence | reflexivity]).
  assert (T2 : truthy_str (IssueData.node_id issue) = true)
    by (destruct (IssueData.node_id issue); [congruence | reflexivity]).
  rewrite T1, T2. cbn [andb app].
  unfold try_catch, bind, graphqlClient, ret. fold created. fold vars. fold out. split.
  - destruct out; reflexivity.
  - intros r ->. cbn [fst]. rewrite !append_assoc. reflexivity.
Qed.

Lemma createIssue_attaches_created_issue_witness :
  accepts CreateIssueSchema
    (obj [("owner", VStr "acme"); ("repo", VStr "app"); ("title", VStr "Fix login");
          ("projectId", VStr "P")]) = true /\
  snd (createIssue
         (obj [("owner", VStr "acme"); ("repo", VStr "app"); ("title", VStr "Fix login");
               ("projectId", VStr "P")])
         (scripted (fun _ => Resolved Data.empty) (Resolved issue42))) =
  [IssuesCreate [("owner", VStr "acme"); ("repo", VStr "app"); ("title", VStr "Fix login");
                 ("body", VUndefined)] (Resolved issue42);
   Graphql ADD_ITEM_TO_PROJECT [("projectId", Js (VStr "P")); ("contentId", Js (VStr "I_42"))]
     (Resolved Data.empty)].
Proof.
  assert (H : accepts CreateIssueSchema
                (obj [("owner", VStr "acme"); ("repo", VStr "app"); ("title", VStr "Fix login");
                      ("projectId", VStr "P")]) = true) by (vm_compute; reflexivity).
  split; [exact H|].
  destruct (createIssue_attaches_created_issue
              (scripted (fun _ => Resolved Data.empty) (Resolved issue42))
              (list_to_map [("owner", VStr "acme"); ("repo", VStr "app");
                            ("title", VStr "Fix login"); ("projectId", VStr "P")])
              "P" issue42 H) as [Hlog _];
    [vm_compute; reflexivity | discriminate | discriminate | reflexivity |].
  unfold obj. rewrite Hlog. vm_compute. reflexivity.
Defined.

(** ** get-project-items: the limit *)

(** get-project-items forwards the limit it was given as [first], whatever
    the number: it is neither clamped to the advertised 1..100 nor
    otherwise changed. *)
Theorem limit_is_forwarded_unchanged
    (env : Env) (o : gmap string jsval) (projectId : string) (n : Z) :
  prop o "projectId" = VStr projectId ->
  prop o "limit" = VNum n ->
  let vars := [("projectId", Js (VStr projectId)); ("first", Js (VNum n))] in
  snd (getProjectItems (Some o) env) =
    [Graphql GetProjectItems vars (graphql env [] GetProjectItems vars)].
Proof.
  intros E1 E2 vars.
  destruct (GetProjectItems_args o projectId (VNum n) E1 E2) as (a & Hparse & P1 & P2);
    [right; eauto|].
  unfold getProjectItems, parsing. rewrite Hparse, P1, P2.
  unfold guarded, bind, graphqlClient. cbn [app]. fold vars.
  destruct (graphql env [] GetProjectItems vars) as [d|e]; [|reflexivity].
  destruct (Data.node d) as [project|]; [|reflexivity].
  destruct (nodes (ProjectNode.items project)); reflexivity.
Qed.

Lemma limit_is_forwarded_unchanged_witness :
  prop (list_to_map [("projectId", VStr "P"); ("limit", VNum 1000)]) "projectId" = VStr "P" /\
  snd (getProjectItems (obj [("projectId", VStr "P"); ("limit", VNum 1000)]) (hosting board)) =
  [Graphql GetProjectItems [("projectId", Js (VStr "P")); ("first", Js (VNum 1000))]
     (Resolved (Data.ofNode (GetProjectItems_page 1000 board)))].
Proof.
  assert (H : prop (list_to_map [("projectId", VStr "P"); ("limit", VNum 1000)]) "projectId"
              = VStr "P") by (vm_compute; reflexivity).
  split; [exact H|].
  unfold obj.
  rewrite (limit_is_forwarded_unchanged (hosting board) _ "P" 1000 H);
    [reflexivity | vm_compute; reflexivity].
Defined.

(** ** Startup *)

(** Where the token comes from: a token in the process environment is
    used and no file can replace it; otherwise [.env.local], when it
    exists, is the only file consulted, so a token that only [.env] holds
    is not found; [.env] counts only when [.env.local] does not exist.  A
    missing or empty token makes the constructor throw. *)
Theorem startup_token_source
    (files : string -> option (gmap string string)) (env : gmap string string) :
  let required := inl (ErrorObj "GITHUB_TOKEN environment variable is required") in
  (forall token, env !! "GITHUB_TOKEN" = Some token ->
     startup files env = if truthy_str token then inr ("token " +:+ token) else required) /\
  (forall file, files ".env.local" = Some file -> env !! "GITHUB_TOKEN" = None ->
     startup files env =
       match file !! "GITHUB_TOKEN" with
       | Some token => if truthy_str token then inr ("token " +:+ token) else required
       | None => required
       end) /\
  (forall file, files ".env.local" = None -> files ".env" = Some file ->
     env !! "GITHUB_TOKEN" = None ->
     startup files env =
       match file !! "GITHUB_TOKEN" with
       | Some token => if truthy_str token then inr ("token " +:+ token) else required
       | None => required
       end) /\
  (files ".env.local" = None -> files ".env" = None -> env !! "GITHUB_TOKEN" = None ->
   startup files env = required).
Proof.
  intros required. unfold startup, loadEnvFiles, dotenv_config, constructor.
  split; [|split; [|split]].
  - intros token Htoken.
    destruct (files ".env.local") as [local|]; [|destruct (files ".env") as [file|]].
    + rewrite (lookup_union_Some_l env local _ _ Htoken). reflexivity.
    + rewrite (lookup_union_Some_l env file _ _ Htoken). reflexivity.
    + rewrite Htoken. reflexivity.
  - intros file -> Hnone. rewrite (lookup_union_r env file _ Hnone).
    destruct (file !! "GITHUB_TOKEN"); reflexivity.
  - intros file -> -> Hnone. rewrite (lookup_union_r env file _ Hnone).
    destruct (file !! "GITHUB_TOKEN"); reflexivity.
  - intros -> -> ->. reflexivity.
Qed.

Lemma startup_token_source_witness :
  (fun name : string => if String.eqb name ".env.local" then Some (∅ : gmap string string)
                        else if String.eqb name ".env"
                             then Some ({["GITHUB_TOKEN" := "ghp_abc"]} : gmap string string)
                             else None) ".env.local" = Some ∅ /\
  startup (fun name : string => if String.eqb name ".env.local" then Some ∅
                                else if String.eqb name ".env"
                                     then Some {["GITHUB_TOKEN" := "ghp_abc"]}
                                     else None) ∅ =
  inl (ErrorObj "GITHUB_TOKEN environment variable is required").
Proof.
  split; [reflexivity|].
  destruct (startup_token_source
              (fun name : string => if String.eqb name ".env.local" then Some ∅
                                    else if String.eqb name ".env"
                                         then Some {["GITHUB_TOKEN" := "ghp_abc"]}
                                         else None) ∅) as (_ & Hlocal & _).
  rewrite (Hlocal ∅ eq_refl (lookup_empty _)). reflexivity.
Defined.

(** ** Validation is idempotent *)

Lemma parse_output_defined (t : ZodType) (p : list string) (v : jsval) :
  v <> VUndefined -> snd (_parse t p v) <> VUndefined.
Proof.
  revert p v. induction t as [| |values|element IH|inner IH|inner IH dflt]; intros p v Hv.
  - destruct v; simpl; congruence.
  - destruct v; simpl; congruence.
  - destruct v; simpl; try congruence. destruct (mem_str s values); simpl; congruence.
  - destruct v; simpl; try congruence.
    destruct (parse_elements (_parse element) p 0 l); simpl; congruence.
  - destruct v; simpl; try (apply IH; congruence); congruence.
  - destruct v; simpl; try (apply IH; congruence); congruence.
Qed.

Lemma parse_elements_output (element : ZodType) (p q : list string) (i j : nat)
    (l : list jsval) :
  (forall p q v, snd (_parse element p v) = snd (_parse element q v)) ->
  snd (parse_elements (_parse element) p i l) = snd (parse_elements (_parse element) q j l).
Proof.
  intros Hel. revert i j. induction l as [|x l IH]; intros i j; simpl; [reflexivity|].
  specialize (IH (S i) (S j)). specialize (Hel (p ++ [pretty i]) (q ++ [pretty j]) x).
  destruct (_parse element (p ++ [pretty i]) x), (_parse element (q ++ [pretty j]) x).
  destruct (parse_elements (_parse element) p (S i) l),
           (parse_elements (_parse element) q (S j) l).
  simpl in *. congruence.
Qed.

(** What a type outputs does not depend on where the value sits. *)
Lemma parse_output_anywhere (t : ZodType) (p q : list string) (v : jsval) :
  snd (_parse t p v) = snd (_parse t q v).
Proof.
  revert p q v. induction t as [| |values|element IH|inner IH|inner IH dflt]; intros p q v.
  - destruct v; reflexivity.
  - destruct v; reflexivity.
  - destruct v; simpl; try reflexivity. destruct (mem_str s values); reflexivity.
  - destruct v; simpl; try reflexivity.
    pose proof (parse_elements_output element p q 0 0 l IH) as H.
    destruct (parse_elements (_parse element) p 0 l),
             (parse_elements (_parse element) q 0 l). simpl in *. congruence.
  - destruct v; simpl; try apply IH. reflexivity.
  - destruct v; simpl; apply IH.
Qed.

Lemma parse_elements_again (element : ZodType) (p q : list string) (i j : nat)
    (l : list jsval) :
  (forall p v, fst (_parse element p v) = [] ->
     forall q, _parse element q (snd (_parse element p v)) = ([], snd (_parse element p v))) ->
  fst (parse_elements (_parse element) p i l) = [] ->
  parse_elements (_parse element) q j (snd (parse_elements (_parse element) p i l)) =
  ([], snd (parse_elements (_parse element) p i l)).
Proof.
  intros Hel. revert i j. induction l as [|x l IH]; intros i j; simpl; [reflexivity|].
  specialize (IH (S i) (S j)). pose proof (Hel (p ++ [pretty i]) x) as Hx.
  destruct (_parse element (p ++ [pretty i]) x) as [is1 v].
  destruct (parse_elements (_parse element) p (S i) l) as [is2 vs]. simpl in *.
  intros H. apply app_eq_nil in H as [-> ->].
  rewrite (Hx eq_refl (q ++ [pretty j])), (IH eq_refl). reflexivity.
Qed.

(** A value that passed a type passes again, unchanged. *)
Lemma parse_again (t : ZodType) (p : list string) (v : jsval) :
  fst (_parse t p v) = [] ->
  forall q, _parse t q (snd (_parse t p v)) = ([], snd (_parse t p v)).
Proof.
  revert p v. induction t as [| |values|element IH|inner IH|inner IH dflt]; intros p v.
  - destruct v; simpl; intros H q; (discriminate || reflexivity).
  - destruct v; simpl; intros H q; (discriminate || reflexivity).
  - destruct v; simpl; try (intros H q; discriminate).
    destruct (mem_str s values) eqn:Hm; simpl; intros H q; [|discriminate].
    now rewrite Hm.
  - destruct v; simpl; try (intros H q; discriminate).
    pose proof (parse_elements_again element p) as Hagain.
    destruct (parse_elements (_parse element) p 0 l) as [iss vs] eqn:Hl. simpl.
    intros -> q. specialize (Hagain q 0%nat 0%nat l IH). rewrite Hl in Hagain. simpl in Hagain.
    rewrite (Hagain eq_refl). reflexivity.
  - assert (Hin : forall w, w <> VUndefined -> fst (_parse inner p w) = [] ->
              forall q, _parse (ZOptional inner) q (snd (_parse inner p w)) =
                        ([], snd (_parse inner p w))).
    { intros w Hw H q. pose proof (parse_output_defined inner p w Hw) as Hdef.
      pose proof (IH p w H q) as Hagain.
      destruct (snd (_parse inner p w)); simpl; congruence. }
    destruct v; simpl; try (apply Hin; congruence). reflexivity.
  - assert (Hin : forall w, w <> VUndefined -> fst (_parse inner p w) = [] ->
              forall q, _parse (ZDefault inner dflt) q (snd (_parse inner p w)) =
                        ([], snd (_parse inner p w))).
    { intros w Hw H q. pose proof (parse_output_defined inner p w Hw) as Hdef.
      pose proof (IH p w H q) as Hagain.
      destruct (snd (_parse inner p w)); simpl; congruence. }
    destruct v; simpl; try (apply Hin; congruence).
    intros H q. destruct (snd (_parse inner p dflt)) eqn:Hout;
      try (rewrite <- Hout; simpl; rewrite Hout; simpl; rewrite <- Hout; apply IH; exact H).
    simpl. rewrite (surjective_pairing (_parse inner q dflt)).
    rewrite (parse_output_anywhere inner q p dflt), Hout. f_equal.
    apply parse_clean_anywhere. apply parse_clean_anywhere in H. exact H.
Qed.

Lemma parse_shape_output_ext (shape : Shape) (o1 o2 : gmap string jsval) :
  (forall k t, In (k, t) shape ->
     snd (_parse t [k] (prop o1 k)) = snd (_parse t [k] (prop o2 k))) ->
  snd (parse_shape shape o1) = snd (parse_shape shape o2).
Proof.
  induction shape as [|[k t] shape IH]; simpl; intros H; [reflexivity|].
  pose proof (H k t (or_introl eq_refl)) as Hk.
  assert (Hrest : snd (parse_shape shape o1) = snd (parse_shape shape o2))
    by (apply IH; intros; apply H; now right).
  destruct (_parse t [k] (prop o1 k)), (_parse t [k] (prop o2 k)).
  destruct (parse_shape shape o1), (parse_shape shape o2). simpl in *. subst. reflexivity.
Qed.

Lemma schema_keys_distinct (name : string) (shape : Shape) :
  schemaOf name = Some shape -> List.NoDup (map fst shape).
Proof.
  unfold schemaOf.
  repeat match goal with
         | |- context [String.eqb name ?s] => destruct (String.eqb name s)
         end; intros [= <-]; keys_distinct.
Qed.

(** The arguments a tool's schema hands to its handler, defaults filled in
    and unknown keys dropped, pass the schema again unchanged; calling the
    tool with them behaves exactly like the original call. *)
Theorem parsed_arguments_are_a_fixed_point
    (name : string) (shape : Shape) (o a : gmap string jsval) (env : Env) :
  schemaOf name = Some shape ->
  parse shape (Some o) = inr a ->
  parse shape (Some a) = inr a /\
  callTool name (Some a) env = callTool name (Some o) env.
Proof.
  intros Hschema Hparse.
  pose proof (schema_keys_distinct name shape Hschema) as Hnd.
  pose proof (parse_accepts shape o a Hnd Hparse) as Hacc.
  assert (Hagain : forall k t, In (k, t) shape ->
            _parse t [k] (prop a k) = ([], snd (_parse t [k] (prop o k)))).
  { intros k t Hin. destruct (Hacc k t Hin) as [Hclean ->]. now apply parse_again. }
  assert (Hsame : parse shape (Some a) = inr a).
  { rewrite parse_clean.
    - f_equal. rewrite (parse_shape_output_ext shape a o).
      + unfold parse in Hparse. destruct (parse_shape shape o) as [iss out].
        destruct iss; [|discriminate]. now injection Hparse as ->.
      + intros k t Hin. now rewrite (Hagain k t Hin).
    - clear -Hagain. induction shape as [|[k t] shape IH]; simpl; [reflexivity|].
      rewrite (Hagain k t (or_introl eq_refl)). simpl.
      apply IH. intros k' t' Hin. apply Hagain. now right. }
  split; [exact Hsame|].
  destruct (route_guarded name shape Hschema) as (prefix & body & Hroute).
  unfold callTool. rewrite !Hroute. unfold parsing. rewrite Hparse, Hsame. reflexivity.
Qed.

Lemma parsed_arguments_are_a_fixed_point_witness :
  schemaOf "get-project-items" = Some GetProjectItemsSchema /\
  parse GetProjectItemsSchema
    (obj [("projectId", VStr "P"); ("limit", VNum 20)]) =
  parse GetProjectItemsSchema (obj [("projectId", VStr "P"); ("cursor", VStr "x")]).
Proof.
  split; [reflexivity|].
  assert (H : parse GetProjectItemsSchema (obj [("projectId", VStr "P"); ("cursor", VStr "x")]) =
              inr (list_to_map [("projectId", VStr "P"); ("limit", VNum 20)]))
    by (vm_compute; reflexivity).
  rewrite H.
  exact (proj1 (parsed_arguments_are_a_fixed_point "get-project-items" GetProjectItemsSchema
                  _ _ nobody eq_refl H)).
Defined.

(** ** get-project-items: the body preview of a draft *)





(** ** Upstream outage *)

Ltac outage_step Hg Hr :=
  first [ rewrite Hg | rewrite Hr | progress cbn [app fst snd errorText]
        | match goal with
          | |- context [match ?x with _ => _ end] =>
              lazymatch x with
              | context [match _ with _ => _ end] => fail
              | context [graphql] => fail
              | context [issues_create] => fail
              | _ => destruct x
              end
          end ].

(** When every GitHub call throws the same error, every tool called with
    accepted arguments still answers with a text: an "Error ..." prefix of
    its own followed by the upstream error's message. *)
Theorem upstream_outage_is_reported
    (name : string) (o : gmap string jsval) (env : Env) (e : Thrown) :
  In name toolNames ->
  (forall shape, schemaOf name = Some shape -> accepts shape (Some o) = true) ->
  (forall log q vars, graphql env log q vars = Rejected e) ->
  (forall log params, issues_create env log params = Rejected e) ->
  exists prefix,
    fst (callTool name (Some o) env) = Content (prefix +:+ errorText e) /\
    String.prefix "Error " prefix = true.
Proof.
  intros Hin Hacc Hg Hr.
  assert (Hcall : fst (callTool name (Some o) env) = fst (route name (Some o) env) \/
                  exists errors, fst (route name (Some o) env) = Raise (ZodError errors)).
  { unfold callTool. destruct (route name (Some o) env) as [[t|[errors|code message|x]] log];
      [left; reflexivity | right; eauto | left; reflexivity | left; reflexivity]. }
  assert (Hroute : exists prefix,
            fst (route name (Some o) env) = Content (prefix +:+ errorText e) /\
            String.prefix "Error " prefix = true).
  { cbv [toolNames tools map Tool.name] in Hin. simpl in Hin.
    destruct Hin as [<- | [<- | [<- | [<- | [<- | [<- | [<- | [<- | [<- | [<- | [<- | []]]]]]]]]]]];
      try (specialize (Hacc _ eq_refl); unfold accepts in Hacc);
      unfold route; cbn [String.eqb Ascii.eqb Bool.eqb];
      open_run;
      try match goal with
          | H : match parse ?s ?x with _ => _ end = true |- _ =>
              destruct (parse s x) as [|a]; [discriminate|]
          end;
      repeat outage_step Hg Hr;
      first [ eexists; split; [reflexivity | reflexivity]
            | exists "Error updating project item: Failed to find single select option: ";
              split; reflexivity ]. }
  destruct Hroute as (prefix & Hroute & Hprefix). exists prefix. split; [|exact Hprefix].
  destruct Hcall as [-> | [errors Herr]]; [exact Hroute | congruence].
Qed.

Lemma upstream_outage_is_reported_witness :
  In "update-project-item" toolNames /\
  fst (callTool "update-project-item"
         (obj [("projectId", VStr "P"); ("itemId", VStr "I"); ("fieldId", VStr "F2");
               ("value", VStr "Done"); ("fieldType", VStr "SINGLE_SELECT")])
         (scripted (fun _ => Rejected (ErrorObj "Bad credentials"))
                   (Rejected (ErrorObj "Bad credentials")))) =
  Content "Error updating project item: Failed to find single select option: Bad credentials".
Proof.
  assert (H : In "update-project-item" toolNames).
  { cbv [toolNames tools map Tool.name]. simpl. tauto. }
  split; [exact H|].
  destruct (upstream_outage_is_reported "update-project-item"
              (list_to_map [("projectId", VStr "P"); ("itemId", VStr "I"); ("fieldId", VStr "F2");
                            ("value", VStr "Done"); ("fieldType", VStr "SINGLE_SELECT")])
              (scripted (fun _ => Rejected (ErrorObj "Bad credentials"))
                        (Rejected (ErrorObj "Bad credentials")))
              (ErrorObj "Bad credentials") H) as (prefix & Htext & _).
  - intros shape [= <-]. vm_compute. reflexivity.
  - reflexivity.
  - reflexivity.
  - vm_compute. reflexivity.
Defined.
